(** * now dev: request routing, asset resolution and build orchestration

    A shallow embedding of the two development-server variants of the
    repository,

      - [Old]: src/commands/dev/dev-server.ts
      - [Lib]: src/commands/dev/lib/dev-server.ts

    together with the fragments of the JavaScript runtime they rely on
    ([Js]) and the base64 codec of Node's [Buffer] ([Base64]).

    Every handler is modelled as a computation in a small state-and-exception
    monad over the server fields, the response under construction and a log
    of the calls made to external collaborators. *)

From Stdlib Require Import String Ascii List ZArith Bool Arith Lia.
Import ListNotations.
Open Scope string_scope.

(* ================================================================== *)
(** * JavaScript runtime fragments *)
(* ================================================================== *)

Module Js.

(** ** Objects used as maps

    An object is the list of its own properties in the order in which
    [Object.keys] lists them: the keys that are array indexes first, in
    ascending numeric order, then the other keys in the order in which they
    were added.  Keys are unique. *)

Definition Obj (V : Type) := list (string * V).

(** The own property [k], if any. *)
Fixpoint get {V} (o : Obj V) (k : string) : option V :=
  match o with
  | [] => None
  | (k', v) :: o' => if String.eqb k' k then Some v else get o' k
  end.

Definition keys {V} (o : Obj V) : list string := map fst o.
Definition values {V} (o : Obj V) : list V := map snd o.

(** The property names that every plain object inherits from
    [Object.prototype]. *)
Definition prototype_properties : list string :=
  ["constructor"; "__defineGetter__"; "__defineSetter__"; "hasOwnProperty";
   "__lookupGetter__"; "__lookupSetter__"; "isPrototypeOf";
   "propertyIsEnumerable"; "toString"; "valueOf"; "__proto__";
   "toLocaleString"].

Definition inherited (k : string) : bool :=
  existsb (String.eqb k) prototype_properties.

(** [o[k]] on a plain object: the own property when there is one, else what
    [Object.prototype] holds under that name, else [undefined].  [proto]
    says how an inherited value looks to the caller. *)
Definition access {V} (proto : string -> V) (o : Obj V) (k : string)
  : option V :=
  match get o k with
  | Some v => Some v
  | None => if inherited k then Some (proto k) else None
  end.

Definition digit_of (c : ascii) : option nat :=
  let n := nat_of_ascii c in
  if Nat.leb 48 n && Nat.leb n 57 then Some (n - 48) else None.

Fixpoint digits_value (s : string) (acc : N) : option N :=
  match s with
  | EmptyString => Some acc
  | String c r =>
      match digit_of c with
      | Some d => digits_value r (10 * acc + N.of_nat d)%N
      | None => None
      end
  end.

(** The array index a key denotes: a canonical decimal numeral (no leading
    zero) below [2^32 - 1]. *)
Definition array_index (k : string) : option N :=
  match k with
  | EmptyString => None
  | String c r =>
      if Ascii.eqb c "0" && negb (String.eqb r "") then None
      else match digits_value k 0 with
           | Some n => if N.leb n 4294967294 then Some n else None
           | None => None
           end
  end.

(** Whether a list of keys is in the order of [Object.keys]: array indexes
    in strictly ascending order, then keys that are no array index, none
    twice. *)
Fixpoint enumerated (ks : list string) : bool :=
  match ks with
  | [] => true
  | k :: rest =>
      match array_index k with
      | Some i =>
          match rest with
          | k2 :: _ =>
              match array_index k2 with
              | Some j => N.ltb i j
              | None => true
              end
          | [] => true
          end
      | None =>
          forallb (fun k2 => match array_index k2 with
                             | Some _ => false
                             | None => negb (String.eqb k2 k)
                             end) rest
      end && enumerated rest
  end.

(** Replacing the value of a key the object has. *)
Fixpoint update {V} (o : Obj V) (k : string) (v : V) : Obj V :=
  match o with
  | [] => []
  | (k', v') :: o' =>
      if String.eqb k' k then (k', v) :: o' else (k', v') :: update o' k v
  end.

(** Adding a key the object does not have: an array index goes before the
    first key that is a larger index or no index, any other key goes last. *)
Fixpoint insert {V} (o : Obj V) (k : string) (v : V) : Obj V :=
  match o with
  | [] => [(k, v)]
  | (k', v') :: o' =>
      match array_index k with
      | Some i =>
          match array_index k' with
          | Some j =>
              if N.ltb i j then (k, v) :: o else (k', v') :: insert o' k v
          | None => (k, v) :: o
          end
      | None => (k', v') :: insert o' k v
      end
  end.

(** [o[k] = v] *)
Definition set {V} (o : Obj V) (k : string) (v : V) : Obj V :=
  match get o k with
  | Some _ => update o k v
  | None => insert o k v
  end.

(** [{...a, ...b}]: the properties of [b] are set on a copy of [a] in the
    order of [b], so the values of [b] win and the keys of [a] keep their
    place. *)
Definition spread {V} (a b : Obj V) : Obj V :=
  fold_left (fun acc kv => set acc (fst kv) (snd kv)) b a.

(** [a || b] on values that are objects or [undefined]. *)
Definition orElse {A} (a b : option A) : option A :=
  match a with
  | Some x => Some x
  | None => b
  end.

(** A string is truthy unless it is empty. *)
Definition truthy (s : string) : bool := negb (String.eqb s "").

(** Template literal rendering of a possibly undefined string. *)
Definition show (o : option string) : string :=
  match o with
  | Some s => s
  | None => "undefined"
  end.

(** ** The three fixed regular expressions of the sources *)

(** [s.replace(/^\//, '')] *)
Definition strip_leading_slash (s : string) : string :=
  match s with
  | String "/" r => r
  | _ => s
  end.

(** [s.replace(/\/$/, '')] *)
Fixpoint strip_trailing_slash (s : string) : string :=
  match s with
  | EmptyString => EmptyString
  | String c r =>
      match r with
      | EmptyString => if Ascii.eqb c "/" then EmptyString else s
      | _ => String c (strip_trailing_slash r)
      end
  end.

(** [\w] *)
Definition is_word_char (c : ascii) : bool :=
  let n := nat_of_ascii c in
  (Nat.leb 65 n && Nat.leb n 90)
  || (Nat.leb 97 n && Nat.leb n 122)
  || (Nat.leb 48 n && Nat.leb n 57)
  || Nat.eqb n 95.

Fixpoint all_word_chars (s : string) : bool :=
  match s with
  | EmptyString => true
  | String c r => is_word_char c && all_word_chars r
  end.

Fixpoint drop_prefix (p s : string) : option string :=
  match p with
  | EmptyString => Some s
  | String a p' =>
      match s with
      | String b s' => if Ascii.eqb a b then drop_prefix p' s' else None
      | EmptyString => None
      end
  end.

(** [(\.\w+)?$] applied to what follows [index]. *)
Definition ext_to_end (u : string) : bool :=
  match u with
  | EmptyString => true
  | String "." w => truthy w && all_word_chars w
  | _ => false
  end.

(** [index(\.\w+)?$] matched at the start of [t]. *)
Definition index_to_end (t : string) : bool :=
  match drop_prefix "index" t with
  | Some u => ext_to_end u
  | None => false
  end.

(** [\/?index(\.\w+)?$] matched at the start of [s]: the optional slash is
    consumed when present (without it the next character would have to be
    the [i] of [index]). *)
Definition index_pattern_at (s : string) : bool :=
  match s with
  | String "/" t => index_to_end t
  | _ => index_to_end s
  end.

(** [name.replace(/\/?index(\.\w+)?$/, '')]: the leftmost position at which
    the pattern matches up to the end of the string is where the string is
    cut; a string with no such position is returned as it is. *)
Fixpoint strip_index (name : string) : string :=
  if index_pattern_at name then EmptyString
  else match name with
       | EmptyString => EmptyString
       | String c r => String c (strip_index r)
       end.

(** ** [String.prototype.replace] with a non-global [RegExp]

    The regular-expression engine itself is the runtime's; the sources only
    build a pattern string and hand it to [new RegExp].  The engine is
    therefore a parameter: it receives the pattern source and the subject
    and reports a syntax error, no match, or the leftmost match. *)

Record RegExpMatch := mkMatch {
  index : nat;                      (* position of the match *)
  matched : string;                 (* the matched substring *)
  captures : list (option string);  (* groups 1.., [None] when unset *)
  groups : option (Obj (option string))
                                    (* named groups, when the pattern has any *)
}.

Inductive ExecResult :=
| SyntaxError (msg : string)
| NoMatch
| Match (m : RegExpMatch).

Definition Engine := string -> string -> ExecResult.

Fixpoint skip (n : nat) (s : string) : string :=
  match n, s with
  | O, _ => s
  | S n', String _ r => skip n' r
  | S _, EmptyString => EmptyString
  end.

(** Capture [n] (counted from 1) when the pattern has that many groups. *)
Definition capture (caps : list (option string)) (n : nat) : option string :=
  match n with
  | O => None
  | S k =>
      match nth_error caps k with
      | Some (Some s) => Some s
      | Some None => Some EmptyString
      | None => None
      end
  end.

(** Whether a [>] closes a group name started by [$<]. *)
Fixpoint has_gt (s : string) : bool :=
  match s with
  | EmptyString => false
  | String c r => Ascii.eqb c ">" || has_gt r
  end.

(** The named capture [name]; a group that is unset or unknown gives the
    empty string. *)
Definition named_capture (m : RegExpMatch) (name : string) : string :=
  match groups m with
  | Some gs =>
      match get gs name with
      | Some (Some s) => s
      | _ => EmptyString
      end
  | None => EmptyString
  end.

(** The expansion of the [$] escapes of a replacement template.  [name] is
    the group name read so far after a [$<] that a [>] closes.  A reference
    to a group the pattern does not have stays literal; a two-digit
    reference falls back to its first digit; [$<] is literal when the
    pattern has no named group or no [>] follows. *)
Fixpoint substitution (m : RegExpMatch) (before after : string)
  (name : option string) (tpl : string) : string :=
  match name with
  | Some n =>
      match tpl with
      | EmptyString => EmptyString
      | String c rest =>
          if Ascii.eqb c ">"
          then named_capture m n ++ substitution m before after None rest
          else substitution m before after (Some (n ++ String c EmptyString)) rest
      end
  | None =>
      match tpl with
      | EmptyString => EmptyString
      | String "$" (String c rest as tl) =>
          if Ascii.eqb c "$" then String "$" (substitution m before after None rest)
          else if Ascii.eqb c "&" then matched m ++ substitution m before after None rest
          else if Ascii.eqb c "`" then before ++ substitution m before after None rest
          else if Ascii.eqb c "'" then after ++ substitution m before after None rest
          else if Ascii.eqb c "<" then
            match groups m with
            | Some _ =>
                if has_gt rest
                then substitution m before after (Some EmptyString) rest
                else String "$" (substitution m before after None tl)
            | None => String "$" (substitution m before after None tl)
            end
          else
            match digit_of c with
            | None => String "$" (substitution m before after None tl)
            | Some d1 =>
                let one :=
                  match capture (captures m) d1 with
                  | Some s => s ++ substitution m before after None rest
                  | None => String "$" (substitution m before after None tl)
                  end in
                match rest with
                | String c2 rest2 =>
                    match digit_of c2 with
                    | Some d2 =>
                        match capture (captures m) (10 * d1 + d2) with
                        | Some s => s ++ substitution m before after None rest2
                        | None => one
                        end
                    | None => one
                    end
                | EmptyString => one
                end
            end
      | String c rest => String c (substitution m before after None rest)
      end
  end.

(** [GetSubstitution] *)
Definition GetSubstitution (m : RegExpMatch) (before after tpl : string)
  : string :=
  substitution m before after None tpl.

(** [subject.replace(new RegExp(pattern), replacement)] *)
Definition replace (exec : Engine) (subject pattern replacement : string)
  : string + string :=
  match exec pattern subject with
  | SyntaxError msg => inr msg
  | NoMatch => inl subject
  | Match m =>
      let before := substring 0 (index m) subject in
      let after := skip (index m + String.length (matched m)) subject in
      inl (before ++ GetSubstitution m before after replacement ++ after)
  end.

(** An engine for patterns of the shape [^text$] whose [text] has no
    metacharacter: it matches exactly the subject [text]. *)
Fixpoint drop_last_dollar (s : string) : option string :=
  match s with
  | EmptyString => None
  | String c r =>
      match r with
      | EmptyString => if Ascii.eqb c "$" then Some EmptyString else None
      | _ => option_map (String c) (drop_last_dollar r)
      end
  end.

Definition anchored_literal_exec : Engine := fun pattern subject =>
  match pattern with
  | String "^" body =>
      match drop_last_dollar body with
      | Some text =>
          if String.eqb text subject
          then Match (mkMatch 0 subject [] None)
          else NoMatch
      | None => NoMatch
      end
  | _ => NoMatch
  end.

(** ** Exceptions and the handler monad *)

(** The [stack] of an error starts with its message; the frames that follow
    are not modelled. *)
Record Error := mkError {
  message : string;
  code : option string;
  meta : option string;
  stack : string
}.

(** [new Error(msg)] *)
Definition error (msg : string) : Error := mkError msg None None msg.

Inductive Outcome (A : Type) :=
| Ok (a : A)
| Throw (e : Error).
Arguments Ok {A} a.
Arguments Throw {A} e.

(** A computation over a mutable store [S]: assignments made before an
    exception is thrown stay in the store. *)
Definition M (S A : Type) := S -> Outcome A * S.

Definition ret {S A} (a : A) : M S A := fun s => (Ok a, s).
Definition throw {S A} (e : Error) : M S A := fun s => (Throw e, s).
Definition bind {S A B} (m : M S A) (f : A -> M S B) : M S B :=
  fun s =>
    match m s with
    | (Ok a, s') => f a s'
    | (Throw e, s') => (Throw e, s')
    end.
Definition try_catch {S A} (m : M S A) (h : Error -> M S A) : M S A :=
  fun s =>
    match m s with
    | (Ok a, s') => (Ok a, s')
    | (Throw e, s') => h e s'
    end.
Definition read {S} : M S S := fun s => (Ok s, s).
Definition modify {S} (f : S -> S) : M S unit := fun s => (Ok tt, f s).
Definition lift {S A} (o : Outcome A) : M S A := fun s => (o, s).

(** [for (const x of xs) { await body(x) }] *)
Fixpoint for_of {S A} (xs : list A) (body : A -> M S unit) : M S unit :=
  match xs with
  | [] => ret tt
  | x :: xs' => bind (body x) (fun _ => for_of xs' body)
  end.

End Js.

Declare Scope js_scope.
Delimit Scope js_scope with js.
Notation "x <- m ;; k" := (Js.bind m (fun x => k))
  (at level 61, m at next level, right associativity) : js_scope.
Notation "m ;;; k" := (Js.bind m (fun _ => k))
  (at level 61, right associativity) : js_scope.

(* ================================================================== *)
(** * Node's [Buffer] base64 codec *)
(* ================================================================== *)

Module Base64.

(** A [Buffer] is a sequence of octets. *)
Definition Buffer := list ascii.

(** Six bits, most significant first. *)
Inductive sextet := Sx (b5 b4 b3 b2 b1 b0 : bool).

Definition bit (b : bool) : nat := if b then 1 else 0.

Definition sextet_value (x : sextet) : nat :=
  match x with
  | Sx b5 b4 b3 b2 b1 b0 =>
      32 * bit b5 + 16 * bit b4 + 8 * bit b3 + 4 * bit b2 + 2 * bit b1 + bit b0
  end.

Definition sextet_of_nat (n : nat) : sextet :=
  Sx (Nat.testbit n 5) (Nat.testbit n 4) (Nat.testbit n 3)
     (Nat.testbit n 2) (Nat.testbit n 1) (Nat.testbit n 0).

Definition alphabet : string :=
  "ABCDEFGHIJKLMNOPQRSTUVWXYZabcdefghijklmnopqrstuvwxyz0123456789+/".

Definition pad : ascii := "="%char.

Definition encode_sextet (x : sextet) : ascii :=
  match String.get (sextet_value x) alphabet with
  | Some c => c
  | None => pad
  end.

(** The decoder's table: the standard alphabet and the URL-safe one. *)
Definition unbase64 (c : ascii) : option nat :=
  let n := nat_of_ascii c in
  if Nat.leb 65 n && Nat.leb n 90 then Some (n - 65)
  else if Nat.leb 97 n && Nat.leb n 122 then Some (n - 97 + 26)
  else if Nat.leb 48 n && Nat.leb n 57 then Some (n - 48 + 52)
  else if Nat.eqb n 43 || Nat.eqb n 45 then Some 62
  else if Nat.eqb n 47 || Nat.eqb n 95 then Some 63
  else None.

Definition decode_char (c : ascii) : option sextet :=
  option_map sextet_of_nat (unbase64 c).

(** Regrouping of three octets into four sextets. *)
Definition zero : ascii := Ascii.zero.

Definition hi6 (a : ascii) : sextet :=
  match a with
  | Ascii _ _ a2 a3 a4 a5 a6 a7 => Sx a7 a6 a5 a4 a3 a2
  end.

Definition mid_ab (a b : ascii) : sextet :=
  match a, b with
  | Ascii a0 a1 _ _ _ _ _ _, Ascii _ _ _ _ b4 b5 b6 b7 => Sx a1 a0 b7 b6 b5 b4
  end.

Definition mid_bc (b c : ascii) : sextet :=
  match b, c with
  | Ascii b0 b1 b2 b3 _ _ _ _, Ascii _ _ _ _ _ _ c6 c7 => Sx b3 b2 b1 b0 c7 c6
  end.

Definition lo6 (c : ascii) : sextet :=
  match c with
  | Ascii c0 c1 c2 c3 c4 c5 _ _ => Sx c5 c4 c3 c2 c1 c0
  end.

(** [buf.toString('base64')] *)
Fixpoint encode (bs : Buffer) : string :=
  match bs with
  | [] => EmptyString
  | [a] =>
      String (encode_sextet (hi6 a))
        (String (encode_sextet (mid_ab a zero)) (String pad (String pad EmptyString)))
  | [a; b] =>
      String (encode_sextet (hi6 a))
        (String (encode_sextet (mid_ab a b))
           (String (encode_sextet (mid_bc b zero)) (String pad EmptyString)))
  | a :: b :: c :: r =>
      String (encode_sextet (hi6 a))
        (String (encode_sextet (mid_ab a b))
           (String (encode_sextet (mid_bc b c))
              (String (encode_sextet (lo6 c)) (encode r))))
  end.

(** Regrouping of sextets into octets. *)
Definition byte1 (x y : sextet) : ascii :=
  match x, y with
  | Sx x5 x4 x3 x2 x1 x0, Sx y5 y4 _ _ _ _ => Ascii y4 y5 x0 x1 x2 x3 x4 x5
  end.

Definition byte2 (y z : sextet) : ascii :=
  match y, z with
  | Sx _ _ y3 y2 y1 y0, Sx z5 z4 z3 z2 _ _ => Ascii z2 z3 z4 z5 y0 y1 y2 y3
  end.

Definition byte3 (z w : sextet) : ascii :=
  match z, w with
  | Sx _ _ _ _ z1 z0, Sx w5 w4 w3 w2 w1 w0 => Ascii w0 w1 w2 w3 w4 w5 z0 z1
  end.

(** The decoder skips characters outside its table and stops at the first
    padding character. *)
Fixpoint sextets (s : string) : list sextet :=
  match s with
  | EmptyString => []
  | String c r =>
      if Ascii.eqb c pad then []
      else match decode_char c with
           | Some x => x :: sextets r
           | None => sextets r
           end
  end.

Fixpoint octets (l : list sextet) : Buffer :=
  match l with
  | x :: y :: z :: w :: r => byte1 x y :: byte2 y z :: byte3 z w :: octets r
  | [x; y; z] => [byte1 x y; byte2 y z]
  | [x; y] => [byte1 x y]
  | _ => []
  end.

(** [Buffer.from(s, 'base64')] *)
Definition decode (s : string) : Buffer := octets (sextets s).

(** [Buffer.from(s)] and [buf.toString()] on one-byte characters. *)
Definition of_string (s : string) : Buffer := list_ascii_of_string s.
Definition to_string (b : Buffer) : string := string_of_list_ascii b.


(** The sample body of the sources, [{"eiyo":true}], and its encoding. *)
Definition dquote : ascii := ascii_of_nat 34.

Definition eiyo : string :=
  String "{" (String dquote ("eiyo" ++ String dquote ":true}")).

Definition eiyo_base64 : string := "eyJlaXlvIjp0cnVlfQ==".

End Base64.

(* ================================================================== *)
(** * Node's [http] messages *)
(* ================================================================== *)

Module Req.
Record t := mk {
  method : option string;
  url : option string;
  headers : list (string * string);
  body : Base64.Buffer
}.
End Req.

Module Res.

(** What a response was ended with, or which collaborator it was handed
    to. *)
Inductive Sent :=
| End                                  (* [res.end()] *)
| EndText (s : string)                 (* [res.end(s)] *)
| EndBuffer (b : Base64.Buffer)        (* [res.end(buffer)] *)
| ServeHandler (public : string) (url : option string)
                                       (* serve-handler over a directory *)
| ProxyWeb (target : string).          (* http-proxy to a target *)

(** A header value: a string or a number. *)
Inductive Value :=
| Text (s : string)
| Number (n : nat).

(** The headers are kept under their lower-cased name, with the name as it
    was written and the value. *)
Record t := mk {
  statusCode : Z;
  headers : Js.Obj (string * Value);
  sent : option Sent
}.

(** A fresh response: status 200, no header, not finished. *)
Definition fresh : t := mk 200 [] None.

Definition finished (r : t) : bool :=
  match sent r with
  | Some _ => true
  | None => false
  end.

Definition setStatusCode (c : Z) (r : t) : t := mk c (headers r) (sent r).

Definition lower_char (c : ascii) : ascii :=
  let n := nat_of_ascii c in
  if Nat.leb 65 n && Nat.leb n 90 then ascii_of_nat (n + 32) else c.

Fixpoint lower (s : string) : string :=
  match s with
  | EmptyString => EmptyString
  | String c r => String (lower_char c) (lower r)
  end.

(** The characters of an HTTP token: letters, digits and
    [! # $ % & ' * + - . ^ _ ` | ~]. *)
Definition token_char (c : ascii) : bool :=
  let n := nat_of_ascii c in
  (Nat.leb 65 n && Nat.leb n 90)
  || (Nat.leb 97 n && Nat.leb n 122)
  || (Nat.leb 48 n && Nat.leb n 57)
  || existsb (Nat.eqb n) [33; 35; 36; 37; 38; 39; 42; 43; 45; 46; 94; 95; 96; 124; 126].

Fixpoint all_chars (p : ascii -> bool) (s : string) : bool :=
  match s with
  | EmptyString => true
  | String c r => p c && all_chars p r
  end.

Definition valid_name (name : string) : bool :=
  Js.truthy name && all_chars token_char name.

(** A character allowed in header content: a tab, or anything from the space
    on but the delete character. *)
Definition content_char (c : ascii) : bool :=
  let n := nat_of_ascii c in
  Nat.eqb n 9 || (Nat.leb 32 n && negb (Nat.eqb n 127)).

Definition valid_value (v : Value) : bool :=
  match v with
  | Text s => all_chars content_char s
  | Number _ => true
  end.

Definition quote : ascii := ascii_of_nat 34.

Definition bracketed (name : string) : string :=
  String "[" (String quote (name ++ String quote "]")).

Definition coded (c msg : string) : Js.Error :=
  Js.mkError msg (Some c) None msg.

(** [res.setHeader(name, value)]: refused once the headers have gone out,
    for a name that is no token, and for a value with a forbidden
    character. *)
Definition setHeader (name : string) (value : Value) (r : t) : Js.Outcome t :=
  if finished r then
    Js.Throw (coded "ERR_HTTP_HEADERS_SENT"
                "Cannot set headers after they are sent to the client")
  else if negb (valid_name name) then
    Js.Throw (coded "ERR_INVALID_HTTP_TOKEN"
                ("Header name must be a valid HTTP token " ++ bracketed name))
  else if negb (valid_value value) then
    Js.Throw (coded "ERR_INVALID_CHAR"
                ("Invalid character in header content " ++ bracketed name))
  else
    Js.Ok (mk (statusCode r) (Js.set (headers r) (lower name) (name, value))
             (sent r)).

(** [res.getHeader(name)] *)
Definition getHeader (name : string) (r : t) : option Value :=
  option_map snd (Js.get (headers r) (lower name)).

(** Setting the entries of a header object one after the other. *)
Fixpoint set_all (hs : Js.Obj string) (r : t) : Js.Outcome t :=
  match hs with
  | [] => Js.Ok r
  | (name, value) :: rest =>
      match setHeader name (Text value) r with
      | Js.Ok r' => set_all rest r'
      | Js.Throw e => Js.Throw e
      end
  end.

(** Ending a response twice keeps the first ending. *)
Definition finish (s : Sent) (r : t) : t :=
  match sent r with
  | Some _ => r
  | None => mk (statusCode r) (headers r) (Some s)
  end.

End Res.

Module DevServerStatus.
Inductive t := busy | idle | error.
End DevServerStatus.

(* ================================================================== *)
(** * src/commands/dev/dev-server.ts *)
(* ================================================================== *)

Module Old.

Import Js.
Local Open Scope js_scope.

Module BuildConfig.
Record t := mk {
  src : string;
  use : string;
  config : option string
}.
End BuildConfig.

Module RouteConfig.
(** [dest] is tested for truthiness before use, so it may be absent. *)
Record t := mk {
  src : string;
  dest : option string;
  methods : option (list string);
  headers : option (list (string * string));
  status : option Z
}.
End RouteConfig.

Module BuilderOutput.
Record t := mk {
  type : option string;
  zipBuffer : option string;
  handler : option string;
  runtime : option string;
  environment : option string
}.
(** The object literal [{}]. *)
Definition empty : t := mk None None None None None.
End BuilderOutput.

Definition BuilderOutputs := Obj BuilderOutput.t.

Module NowJson.
Record t := mk {
  builds : option (list BuildConfig.t);
  routes : option (list RouteConfig.t)
}.
End NowJson.

(** The argument of a builder's [build]. *)
Module BuildArgs.
Record t := mk {
  files : Obj string;
  entrypoint : string;
  workPath : string;
  config : option string
}.
End BuildArgs.

(** The payload handed to the created function. *)
Module Payload.
Record t := mk {
  method : option string;
  path : option string;
  headers : list (string * string);
  encoding : string;
  body : string
}.
End Payload.

(** Calls that leave the server: each is recorded in the log, most recent
    last.  What is printed on the console is recorded by the values that are
    printed. *)
Inductive Event :=
| Console (msg : string)               (* a string printed on the console *)
| ConsoleBuild (build : BuildConfig.t) (* [> build] and the rule as JSON *)
| ConsoleFound (type handler runtime : option string)
                                       (* [999] and three fields of the asset *)
| Install (directory builder : string)
| Glob (pattern : string)
| GetBuilder (directory use : string)
| Build (use : string) (args : BuildArgs.t)
| CreateFunction (asset : BuilderOutput.t)
| Invoke (payload : Payload.t)
| Pipe (path : string).                (* a read stream of the file, piped to
                                          the response *)

(** The collaborators of the server: the regular-expression engine, the
    configuration reader, the file system, the builder cache, the builders
    and the function runtime.  [glob] yields the [fsPath] of each entry under
    its relative name. *)
Record World := mkWorld {
  regexp : Engine;
  readLocalConfig : string -> Outcome (option NowJson.t);
  isFile : string -> Outcome bool;
  glob : string -> string -> Outcome (Obj string);
  install : string -> string -> Outcome unit;
  getBuilder : string -> string -> Outcome (BuildArgs.t -> Outcome BuilderOutputs);
  createFunction : BuilderOutput.t -> Outcome (Payload.t -> Outcome string);
  listen : Z -> Outcome unit;
  path_join : string -> string -> string;
  path_relative : string -> string -> string;
  bold : string -> string;
  String_of_number : Z -> string
}.

(** The fields of the server that change, the response of the request being
    handled, and the log. *)
Record Store := mkStore {
  status : DevServerStatus.t;
  statusMessage : string;
  res : Res.t;
  log : list Event
}.

Definition emit (e : Event) : M Store unit :=
  modify (fun s => mkStore (status s) (statusMessage s) (res s) (log s ++ [e])).

Definition setStatusIdle : M Store unit :=
  modify (fun s => mkStore DevServerStatus.idle "" (res s) (log s)).

Definition setStatusBusy (msg : string) : M Store unit :=
  modify (fun s => mkStore DevServerStatus.busy msg (res s) (log s)).

Definition setStatusError (msg : string) : M Store unit :=
  modify (fun s => mkStore DevServerStatus.error msg (res s) (log s)).

Definition update_res (f : Res.t -> Res.t) : M Store unit :=
  modify (fun s => mkStore (status s) (statusMessage s) (f (res s)) (log s)).

(** [res.end(body)] *)
Definition res_end (body : string) : M Store unit :=
  update_res (Res.finish (Res.EndText body)).

(** [res.setHeader(name, value)], which may throw. *)
Definition set_header (name : string) (value : Res.Value) : M Store unit :=
  fun s =>
    match Res.setHeader name value (res s) with
    | Ok r => (Ok tt, mkStore (status s) (statusMessage s) r (log s))
    | Throw e => (Throw e, s)
    end.

(** What the sources hand to micro's [send]: nothing, a string, or a read
    stream of a file. *)
Inductive Sendable :=
| Null
| Str (s : string)
| Stream (path : string).

Definition truthy_value (v : option Res.Value) : bool :=
  match v with
  | Some (Res.Text s) => truthy s
  | Some (Res.Number n) => negb (Nat.eqb n 0)
  | None => false
  end.

(** micro's [send(res, code, obj)]: the status code is assigned; with no
    [obj] the response is ended; a stream gets a default content type and is
    piped, which does not end the response; a string is sent with its
    length in bytes ([Buffer.byteLength], the length of the string on
    one-byte characters). *)
Definition send (c : Z) (obj : Sendable) : M Store unit :=
  update_res (Res.setStatusCode c) ;;;
  match obj with
  | Null => update_res (Res.finish Res.End)
  | Stream path =>
      s <- read ;;
      (if truthy_value (Res.getHeader "Content-Type" (res s)) then ret tt
       else set_header "Content-Type" (Res.Text "application/octet-stream")) ;;;
      emit (Pipe path)
  | Str str =>
      set_header "Content-Length" (Res.Number (String.length str)) ;;;
      update_res (Res.finish (Res.EndText str))
  end.

(** [assets[key]]: a value inherited from [Object.prototype] has none of
    the fields the sources read, like the empty object. *)
Definition lookup (assets : BuilderOutputs) (key : string)
  : option BuilderOutput.t :=
  access (fun _ => BuilderOutput.empty) assets key.

(** [matchHandler] *)
Definition matchHandler (assets : BuilderOutputs) (url : string)
  : option BuilderOutput.t :=
  orElse (lookup assets url)
    (orElse (lookup assets (url ++ "index.js"))
       (orElse (lookup assets (url ++ "/index.js"))
          (lookup assets (url ++ "/index.html")))).

Section Server.

Variable W : World.
Variable cwd : string.
Variable builderDirectory : string.

(** The callback of [routes.reduce] in [route]. *)
Definition route_step (accu : string) (curr : RouteConfig.t) : Outcome string :=
  match RouteConfig.dest curr with
  | Some d =>
      if truthy d then
        match replace (regexp W) accu ("^" ++ RouteConfig.src curr ++ "$") d with
        | inl s => Ok s
        | inr msg => Throw (error msg)
        end
      else Ok accu
  | None => Ok accu
  end.

Fixpoint reduce (routes : list RouteConfig.t) (accu : string) : Outcome string :=
  match routes with
  | [] => Ok accu
  | curr :: rest =>
      match route_step accu curr with
      | Ok accu' => reduce rest accu'
      | Throw e => Throw e
      end
  end.

(** The value of [reqDest] that [route] hands to [matchHandler]. *)
Definition route_reqDest (url : string) (routes : option (list RouteConfig.t))
  : Outcome string :=
  let reqDest := strip_leading_slash url in
  match routes with
  | Some rs => reduce rs reqDest
  | None => Ok reqDest
  end.

(** [route] *)
Definition route (req : Req.t) (assets : BuilderOutputs)
  (routes : option (list RouteConfig.t)) : Outcome BuilderOutput.t :=
  match Req.url req with
  | None => Ok BuilderOutput.empty
  | Some url =>
      match route_reqDest url routes with
      | Ok reqDest =>
          match matchHandler assets reqDest with
          | Some foundHandler => Ok foundHandler
          | None => Ok BuilderOutput.empty
          end
      | Throw e => Throw e
      end
  end.

(** The list [builders] of [installBuilders]. *)
Definition builders (buildsConfig : list BuildConfig.t) : list string :=
  filter (fun pkg => negb (String.eqb pkg "@now/static"))
    (map BuildConfig.use buildsConfig)
  ++ ["@now/build-utils"].

(** [installBuilders] *)
Definition installBuilders (buildsConfig : list BuildConfig.t) : M Store unit :=
  for_of (builders buildsConfig) (fun builder =>
    emit (Install builderDirectory builder) ;;;
    lift (install W builderDirectory builder)).

(** The loop over the entries of one build rule, threading [results]. *)
Fixpoint build_entries (build : BuildConfig.t)
  (builder : BuildArgs.t -> Outcome BuilderOutputs) (files : Obj string)
  (entries : list string) (results : BuilderOutputs) : M Store BuilderOutputs :=
  match entries with
  | [] => ret results
  | fsPath :: rest =>
      let args := BuildArgs.mk files (path_relative W cwd fsPath) cwd
                    (BuildConfig.config build) in
      emit (Build (BuildConfig.use build) args) ;;;
      output <- lift (builder args) ;;
      build_entries build builder files rest (spread results output)
  end.

(** The [NowError] thrown by the [catch] of [buildLambdas]. *)
Definition builder_failure (build : BuildConfig.t) (err : Error) : Error :=
  let msg := "Failed building " ++ bold W (BuildConfig.src build)
             ++ " with " ++ BuildConfig.use build in
  mkError msg (Some "NOW_BUILDER_FAILURE") (Some (stack err)) msg.

(** The body of the loop over the build rules: the [try] block and its
    [catch]. *)
Definition build_one (files : Obj string) (build : BuildConfig.t)
  (results : BuilderOutputs) : M Store BuilderOutputs :=
  try_catch
    (emit (ConsoleBuild build) ;;;
     emit (Glob (BuildConfig.src build)) ;;;
     found <- lift (glob W (BuildConfig.src build) cwd) ;;
     emit (GetBuilder builderDirectory (BuildConfig.use build)) ;;;
     builder <- lift (getBuilder W builderDirectory (BuildConfig.use build)) ;;
     build_entries build builder files (values found) results)
    (fun err => throw (builder_failure build err)).

Fixpoint build_all (files : Obj string) (buildsConfig : list BuildConfig.t)
  (results : BuilderOutputs) : M Store BuilderOutputs :=
  match buildsConfig with
  | [] => ret results
  | build :: rest =>
      results' <- build_one files build results ;;
      build_all files rest results'
  end.

(** [buildLambdas] *)
Definition buildLambdas (buildsConfig : list BuildConfig.t)
  : M Store BuilderOutputs :=
  emit (Glob "**") ;;;
  files <- lift (glob W "**" cwd) ;;
  build_all files buildsConfig [].

(** [buildUserProject] *)
Definition buildUserProject (buildsConfig : list BuildConfig.t)
  : M Store BuilderOutputs :=
  try_catch
    (setStatusBusy "installing builders" ;;;
     installBuilders buildsConfig ;;;
     setStatusBusy "building lambdas" ;;;
     assets <- buildLambdas buildsConfig ;;
     setStatusIdle ;;;
     ret assets)
    (fun _ => throw (error "Build failed.")).

(** [serveStatics] *)
Definition serveStatics (req : Req.t) : M Store unit :=
  match Req.url req with
  | None => send 404 Null
  | Some url =>
      let dest := path_join W cwd (strip_leading_slash url) in
      file <- lift (isFile W dest) ;;
      if file then send 200 (Stream dest) else send 404 Null
  end.

(** [serveBuilds] *)
Definition serveBuilds (req : Req.t) (nowJson : NowJson.t)
  (buildsConfig : list BuildConfig.t) : M Store unit :=
  assets <- buildUserProject buildsConfig ;;
  found <- lift (route req assets (NowJson.routes nowJson)) ;;
  emit (ConsoleFound (BuilderOutput.type found) (BuilderOutput.handler found)
          (BuilderOutput.runtime found)) ;;;
  match BuilderOutput.type found with
  | Some "Lambda" =>
      emit (CreateFunction found) ;;;
      fn <- lift (createFunction W found) ;;
      let payload := Payload.mk (Req.method req) (Req.url req) (Req.headers req)
                       "base64" Base64.eiyo_base64 in
      emit (Invoke payload) ;;;
      invoked <- lift (fn payload) ;;
      emit (Console invoked)
  | _ => ret tt
  end.

(** [devServerHandler] *)
Definition devServerHandler (req : Req.t) : M Store unit :=
  s <- read ;;
  match status s with
  | DevServerStatus.busy => res_end ("[busy] " ++ statusMessage s ++ "...")
  | _ =>
      match Req.url req with
      | Some "/favicon.ico" => res_end ""
      | _ =>
          match Req.url req with
          | Some u => if truthy u then emit (Console u) else ret tt
          | None => ret tt
          end ;;;
          try_catch
            (nowJson <- lift (readLocalConfig W cwd) ;;
             match nowJson with
             | None => serveStatics req
             | Some nj =>
                 match NowJson.builds nj with
                 | Some buildsConfig => serveBuilds req nj buildsConfig
                 | None => ret tt
                 end
             end)
            (fun err =>
               setStatusError (message err) ;;;
               emit (Console (stack err))) ;;;
          s' <- read ;;
          (if Res.finished (res s') then ret tt
           else send 500 (Str (statusMessage s'))) ;;;
          setStatusIdle
      end
  end.

(** [start]: the promise is settled by the first of [reject] and [resolve];
    the listen callback runs to its end either way. *)
Definition start (port : Z) : M Store unit :=
  nowJson <- lift (readLocalConfig W cwd) ;;
  lift (listen W port) ;;;
  emit (Console ("dev server listning on port "
                 ++ bold W (String_of_number W port))) ;;;
  rejected <-
    match nowJson with
    | Some nj =>
        match NowJson.builds nj with
        | Some buildsConfig =>
            try_catch
              (setStatusBusy "installing builders" ;;;
               installBuilders buildsConfig ;;;
               setStatusBusy "building lambdas" ;;;
               buildLambdas buildsConfig ;;;
               ret None)
              (fun err => ret (Some err))
        | None => ret None
        end
    | None => ret None
    end ;;
  emit (Console "ready") ;;;
  setStatusIdle ;;;
  match rejected with
  | Some err => throw err
  | None => ret tt
  end.

(** Whether every call made for one build rule returns: the expansion of its
    [src], the lookup of its builder, and the build of each entry. *)
Definition rule_builds (files : Obj string) (build : BuildConfig.t) : bool :=
  match glob W (BuildConfig.src build) cwd,
        getBuilder W builderDirectory (BuildConfig.use build) with
  | Ok found, Ok builder =>
      forallb (fun fsPath =>
                 match builder (BuildArgs.mk files (path_relative W cwd fsPath)
                                  cwd (BuildConfig.config build)) with
                 | Ok _ => true
                 | Throw _ => false
                 end)
              (values found)
  | _, _ => false
  end.

End Server.

(** ** Reading the log and the store *)

(** The server fields and the response are the same in both stores. *)
Definition same_server (s s' : Store) : Prop :=
  status s' = status s /\
  statusMessage s' = statusMessage s /\
  res s' = res s.

(** The builders whose installation a log records, in order. *)
Fixpoint installed (l : list Event) : list string :=
  match l with
  | [] => []
  | Install _ builder :: l' => builder :: installed l'
  | _ :: l' => installed l'
  end.

(** ** Sample collaborators *)

(** A world without a project: no configuration, no file, builders that
    build nothing, installations that succeed. *)
Definition offline : World :=
  mkWorld anchored_literal_exec
    (fun _ => Ok None)
    (fun _ => Ok false)
    (fun _ _ => Ok [])
    (fun _ _ => Ok tt)
    (fun _ _ => Ok (fun _ => Ok []))
    (fun _ => Throw (error "no function runtime"))
    (fun _ => Ok tt)
    (fun a b => a ++ "/" ++ b)
    (fun _ b => b)
    (fun s => s)
    (fun _ => "3000").

(** A project whose only build rule yields a lambda under [api.js], with a
    function runtime that answers every invocation. *)
Definition with_lambda : World :=
  mkWorld anchored_literal_exec
    (fun _ => Ok (Some (NowJson.mk
                          (Some [BuildConfig.mk "api.js" "@now/node" None])
                          None)))
    (fun _ => Ok false)
    (fun _ _ => Ok [("api.js", "/project/api.js")])
    (fun _ _ => Ok tt)
    (fun _ _ =>
       Ok (fun _ =>
             Ok [("api.js",
                  BuilderOutput.mk (Some "Lambda") None None None None)]))
    (fun _ => Ok (fun _ => Ok "invoked"))
    (fun _ => Ok tt)
    (fun a b => a ++ "/" ++ b)
    (fun _ b => b)
    (fun s => s)
    (fun _ => "3000").

(** The payloads of the invocations a log records, in order. *)
Fixpoint invoked (l : list Event) : list Payload.t :=
  match l with
  | [] => []
  | Invoke payload :: l' => payload :: invoked l'
  | _ :: l' => invoked l'
  end.

(** The store after the constructor has run, with a fresh response. *)
Definition constructed : Store := mkStore DevServerStatus.busy "" Res.fresh [].

(** A project with one source file and two builders, of which [@now/broken]
    throws on every entry. *)
Definition one_file : World :=
  mkWorld anchored_literal_exec
    (fun _ => Ok None)
    (fun _ => Ok false)
    (fun _ _ => Ok [("a.js", "/project/a.js")])
    (fun _ _ => Ok tt)
    (fun _ use =>
       if String.eqb use "@now/broken"
       then Ok (fun _ => Throw (error "boom"))
       else Ok (fun args =>
                  Ok [(BuildArgs.entrypoint args,
                       BuilderOutput.mk (Some "Lambda") None None None None)]))
    (fun _ => Throw (error "no function runtime"))
    (fun _ => Ok tt)
    (fun a b => a ++ "/" ++ b)
    (fun _ b => b)
    (fun s => s)
    (fun _ => "3000").

End Old.

(* ================================================================== *)
(** * src/commands/dev/lib/dev-server.ts *)
(* ================================================================== *)

Module Lib.

Import Js.
Local Open Scope js_scope.

Module BuildConfig.
Record t := mk {
  src : string;
  use : string;
  config : option string
}.
End BuildConfig.

Module RouteConfig.
Record t := mk {
  src : string;
  dest : option string;
  methods : option (list string);
  headers : option (Obj string);
  status : option Z
}.
End RouteConfig.

(** What the router returns; [status] and [headers] may be left out. *)
Module RouteResult.
Record t := mk {
  dest : string;
  status : option Z;
  headers : option (Obj string);
  uri_args : Obj string;
  matched_route : option RouteConfig.t
}.
End RouteResult.

Module InvokePayload.
Record t := mk {
  method : string;
  path : string;
  headers : list (string * string);
  encoding : string;
  body : string
}.
End InvokePayload.

(** [body] is a string or left undefined. *)
Module InvokeResult.
Record t := mk {
  statusCode : Z;
  headers : Obj string;
  encoding : option string;
  body : option string
}.
End InvokeResult.

(** A built asset, by its [type]: a file reference, a lambda with its
    invocable [fn] once built, or anything else.  [Inherited] stands for
    what a lookup returns for a key the map does not own but
    [Object.prototype] does: a value without a [type]. *)
Module BuilderOutput.
Inductive t :=
| FileFsRef (fsPath : string)
| Lambda (fn : option (InvokePayload.t -> Outcome InvokeResult.t))
| Other (type : string)
| Inherited (property : string).
End BuilderOutput.

Definition BuilderOutputs := Obj BuilderOutput.t.

(** [version] holds the number of the field when it is an integer, and
    nothing when the field is missing or holds any other value. *)
Module NowConfig.
Record t := mk {
  version : option Z;
  builds : option (list BuildConfig.t);
  routes : option (list RouteConfig.t);
  env : option (Obj string);
  build_env : option (option (Obj string))   (* [build], then its [env] *)
}.
End NowConfig.

Inductive Event :=
| LogHttp (msg : string)
| LogDebug (msg : string)
| LogSuccess (msg : string)
| BuildUserProject (nowJson : NowConfig.t)
| Invoke (payload : InvokePayload.t).

(** The busy flag and its reason, the part of the server a collaborator can
    reach through the public [setStatus...] methods. *)
Definition Flag := (DevServerStatus.t * string)%type.

(** The collaborators.  [devRouter], [isURL], [buildUserProject] and
    [createIgnoreList] are modules of the repository that are not among the
    sources; the others belong to Node or to packages.  [rawBody] reads the
    body of the request and may fail. *)
Record World := mkWorld {
  devRouter : option string -> option (list RouteConfig.t) -> Outcome RouteResult.t;
  isURL : string -> bool;
  buildUserProject : NowConfig.t -> Flag -> Outcome BuilderOutputs * Flag;
  createIgnoreList : string -> Outcome (string -> bool);
  rawBody : Req.t -> Outcome Base64.Buffer;
  getNowJsonPath : string -> string;
  readFile : string -> Outcome string;
  JSON_parse : string -> Outcome NowConfig.t;
  listen : Z -> Outcome unit;
  listen_settles_first : bool;
  basename : string -> string;
  dirname : string -> string;
  bold : string -> string;
  String_of_number : Z -> string
}.

Record Store := mkStore {
  assets : BuilderOutputs;
  status : DevServerStatus.t;
  statusMessage : string;
  res : Res.t;
  log : list Event
}.

(** The store after the constructor has run. *)
Definition constructed : Store :=
  mkStore [] DevServerStatus.busy "" Res.fresh [].

Definition emit (e : Event) : M Store unit :=
  modify (fun s =>
    mkStore (assets s) (status s) (statusMessage s) (res s) (log s ++ [e])).

Definition setStatusIdle : M Store unit :=
  modify (fun s => mkStore (assets s) DevServerStatus.idle "" (res s) (log s)).

Definition setStatusBusy (msg : string) : M Store unit :=
  modify (fun s => mkStore (assets s) DevServerStatus.busy msg (res s) (log s)).

Definition setStatusError (msg : string) : M Store unit :=
  modify (fun s => mkStore (assets s) DevServerStatus.error msg (res s) (log s)).

Definition setAssets (a : BuilderOutputs) : M Store unit :=
  modify (fun s => mkStore a (status s) (statusMessage s) (res s) (log s)).

Definition update_res (f : Res.t -> Res.t) : M Store unit :=
  modify (fun s =>
    mkStore (assets s) (status s) (statusMessage s) (f (res s)) (log s)).

(** A collaborator that sees the server only through its status methods. *)
Definition with_flag {A} (c : Flag -> Outcome A * Flag) : M Store A :=
  fun s =>
    match c (status s, statusMessage s) with
    | (o, (st, msg)) => (o, mkStore (assets s) st msg (res s) (log s))
    end.

(** [validateNowConfig] *)
Definition starts_with_at (val : string) : bool :=
  match val with
  | String c _ => Ascii.eqb c "@"
  | EmptyString => false
  end.

Definition env_values (e : option (Obj string)) : list string :=
  match e with
  | Some o => values o
  | None => []
  end.

Definition build_env_values (b : option (option (Obj string))) : list string :=
  match b with
  | Some e => env_values e
  | None => []
  end.

Definition hasSecretEnv (config : NowConfig.t) : bool :=
  existsb starts_with_at
    (env_values (NowConfig.env config)
     ++ build_env_values (NowConfig.build_env config)).

Definition version_is_2 (config : NowConfig.t) : bool :=
  match NowConfig.version config with
  | Some v => Z.eqb v 2
  | None => false
  end.

Definition validateNowConfig (config : NowConfig.t) : Outcome unit :=
  if negb (version_is_2 config) then
    Throw (error "Only `version: 2` is supported by `now dev`")
  else if hasSecretEnv config then
    Throw (error "Secret env vars are not yet supported by `now dev`")
  else Ok tt.

(** [assets[key]] *)
Definition lookup (assets : BuilderOutputs) (key : string)
  : option BuilderOutput.t :=
  access BuilderOutput.Inherited assets key.

(** [resolveDest] *)
Definition resolveDest (assets : BuilderOutputs) (dest : string)
  : option BuilderOutput.t :=
  let assetKey := strip_leading_slash dest in
  match lookup assets assetKey with
  | Some asset => Some asset
  | None =>
      match find (fun name =>
                    String.eqb (strip_index name) (strip_trailing_slash assetKey))
                 (keys assets) with
      | Some foundIndex =>
          if truthy foundIndex then get assets foundIndex else None
      | None => None
      end
  end.

(** The defaults of the destructuring in [serveProjectAsNowV2]. *)
Definition status_or_200 (r : RouteResult.t) : Z :=
  match RouteResult.status r with
  | Some st => st
  | None => 200
  end.

Definition headers_or_empty (r : RouteResult.t) : Obj string :=
  match RouteResult.headers r with
  | Some h => h
  | None => []
  end.

Definition is_redirect (st : Z) : bool :=
  Z.eqb st 301 || Z.eqb st 302 || Z.eqb st 303.

(** The result body handed to [res.end]. *)
Definition resBody (result : InvokeResult.t) : Res.Sent :=
  match InvokeResult.encoding result, InvokeResult.body result with
  | Some "base64", Some b => Res.EndBuffer (Base64.decode b)
  | _, Some b => Res.EndText b
  | _, None => Res.End
  end.

Section Server.

Variable W : World.
Variable cwd : string.
Variable debug : bool.

Definition logDebug (msg : string) : M Store unit :=
  if debug then emit (LogDebug msg) else ret tt.

(** [getNowJson] *)
Definition getNowJson : M Store (option NowConfig.t) :=
  let nowJsonPath := getNowJsonPath W cwd in
  try_catch
    (text <- lift (readFile W nowJsonPath) ;;
     config <- lift (JSON_parse W text) ;;
     lift (validateNowConfig config) ;;;
     ret (Some config))
    (fun err =>
       match code err with
       | Some "ENOENT" => ret None
       | _ => throw err
       end).

(** [Promise.all] of two promises: the first rejection to settle wins. *)
Definition Promise_all2 {A B} (a : Outcome A) (b : Outcome B)
  (second_first : bool) : Outcome (A * B) :=
  match a, b with
  | Ok x, Ok y => Ok (x, y)
  | Throw e, Ok _ => Throw e
  | Ok _, Throw e => Throw e
  | Throw e1, Throw e2 => if second_first then Throw e2 else Throw e1
  end.

(** [start] *)
Definition start (port : Z) : M Store unit :=
  both <- (fun s =>
             match getNowJson s with
             | (o, s') =>
                 (Promise_all2 o (listen W port) (listen_settles_first W), s')
             end) ;;
  let nowJson := fst both in
  emit (LogSuccess ("Dev server listening on port "
                    ++ bold W (String_of_number W port))) ;;;
  match nowJson with
  | Some nj =>
      match NowConfig.builds nj with
      | Some _ =>
          logDebug "Initial build" ;;;
          emit (BuildUserProject nj) ;;;
          built <- with_flag (buildUserProject W nj) ;;
          setAssets built ;;;
          emit (LogSuccess "Initial build ready") ;;;
          logDebug "Built"
      | None => ret tt
      end
  | None => ret tt
  end ;;;
  setStatusIdle.

(** [serveStaticFile] *)
Definition serveStaticFile (url : option string) (public : string)
  : M Store unit :=
  update_res (Res.finish (Res.ServeHandler public url)).

(** [proxyPass] *)
Definition proxyPass (dest : string) : M Store unit :=
  update_res (Res.finish (Res.ProxyWeb dest)).

(** [serveProjectAsStatics] *)
Definition serveProjectAsStatics (req : Req.t) : M Store unit :=
  let filePath := match Req.url req with
                  | Some u => strip_leading_slash u
                  | None => ""
                  end in
  ignores <- lift (createIgnoreList W cwd) ;;
  if truthy filePath && ignores filePath then
    update_res (Res.setStatusCode 404) ;;;
    update_res (Res.finish Res.End)
  else serveStaticFile (Req.url req) cwd.

(** [res.setHeader(name, value)], which may throw. *)
Definition set_header (name value : string) : M Store unit :=
  fun s =>
    match Res.setHeader name (Res.Text value) (res s) with
    | Ok r => (Ok tt, mkStore (assets s) (status s) (statusMessage s) r (log s))
    | Throw e => (Throw e, s)
    end.

Definition setHeaders (hs : Obj string) : M Store unit :=
  for_of hs (fun nv => set_header (fst nv) (snd nv)).

(** The [Lambda] case of [serveProjectAsNowV2]. *)
Definition invokeLambda (req : Req.t)
  (fn : option (InvokePayload.t -> Outcome InvokeResult.t)) : M Store unit :=
  match fn with
  | None =>
      update_res (Res.setStatusCode 500) ;;;
      update_res (Res.finish (Res.EndText "Lambda function has not been built"))
  | Some f =>
      body <- lift (rawBody W req) ;;
      let payload :=
        InvokePayload.mk
          (match Req.method req with Some m => if truthy m then m else "GET" | None => "GET" end)
          (match Req.url req with Some u => if truthy u then u else "/" | None => "/" end)
          (Req.headers req)
          "base64"
          (Base64.encode body) in
      emit (Invoke payload) ;;;
      result <- lift (f payload) ;;
      update_res (Res.setStatusCode (InvokeResult.statusCode result)) ;;;
      setHeaders (InvokeResult.headers result) ;;;
      update_res (Res.finish (resBody result))
  end.

(** [serveProjectAsNowV2] *)
Definition serveProjectAsNowV2 (req : Req.t) (nowJson : NowConfig.t)
  : M Store unit :=
  routed <- lift (devRouter W (Req.url req) (NowConfig.routes nowJson)) ;;
  let dest := RouteResult.dest routed in
  let status := status_or_200 routed in
  let headers := headers_or_empty routed in
  setHeaders headers ;;;
  if isURL W dest then
    logDebug "ProxyPass" ;;;
    proxyPass dest
  else if is_redirect status then
    logDebug "Redirect" ;;;
    update_res (Res.finish Res.End)
  else
    match NowConfig.builds nowJson with
    | None => serveStaticFile (Req.url req) cwd
    | Some _ =>
        s <- read ;;
        match resolveDest (assets s) dest with
        | None =>
            update_res (Res.setStatusCode 404) ;;;
            update_res (Res.finish Res.End)
        | Some (BuilderOutput.FileFsRef fsPath) =>
            serveStaticFile (Some ("/" ++ basename W fsPath)) (dirname W fsPath)
        | Some (BuilderOutput.Lambda fn) => invokeLambda req fn
        | Some (BuilderOutput.Other _)
        | Some (BuilderOutput.Inherited _) =>
            update_res (Res.setStatusCode 500) ;;;
            update_res (Res.finish Res.End)
        end
    end.

(** [devServerHandler] *)
Definition devServerHandler (req : Req.t) : M Store unit :=
  emit (LogHttp (show (Req.method req) ++ " " ++ show (Req.url req))) ;;;
  s <- read ;;
  match status s with
  | DevServerStatus.busy =>
      update_res (Res.finish (Res.EndText ("[busy] " ++ statusMessage s ++ "...")))
  | _ =>
      try_catch
        (nowJson <- getNowJson ;;
         match nowJson with
         | None => serveProjectAsStatics req
         | Some nj => serveProjectAsNowV2 req nj
         end)
        (fun err =>
           setStatusError (message err) ;;;
           logDebug (stack err) ;;;
           s' <- read ;;
           if Res.finished (res s') then ret tt
           else
             update_res (Res.setStatusCode 500) ;;;
             update_res (Res.finish (Res.EndText (statusMessage s')))) ;;;
      setStatusIdle
  end.

(** The server takes requests one after another, each with a response of
    its own. *)
Definition with_fresh_response (s : Store) : Store :=
  mkStore (assets s) (status s) (statusMessage s) Res.fresh (log s).

Fixpoint serve (reqs : list Req.t) (s : Store) : Store :=
  match reqs with
  | [] => s
  | req :: rest =>
      serve rest (snd (devServerHandler req (with_fresh_response s)))
  end.

End Server.

(** ** The router and the URL test, which are not among the sources *)

(** Modelled from the spec: [isURL] of lib/is-url, which is missing.  A
    destination is a proxy target when it is a fully-qualified URL, taken
    here as one with an http or https scheme. *)
Definition isURL_spec (dest : string) : bool :=
  match drop_prefix "http://" dest, drop_prefix "https://" dest with
  | None, None => false
  | _, _ => true
  end.

(** The state of the walk over the rules: the current path, the status
    recorded so far, the headers accumulated so far, the last rule applied. *)
Record Walk := mkWalk {
  path : string;
  recorded : option Z;
  accumulated : Obj string;
  applied : option RouteConfig.t
}.

Definition methods_allow (r : RouteConfig.t) (requestMethod : option string)
  : bool :=
  match RouteConfig.methods r with
  | None => true
  | Some ms =>
      match requestMethod with
      | Some m => existsb (String.eqb m) ms
      | None => false
      end
  end.

Definition terminal (is_url : string -> bool) (r : RouteConfig.t) : bool :=
  match RouteConfig.status r with
  | Some st => is_redirect st
  | None => false
  end
  || match RouteConfig.dest r with
     | Some d => is_url d
     | None => false
     end.

Definition apply_rule (r : RouteConfig.t) (m : RegExpMatch) (w : Walk) : Walk :=
  let before := substring 0 (index m) (path w) in
  let after := skip (index m + String.length (matched m)) (path w) in
  mkWalk
    (match RouteConfig.dest r with
     | Some d => GetSubstitution m before after d
     | None => path w
     end)
    (match RouteConfig.status r with
     | Some st => Some st
     | None => recorded w
     end)
    (spread (accumulated w)
       (match RouteConfig.headers r with Some h => h | None => [] end))
    (Some r).

Fixpoint walk (exec : Engine) (is_url : string -> bool)
  (requestMethod : option string) (rules : list RouteConfig.t) (w : Walk)
  : Outcome Walk :=
  match rules with
  | [] => Ok w
  | r :: rest =>
      match exec (RouteConfig.src r) (path w) with
      | SyntaxError msg => Throw (error msg)
      | NoMatch => walk exec is_url requestMethod rest w
      | Match m =>
          if methods_allow r requestMethod then
            if terminal is_url r then Ok (apply_rule r m w)
            else walk exec is_url requestMethod rest (apply_rule r m w)
          else walk exec is_url requestMethod rest w
      end
  end.

(** Modelled from the spec: the router [devRouter] of lib/dev-router, which
    is missing.  It strips the leading slash of the request path and walks
    the rules in declaration order; a rule whose pattern matches the current
    path (and whose methods, when given, include the request method)
    substitutes its captures into its [dest] when it has one, merges its
    headers into the accumulated ones and records its status when it has
    one; a rule with a redirect status or an absolute URL as [dest] stops
    the walk, any other feeds the rewritten path to the rules after it.
    When no rule matches, the original path passes through unchanged with
    status 200 and no extra headers. *)
Definition devRouter_spec (exec : Engine) (is_url : string -> bool)
  (requestMethod : option string) (requestPath : option string)
  (rules : option (list RouteConfig.t)) : Outcome RouteResult.t :=
  let original := match requestPath with Some p => p | None => "" end in
  let start := mkWalk (strip_leading_slash original) None [] None in
  match walk exec is_url requestMethod
          (match rules with Some rs => rs | None => [] end) start with
  | Throw e => Throw e
  | Ok w =>
      match applied w with
      | None => Ok (RouteResult.mk original (Some 200%Z) (Some []) [] None)
      | Some r =>
          Ok (RouteResult.mk (path w) (recorded w) (Some (accumulated w)) []
                (Some r))
      end
  end.

(** A computation that leaves the asset map as it found it. *)
Definition keeps_assets {A} (m : M Store A) : Prop :=
  forall s, assets (snd (m s)) = assets s.

(** ** Sample collaborators *)

(** A function that answers with the payload body it received, under the
    payload's encoding. *)
Definition echo (p : InvokePayload.t) : Outcome InvokeResult.t :=
  Ok (InvokeResult.mk 200 [] (Some (InvokePayload.encoding p))
        (Some (InvokePayload.body p))).

(** A project whose configuration file parses to [config]: routing by the
    router above over literal patterns, a build that yields no asset, no
    ignored path. *)
Definition project (config : NowConfig.t) : World :=
  mkWorld
    (devRouter_spec anchored_literal_exec isURL_spec (Some "GET"))
    isURL_spec
    (fun _ _ => (Ok [], (DevServerStatus.idle, "")))
    (fun _ => Ok (fun _ => false))
    (fun req => Ok (Req.body req))
    (fun cwd => cwd ++ "/now.json")
    (fun _ => Ok "now.json")
    (fun _ => Ok config)
    (fun _ => Ok tt)
    false
    (fun p => p)
    (fun p => p)
    (fun s => s)
    (fun _ => "3000").

(** The same project, with a build that throws and leaves the status as it
    found it. *)
Definition failing_build (config : NowConfig.t) : World :=
  mkWorld
    (devRouter (project config))
    isURL_spec
    (fun _ flag => (Throw (error "boom"), flag))
    (createIgnoreList (project config))
    (rawBody (project config))
    (getNowJsonPath (project config))
    (readFile (project config))
    (JSON_parse (project config))
    (listen (project config))
    false
    (basename (project config))
    (dirname (project config))
    (bold (project config))
    (String_of_number (project config)).

(** The store of a server that has started with an empty asset map. *)
Definition started : Store :=
  mkStore [] DevServerStatus.idle "" Res.fresh [].

End Lib.

(* ================================================================== *)
(** * Notions used to state further properties *)
(* ================================================================== *)

(** Whether a string holds a slash. *)
Fixpoint contains_slash (s : string) : bool :=
  match s with
  | EmptyString => false
  | String c r => Ascii.eqb c "/" || contains_slash r
  end.

(** Whether a replacement template holds a dollar sign. *)
Fixpoint contains_dollar (s : string) : bool :=
  match s with
  | EmptyString => false
  | String c r => Ascii.eqb c "$" || contains_dollar r
  end.

(** Whether a rule of the first variant carries a usable [dest]. *)
Definition has_dest (r : Old.RouteConfig.t) : bool :=
  match Old.RouteConfig.dest r with
  | Some d => Js.truthy d
  | None => false
  end.

(** A computation of the first variant that leaves the response as it found
    it. *)
Definition keeps_response {A} (m : Js.M Old.Store A) : Prop :=
  forall s, Old.res (snd (m s)) = Old.res s.

(** A computation of the first variant that invokes no function. *)
Definition invokes_nothing {A} (m : Js.M Old.Store A) : Prop :=
  forall s, Old.invoked (Old.log (snd (m s))) = Old.invoked (Old.log s).

(** Whether an error carries the code [ENOENT]. *)
Definition is_enoent (e : Js.Error) : bool :=
  match Js.code e with
  | Some c => String.eqb c "ENOENT"
  | None => false
  end.

(** The same store with another response. *)
Definition with_response (r : Res.t) (s : Lib.Store) : Lib.Store :=
  Lib.mkStore (Lib.assets s) (Lib.status s) (Lib.statusMessage s) r (Lib.log s).

(** A project directory without a configuration file, with a given ignore
    list. *)
Definition unconfigured (ignores : string -> bool) : Lib.World :=
  Lib.mkWorld
    (Lib.devRouter_spec Js.anchored_literal_exec Lib.isURL_spec (Some "GET"))
    Lib.isURL_spec
    (fun _ flag => (Js.Ok [], flag))
    (fun _ => Js.Ok ignores)
    (fun req => Js.Ok (Req.body req))
    (fun cwd => cwd ++ "/now.json")
    (fun _ => Js.Throw (Js.mkError "no such file" (Some "ENOENT") None
                          "no such file"))
    (fun _ => Js.Throw (Js.error "Unexpected end of JSON input"))
    (fun _ => Js.Ok tt)
    false
    (fun p => p)
    (fun p => p)
    (fun s => s)
    (fun _ => "3000").

(** Whether a request asks for the favicon. *)
Definition is_favicon (url : option string) : bool :=
  match url with
  | Some u => String.eqb u "/favicon.ico"
  | None => false
  end.

(** The store of the first variant once the request line has been logged:
    [logHttp] prints nothing for a missing or empty URL. *)
Definition request_logged (req : Req.t) (s : Old.Store) : Old.Store :=
  match Req.url req with
  | Some u =>
      if Js.truthy u
      then Old.mkStore (Old.status s) (Old.statusMessage s) (Old.res s)
             (Old.log s ++ [Old.Console u])
      else s
  | None => s
  end.

(* ================================================================== *)
(** * Properties *)
(* ================================================================== *)

Import Js.
Open Scope list_scope.

(** ** The base64 codec *)

Section Codec.

Import Base64.



Lemma decode_encode_sextet (x : sextet) :
  decode_char (encode_sextet x) = Some x.
Proof.
  destruct x as [[] [] [] [] [] []]; reflexivity.
Qed.

Lemma encode_sextet_not_pad (x : sextet) :
  Ascii.eqb (encode_sextet x) pad = false.
Proof.
  destruct x as [[] [] [] [] [] []]; reflexivity.
Qed.

Lemma sextets_cons (x : sextet) (r : string) :
  sextets (String (encode_sextet x) r) = x :: sextets r.
Proof.
  cbn [sextets].
  now rewrite encode_sextet_not_pad, decode_encode_sextet.
Qed.

Lemma sextets_pad (r : string) : sextets (String pad r) = [].
Proof. reflexivity. Qed.

Lemma regroup3 (a b c : ascii) :
  byte1 (hi6 a) (mid_ab a b) = a /\
  byte2 (mid_ab a b) (mid_bc b c) = b /\
  byte3 (mid_bc b c) (lo6 c) = c.
Proof.
  destruct a, b, c; repeat split; reflexivity.
Qed.

Lemma by_triples (P : Buffer -> Prop) :
  P [] ->
  (forall a, P [a]) ->
  (forall a b, P [a; b]) ->
  (forall a b c r, P r -> P (a :: b :: c :: r)) ->
  forall bs, P bs.
Proof.
  intros H0 H1 H2 H3.
  fix IH 1.
  intros [|a [|b [|c r]]].
  - exact H0.
  - apply H1.
  - apply H2.
  - apply H3, IH.
Qed.

Lemma decode_encode (bs : Buffer) : decode (encode bs) = bs.
Proof.
  unfold decode.
  induction bs as [|a|a b|a b c r IH] using by_triples.
  - reflexivity.
  - cbn [encode]. rewrite !sextets_cons, sextets_pad. cbn [octets].
    destruct (regroup3 a zero zero) as (-> & _). reflexivity.
  - cbn [encode]. rewrite !sextets_cons, sextets_pad. cbn [octets].
    destruct (regroup3 a b zero) as (-> & -> & _). reflexivity.
  - cbn [encode]. rewrite !sextets_cons. cbn [octets]. rewrite IH.
    destruct (regroup3 a b c) as (-> & -> & ->). reflexivity.
Qed.


End Codec.

(** ** Stores of the lib variant *)

Lemma lib_setHeaders_ok (hs : Obj string) (s : Lib.Store) (r' : Res.t) :
  Res.set_all hs (Lib.res s) = Ok r' ->
  Lib.setHeaders hs s = (Ok tt, with_response r' s).
Proof.
  revert s. induction hs as [|[name value] hs IH]; intros s.
  - cbn. intros [= <-]. now destruct s.
  - cbn [Res.set_all]. unfold Lib.setHeaders in *. cbn [for_of fst snd].
    unfold bind at 1. unfold Lib.set_header at 1.
    destruct (Res.setHeader name (Res.Text value) (Lib.res s)) as [r1|e];
      [|discriminate].
    intros H.
    rewrite (IH (Lib.mkStore (Lib.assets s) (Lib.status s) (Lib.statusMessage s)
                   r1 (Lib.log s)) H).
    reflexivity.
Qed.

Lemma finish_unsent (x : Res.Sent) (r : Res.t) :
  Res.sent r = None -> Res.sent (Res.finish x r) = Some x.
Proof.
  intros H. unfold Res.finish. now rewrite H.
Qed.

(** Setting a header leaves the ending of the response as it was. *)
Lemma setHeader_sent (name : string) (v : Res.Value) (r r' : Res.t) :
  Res.setHeader name v r = Ok r' ->
  Res.sent r' = Res.sent r /\ Res.statusCode r' = Res.statusCode r.
Proof.
  unfold Res.setHeader.
  destruct (Res.finished r); [discriminate|].
  destruct (negb (Res.valid_name name)); [discriminate|].
  destruct (negb (Res.valid_value v)); [discriminate|].
  intros [= <-]. split; reflexivity.
Qed.

Lemma set_all_sent (hs : Obj string) (r r' : Res.t) :
  Res.set_all hs r = Ok r' ->
  Res.sent r' = Res.sent r /\ Res.statusCode r' = Res.statusCode r.
Proof.
  revert r. induction hs as [|[name value] hs IH]; intros r.
  - cbn. intros [= <-]. split; reflexivity.
  - cbn [Res.set_all].
    destruct (Res.setHeader name (Res.Text value) r) as [r1|e] eqn:H1;
      [|discriminate].
    intros H. destruct (IH _ H) as [A B].
    destruct (setHeader_sent _ _ _ _ H1) as [C D].
    split; congruence.
Qed.

(** ** Asset resolution *)

Lemma get_app_miss {V} (pre post : Obj V) (k : string) :
  ~ In k (keys pre) -> get (pre ++ post) k = get post k.
Proof.
  induction pre as [|[k' v] pre IH]; intros Hk; [reflexivity|].
  cbn [app get]. destruct (String.eqb_spec k' k) as [->|_].
  - exfalso. apply Hk. now left.
  - apply IH. intros H. apply Hk. now right.
Qed.

Lemma get_In_keys {V} (o : Obj V) (k : string) (v : V) :
  get o k = Some v -> In k (keys o).
Proof.
  induction o as [|[k' v'] o IH]; cbn [get keys map fst]; [discriminate|].
  destruct (String.eqb_spec k' k) as [->|_]; [now left|].
  intros H. right. now apply IH.
Qed.

Lemma find_app_miss {A} (p : A -> bool) (pre post : list A) :
  (forall x, In x pre -> p x = false) ->
  find p (pre ++ post) = find p post.
Proof.
  induction pre as [|x pre IH]; intros H; [reflexivity|].
  cbn [app find]. rewrite (H x (or_introl eq_refl)).
  apply IH. intros y Hy. apply H. now right.
Qed.

(** C9.  The index fallback is not confined to directory indexes: with the
    single key [fooindex.js] (or [fooindex]) and no key [foo], destination
    [/foo] resolves to that key in the lib variant, whose pattern makes the
    slash optional; the first variant, probing [url + "index.js"], resolves
    request [/foo] to the key [fooindex.js] too. *)
Theorem index_fallback_without_separator :
  forall (a : Lib.BuilderOutput.t) (h : Old.BuilderOutput.t)
         (W : Old.World) (m : option string) (hs : list (string * string))
         (b : Base64.Buffer),
    get [("fooindex.js", a)] "foo" = None /\
    strip_index "fooindex.js" = "foo" /\
    Lib.resolveDest [("fooindex.js", a)] "/foo" = Some a /\
    Lib.resolveDest [("fooindex", a)] "/foo" = Some a /\
    Old.matchHandler [("fooindex.js", h)] "foo" = Some h /\
    Old.route W (Req.mk m (Some "/foo") hs b) [("fooindex.js", h)] None = Ok h.
Proof.
  intros. repeat split; reflexivity.
Qed.




(** ** Installation of the builders *)

Lemma installed_app (l1 l2 : list Old.Event) :
  Old.installed (l1 ++ l2) = Old.installed l1 ++ Old.installed l2.
Proof.
  induction l1 as [|e l1 IH]; [reflexivity|].
  destruct e; cbn [app Old.installed]; rewrite IH; reflexivity.
Qed.

Lemma installed_installs (dir : string) (l : list string) :
  Old.installed (map (Old.Install dir) l) = l.
Proof.
  induction l as [|b l IH]; [reflexivity|]. cbn. now rewrite IH.
Qed.

(** Whatever the installer does, the installations requested form an initial
    segment of the list, and nothing else of the store changes. *)
Lemma install_loop_prefix (W : Old.World) (dir : string) (l : list string)
  (s : Old.Store) :
  exists k o,
    for_of l (fun builder =>
      bind (Old.emit (Old.Install dir builder))
        (fun _ => lift (Old.install W dir builder))) s
    = (o, Old.mkStore (Old.status s) (Old.statusMessage s) (Old.res s)
            (Old.log s ++ map (Old.Install dir) (firstn k l))).
Proof.
  revert s. induction l as [|b l IH]; intros s.
  - exists 0, (Ok tt). cbn. rewrite app_nil_r. now destruct s.
  - cbn [for_of]. unfold bind at 1. unfold bind at 1.
    unfold Old.emit at 1, modify at 1, lift at 1.
    destruct (Old.install W dir b) as [[]|e].
    + destruct (IH (Old.mkStore (Old.status s) (Old.statusMessage s)
                      (Old.res s) (Old.log s ++ [Old.Install dir b])))
        as (k & o & ->).
      exists (S k), o. cbn. now rewrite <- app_assoc.
    + exists 1, (Throw e). reflexivity.
Qed.

(** When no installation throws, every builder of the list is installed. *)
Lemma install_loop_all (W : Old.World) (dir : string) (l : list string)
  (s : Old.Store) :
  (forall b, In b l -> Old.install W dir b = Ok tt) ->
  for_of l (fun builder =>
    bind (Old.emit (Old.Install dir builder))
      (fun _ => lift (Old.install W dir builder))) s
  = (Ok tt, Old.mkStore (Old.status s) (Old.statusMessage s) (Old.res s)
              (Old.log s ++ map (Old.Install dir) l)).
Proof.
  revert s. induction l as [|b l IH]; intros s Hok.
  - cbn. rewrite app_nil_r. now destruct s.
  - cbn [for_of]. unfold bind at 1. unfold bind at 1.
    unfold Old.emit at 1, modify at 1, lift at 1.
    rewrite (Hok b (or_introl eq_refl)).
    rewrite IH by (intros; apply Hok; now right).
    cbn. now rewrite <- app_assoc.
Qed.

Lemma builders_no_static (bc : list Old.BuildConfig.t) :
  ~ In "@now/static"%string (Old.builders bc).
Proof.
  unfold Old.builders. intros H. apply in_app_or in H. destruct H as [H|H].
  - apply filter_In in H. destruct H as [_ H]. discriminate.
  - destruct H as [H|[]]. discriminate.
Qed.

Lemma count_occ_filter_other (l : list string) (p q : string) :
  p <> q ->
  count_occ string_dec (filter (fun x => negb (String.eqb x q)) l) p
  = count_occ string_dec l p.
Proof.
  intros Hpq. induction l as [|x l IH]; [reflexivity|].
  cbn [filter]. destruct (String.eqb_spec x q) as [->|Hx]; cbn [negb].
  - rewrite count_occ_cons_neq by congruence. exact IH.
  - cbn [count_occ]. destruct (string_dec x p); now rewrite IH.
Qed.

(** C3, as the code has it.  The list of builders is not deduplicated: it
    holds every plugin other than [@now/static] and [@now/build-utils] as
    many times as there are rules that use it.  [installBuilders] calls the
    installer on an initial segment of that list, in order, and on the whole
    list when no installation throws; so with two rules using the same
    plugin and no failing installation the installer is called twice for
    it. *)
Theorem install_once_per_rule :
  forall (W : Old.World) (dir : string) (bc : list Old.BuildConfig.t)
         (s : Old.Store),
    (forall p, p <> "@now/static"%string -> p <> "@now/build-utils"%string ->
       count_occ string_dec (Old.builders bc) p
       = count_occ string_dec (map Old.BuildConfig.use bc) p) /\
    (exists k,
        Old.installed (Old.log (snd (Old.installBuilders W dir bc s)))
        = Old.installed (Old.log s) ++ firstn k (Old.builders bc)) /\
    ((forall b, In b (Old.builders bc) -> Old.install W dir b = Ok tt) ->
     exists s',
       Old.installBuilders W dir bc s = (Ok tt, s') /\
       Old.installed (Old.log s')
       = Old.installed (Old.log s) ++ Old.builders bc).
Proof.
  intros W dir bc s. split; [|split].
  - intros p Hs Hu. unfold Old.builders.
    rewrite count_occ_app, count_occ_filter_other by assumption.
    assert (H0 : count_occ string_dec ["@now/build-utils"%string] p = 0).
    { apply count_occ_not_In. intros [H|[]]. congruence. }
    rewrite H0. lia.
  - unfold Old.installBuilders.
    destruct (install_loop_prefix W dir (Old.builders bc) s) as (k & o & ->).
    exists k. cbn. now rewrite installed_app, installed_installs.
  - intros Hok. eexists. split.
    + unfold Old.installBuilders. now apply install_loop_all.
    + cbn [Old.log]. now rewrite installed_app, installed_installs.
Qed.

Lemma install_once_per_rule_witness :
  exists s',
    Old.installBuilders Old.offline "/cache"
      [Old.BuildConfig.mk "api/*.js" "@now/node" None;
       Old.BuildConfig.mk "lib/*.js" "@now/node" None] Old.constructed
    = (Ok tt, s') /\
    Old.installed (Old.log s')
    = ["@now/node"; "@now/node"; "@now/build-utils"]%string.
Proof.
  destruct (proj2 (proj2 (install_once_per_rule Old.offline "/cache"
              [Old.BuildConfig.mk "api/*.js" "@now/node" None;
               Old.BuildConfig.mk "lib/*.js" "@now/node" None]
              Old.constructed)))
    as (s' & Hrun & Hlog).
  - intros b _. reflexivity.
  - exists s'. split; [exact Hrun | exact Hlog].
Defined.

(** Two rules that use the same plugin make the installer run twice for
    it. *)
Lemma same_plugin_installed_twice :
  count_occ string_dec
    (Old.installed
       (Old.log
          (snd (Old.installBuilders Old.offline "/cache"
                  [Old.BuildConfig.mk "api/*.js" "@now/node" None;
                   Old.BuildConfig.mk "lib/*.js" "@now/node" None]
                  Old.constructed))))
    "@now/node"%string
  = 2.
Proof. reflexivity. Qed.

(** C10.  The list of builders to install ends with [@now/build-utils]
    whatever the rules are (it is the whole list when there is no rule or
    only [@now/static] rules) and never holds [@now/static]; besides
    [@now/build-utils] it holds exactly the plugins of the rules that are not
    [@now/static].  The installations requested by a run are an initial
    segment of that list, the whole list when no installation throws. *)
Theorem builders_list_adjusted :
  forall (W : Old.World) (dir : string) (bc : list Old.BuildConfig.t)
         (s : Old.Store),
    last (Old.builders bc) ""%string = "@now/build-utils"%string /\
    In "@now/build-utils"%string (Old.builders bc) /\
    ~ In "@now/static"%string (Old.builders bc) /\
    Old.builders [] = ["@now/build-utils"%string] /\
    (forall b, In b (Old.builders bc) <->
               b = "@now/build-utils"%string \/
               (b <> "@now/static"%string /\
                exists rule, In rule bc /\ Old.BuildConfig.use rule = b)) /\
    (exists k,
        Old.installed (Old.log (snd (Old.installBuilders W dir bc s)))
        = Old.installed (Old.log s) ++ firstn k (Old.builders bc)) /\
    ((forall b, In b (Old.builders bc) -> Old.install W dir b = Ok tt) ->
     Old.installed (Old.log (snd (Old.installBuilders W dir bc s)))
     = Old.installed (Old.log s) ++ Old.builders bc).
Proof.
  intros W dir bc s.
  split; [unfold Old.builders; apply last_last|].
  split; [unfold Old.builders; apply in_or_app; right; now left|].
  split; [apply builders_no_static|].
  split; [reflexivity|].
  split.
  { intros b. unfold Old.builders. rewrite in_app_iff, filter_In, in_map_iff.
    split.
    - intros [[(rule & Hu & Hin) Hb]|[<-|[]]]; [right|now left].
      split; [|now exists rule].
      intros ->. discriminate.
    - intros [->|[Hb (rule & Hin & Hu)]]; [right; now left|left].
      split; [now exists rule|].
      apply Bool.negb_true_iff. now apply String.eqb_neq. }
  split.
  { unfold Old.installBuilders.
    destruct (install_loop_prefix W dir (Old.builders bc) s) as (k & o & ->).
    exists k. cbn. now rewrite installed_app, installed_installs. }
  intros Hok. unfold Old.installBuilders.
  rewrite install_loop_all by assumption.
  cbn. now rewrite installed_app, installed_installs.
Qed.

Lemma builders_list_adjusted_witness :
  Old.installed
    (Old.log
       (snd (Old.installBuilders Old.offline "/cache"
               [Old.BuildConfig.mk "www/*" "@now/static" None]
               Old.constructed)))
  = ["@now/build-utils"%string].
Proof.
  apply (proj2 (proj2 (proj2 (proj2 (proj2 (proj2
           (builders_list_adjusted Old.offline "/cache"
              [Old.BuildConfig.mk "www/*" "@now/static" None]
              Old.constructed))))))).
  intros b _. reflexivity.
Defined.

(** ** The busy gate *)

(** C4.  A request that arrives while the status is [busy] is answered at
    once with [[busy] <reason>...]: the handler returns with the status and
    its reason as they were, the asset map untouched, and nothing in the log
    but the request line of the lib variant, so no installation and no build
    is started.  The check is the first thing the handler does, before any
    suspension point, so it holds for each of several requests arriving
    during one build. *)
Theorem busy_gating :
  forall (W : Lib.World) (cwd : string) (debug : bool) (req : Req.t)
         (s : Lib.Store)
         (W0 : Old.World) (cwd0 dir0 : string) (s0 : Old.Store),
    Lib.status s = DevServerStatus.busy ->
    Old.status s0 = DevServerStatus.busy ->
    Lib.devServerHandler W cwd debug req s
    = (Ok tt,
       Lib.mkStore (Lib.assets s) DevServerStatus.busy (Lib.statusMessage s)
         (Res.finish
            (Res.EndText ("[busy] " ++ Lib.statusMessage s ++ "...")%string)
            (Lib.res s))
         (Lib.log s
          ++ [Lib.LogHttp (show (Req.method req) ++ " " ++ show (Req.url req))%string]))
    /\
    Old.devServerHandler W0 cwd0 dir0 req s0
    = (Ok tt,
       Old.mkStore DevServerStatus.busy (Old.statusMessage s0)
         (Res.finish
            (Res.EndText ("[busy] " ++ Old.statusMessage s0 ++ "...")%string)
            (Old.res s0))
         (Old.log s0)).
Proof.
  intros W cwd debug req s W0 cwd0 dir0 s0 Hs Hs0. split.
  - unfold Lib.devServerHandler. unfold bind at 1.
    unfold Lib.emit at 1, modify at 1. unfold bind at 1. unfold read at 1.
    cbn [Lib.status Lib.statusMessage]. rewrite Hs.
    unfold Lib.update_res, modify. cbn. reflexivity.
  - unfold Old.devServerHandler. unfold bind at 1. unfold read at 1.
    rewrite Hs0. unfold Old.res_end, Old.update_res, modify.
    now rewrite Hs0.
Qed.

Lemma busy_gating_witness :
  Res.sent (Lib.res (snd (Lib.devServerHandler
                            (Lib.project (Lib.NowConfig.mk (Some 2%Z) None None None None))
                            "/project" false
                            (Req.mk (Some "GET") (Some "/") [] [])
                            Lib.constructed)))
  = Some (Res.EndText "[busy] ...") /\
  Res.sent (Old.res (snd (Old.devServerHandler Old.offline "/project" "/cache"
                            (Req.mk (Some "GET") (Some "/") [] [])
                            (Old.mkStore DevServerStatus.busy "building lambdas"
                               Res.fresh []))))
  = Some (Res.EndText "[busy] building lambdas...").
Proof.
  destruct (busy_gating
              (Lib.project (Lib.NowConfig.mk (Some 2%Z) None None None None))
              "/project" false (Req.mk (Some "GET") (Some "/") [] [])
              Lib.constructed
              Old.offline "/project" "/cache"
              (Old.mkStore DevServerStatus.busy "building lambdas" Res.fresh [])
              eq_refl eq_refl) as [-> ->].
  split; reflexivity.
Defined.

(** ** Validation of the configuration *)

Lemma getNowJson_invalid (W : Lib.World) (cwd text : string)
  (config : Lib.NowConfig.t) (e : Error) (s : Lib.Store) :
  Lib.readFile W (Lib.getNowJsonPath W cwd) = Ok text ->
  Lib.JSON_parse W text = Ok config ->
  Lib.validateNowConfig config = Throw e ->
  code e = None ->
  Lib.getNowJson W cwd s = (Throw e, s).
Proof.
  intros Hr Hp Hv Hc. unfold Lib.getNowJson, try_catch, bind, lift.
  rewrite Hr, Hp, Hv. unfold throw. now rewrite Hc.
Qed.

Lemma validate_throws_plain (config : Lib.NowConfig.t) (e : Error) :
  Lib.validateNowConfig config = Throw e -> code e = None.
Proof.
  unfold Lib.validateNowConfig.
  destruct (negb _); [now intros [= <-]|].
  destruct (Lib.hasSecretEnv _); [now intros [= <-]|discriminate].
Qed.

(** C7.  A configuration passes [validateNowConfig] exactly when its version
    is the number 2 and no value of [env] or of the build-time [env] starts
    with [@]; any other version is refused with the version message, and a
    version-2 configuration with a secret reference with the secret message.
    When the configuration file of the project parses to a refused
    configuration, [start] fails and leaves the server as the constructor
    made it: the status is never set to idle and no build is run. *)
Theorem config_validation :
  forall (W : Lib.World) (cwd : string) (debug : bool) (port : Z)
         (s : Lib.Store) (text : string) (config : Lib.NowConfig.t),
    Lib.readFile W (Lib.getNowJsonPath W cwd) = Ok text ->
    Lib.JSON_parse W text = Ok config ->
    (Lib.validateNowConfig config = Ok tt <->
     Lib.NowConfig.version config = Some 2%Z /\
     Forall (fun val => Lib.starts_with_at val = false)
       (Lib.env_values (Lib.NowConfig.env config)
        ++ Lib.build_env_values (Lib.NowConfig.build_env config))) /\
    (Lib.NowConfig.version config <> Some 2%Z ->
     Lib.validateNowConfig config
     = Throw (Js.error "Only `version: 2` is supported by `now dev`")) /\
    (Lib.NowConfig.version config = Some 2%Z ->
     Exists (fun val => Lib.starts_with_at val = true)
       (Lib.env_values (Lib.NowConfig.env config)
        ++ Lib.build_env_values (Lib.NowConfig.build_env config)) ->
     Lib.validateNowConfig config
     = Throw (Js.error "Secret env vars are not yet supported by `now dev`")) /\
    (forall e, Lib.validateNowConfig config = Throw e ->
       exists e',
         Lib.start W cwd debug port s = (Throw e', s) /\
         (Lib.listen W port = Ok tt -> e' = e)).
Proof.
  intros W cwd debug port s text config Hr Hp.
  assert (Hver : Lib.version_is_2 config = true <->
                 Lib.NowConfig.version config = Some 2%Z).
  { unfold Lib.version_is_2. destruct (Lib.NowConfig.version config) as [v|].
    - rewrite Z.eqb_eq. split; congruence.
    - split; discriminate. }
  assert (Hsec : Lib.hasSecretEnv config = true <->
                 Exists (fun val => Lib.starts_with_at val = true)
                   (Lib.env_values (Lib.NowConfig.env config)
                    ++ Lib.build_env_values (Lib.NowConfig.build_env config))).
  { unfold Lib.hasSecretEnv. rewrite existsb_exists, Exists_exists. reflexivity. }
  split; [|split; [|split]].
  - unfold Lib.validateNowConfig.
    destruct (Lib.version_is_2 config); cbn [negb].
    + destruct (Lib.hasSecretEnv config).
      * split; [discriminate|]. intros [_ Hall].
        pose proof (proj1 Hsec eq_refl) as Hex.
        apply Exists_exists in Hex. destruct Hex as (val & Hin & Hat).
        rewrite Forall_forall in Hall. rewrite (Hall _ Hin) in Hat.
        discriminate.
      * split; [|reflexivity]. intros _. split; [now apply Hver|].
        apply Forall_forall. intros val Hin.
        destruct (Lib.starts_with_at val) eqn:Hat; [|reflexivity].
        symmetry. apply Hsec, Exists_exists. now exists val.
    + split; [discriminate|]. intros [H _]. apply Hver in H. discriminate.
  - intros Hne. unfold Lib.validateNowConfig.
    destruct (Lib.version_is_2 config); [|reflexivity].
    exfalso. now apply Hne, Hver.
  - intros H2 Hex. unfold Lib.validateNowConfig.
    apply Hver in H2. apply Hsec in Hex. now rewrite H2, Hex.
  - intros e He. unfold Lib.start. unfold bind at 1.
    rewrite (getNowJson_invalid W cwd text config e s Hr Hp He
               (validate_throws_plain config e He)).
    unfold Lib.Promise_all2.
    destruct (Lib.listen W port) as [[]|e2].
    + exists e. split; [reflexivity|reflexivity].
    + destruct (Lib.listen_settles_first W).
      * exists e2. split; [reflexivity|discriminate].
      * exists e. split; [reflexivity|reflexivity].
Qed.

Lemma config_validation_witness :
  Lib.start
    (Lib.project
       (Lib.NowConfig.mk (Some 2%Z) None None
          (Some [("TOKEN", "@api-token")]) None))
    "/project" false 3000 Lib.constructed
  = (Throw (Js.error "Secret env vars are not yet supported by `now dev`"),
     Lib.constructed).
Proof.
  destruct (config_validation
              (Lib.project
                 (Lib.NowConfig.mk (Some 2%Z) None None
                    (Some [("TOKEN", "@api-token")]) None))
              "/project" false 3000 Lib.constructed "now.json"
              (Lib.NowConfig.mk (Some 2%Z) None None
                 (Some [("TOKEN", "@api-token")]) None)
              eq_refl eq_refl) as (_ & _ & _ & Hstart).
  destruct (Hstart _ eq_refl) as (e' & -> & He).
  now rewrite (He eq_refl).
Defined.

(** ** Redirects *)

(** A rule that carries both a redirect status and an absolute URL: the
    request is handed to the proxy, not ended. *)
Lemma redirect_status_with_url_is_proxied :
  let rule :=
    Lib.RouteConfig.mk "^old$" (Some "https://example.com/new") None
      (Some [("Location", "https://example.com/new")]) (Some 302%Z) in
  let config := Lib.NowConfig.mk (Some 2%Z) None (Some [rule]) None None in
  let req := Req.mk (Some "GET") (Some "/old") [] [] in
  (exists routed,
      Lib.devRouter (Lib.project config) (Req.url req)
        (Lib.NowConfig.routes config) = Ok routed /\
      Lib.RouteResult.status routed = Some 302%Z) /\
  Res.sent (Lib.res (snd (Lib.serveProjectAsNowV2 (Lib.project config)
                            "/project" false req config Lib.started)))
  = Some (Res.ProxyWeb "https://example.com/new") /\
  Res.sent (Lib.res (snd (Lib.serveProjectAsNowV2 (Lib.project config)
                            "/project" false req config Lib.started)))
  <> Some Res.End.
Proof.
  cbv zeta. split; [|split].
  - eexists. split; reflexivity.
  - reflexivity.
  - discriminate.
Qed.

(** C8, as the code has it.  When the routing result carries status 301,
    302 or 303, its destination is not an absolute URL, nothing has been
    sent yet and every header of the routing result can be set on the
    response (a valid name, a valid value), the response is ended with no
    body, carrying those headers; the asset map is not consulted and nothing
    is invoked: the log gains at most the debug line.  (A destination that
    is an absolute URL is proxied before the status is looked at.) *)
Theorem redirect_ends_response :
  forall (W : Lib.World) (cwd : string) (debug : bool) (req : Req.t)
         (nowJson : Lib.NowConfig.t) (routed : Lib.RouteResult.t)
         (s : Lib.Store) (r' : Res.t),
    Lib.devRouter W (Req.url req) (Lib.NowConfig.routes nowJson) = Ok routed ->
    Lib.is_redirect (Lib.status_or_200 routed) = true ->
    Lib.isURL W (Lib.RouteResult.dest routed) = false ->
    Res.sent (Lib.res s) = None ->
    Res.set_all (Lib.headers_or_empty routed) (Lib.res s) = Ok r' ->
    Lib.serveProjectAsNowV2 W cwd debug req nowJson s
    = (Ok tt,
       Lib.mkStore (Lib.assets s) (Lib.status s) (Lib.statusMessage s)
         (Res.mk (Res.statusCode (Lib.res s)) (Res.headers r') (Some Res.End))
         (Lib.log s ++ (if debug then [Lib.LogDebug "Redirect"] else []))).
Proof.
  intros W cwd debug req nowJson routed s r' Hr Hst Hurl Hsent Hset.
  destruct (set_all_sent _ _ _ Hset) as [Hs' Hc'].
  unfold Lib.serveProjectAsNowV2. unfold bind at 1. unfold lift at 1.
  rewrite Hr. unfold bind at 1. rewrite (lib_setHeaders_ok _ _ _ Hset).
  rewrite Hurl, Hst. clear Hset.
  destruct r' as [c h e]. cbn in Hs', Hc'. rewrite Hsent in Hs'. subst c e.
  unfold bind, Lib.logDebug, with_response.
  destruct debug; cbn; [reflexivity|].
  now rewrite app_nil_r.
Qed.

Lemma redirect_ends_response_witness :
  let rule :=
    Lib.RouteConfig.mk "^old$" None None
      (Some [("Location", "/new")]) (Some 302%Z) in
  let config := Lib.NowConfig.mk (Some 2%Z) None (Some [rule]) None None in
  let req := Req.mk (Some "GET") (Some "/old") [] [] in
  Lib.res (snd (Lib.serveProjectAsNowV2 (Lib.project config) "/project" false
                  req config Lib.started))
  = Res.mk 200 [("location"%string, ("Location"%string, Res.Text "/new"))]
      (Some Res.End).
Proof.
  cbv zeta.
  rewrite (redirect_ends_response
             (Lib.project
                (Lib.NowConfig.mk (Some 2%Z) None
                   (Some [Lib.RouteConfig.mk "^old$" None None
                            (Some [("Location", "/new")]) (Some 302%Z)])
                   None None))
             "/project" false
             (Req.mk (Some "GET") (Some "/old") [] [])
             (Lib.NowConfig.mk (Some 2%Z) None
                (Some [Lib.RouteConfig.mk "^old$" None None
                         (Some [("Location", "/new")]) (Some 302%Z)])
                None None)
             (Lib.RouteResult.mk "old" (Some 302%Z)
                (Some [("Location", "/new")]) []
                (Some (Lib.RouteConfig.mk "^old$" None None
                         (Some [("Location", "/new")]) (Some 302%Z))))
             Lib.started
             (Res.mk 200
                [("location"%string, ("Location"%string, Res.Text "/new"))]
                None)
             eq_refl eq_refl eq_refl eq_refl eq_refl).
  reflexivity.
Defined.

(** ** Failure of a build *)

Lemma same_server_refl (s : Old.Store) : Old.same_server s s.
Proof. now repeat split. Qed.

Lemma same_server_trans (s1 s2 s3 : Old.Store) :
  Old.same_server s1 s2 -> Old.same_server s2 s3 -> Old.same_server s1 s3.
Proof.
  intros (A & B & C) (D & E & F). repeat split; congruence.
Qed.

Lemma same_server_emit (e : Old.Event) (s : Old.Store) :
  Old.same_server s (snd (Old.emit e s)).
Proof. now repeat split. Qed.

Section BuildRun.

Variable W : Old.World.
Variable cwd dir : string.
Variable files : Obj string.

Let entry_ok (build : Old.BuildConfig.t)
    (builder : Old.BuildArgs.t -> Outcome Old.BuilderOutputs)
    (fsPath : string) : bool :=
  match builder (Old.BuildArgs.mk files (Old.path_relative W cwd fsPath) cwd
                   (Old.BuildConfig.config build)) with
  | Ok _ => true
  | Throw _ => false
  end.

Lemma build_entries_outcome (build : Old.BuildConfig.t) builder
  (entries : list string) (results : Old.BuilderOutputs) (s : Old.Store) :
  match Old.build_entries W cwd build builder files entries results s with
  | (Ok _, s') => forallb (entry_ok build builder) entries = true
                  /\ Old.same_server s s'
  | (Throw _, s') => forallb (entry_ok build builder) entries = false
                     /\ Old.same_server s s'
  end.
Proof.
  revert results s. induction entries as [|fsPath rest IH]; intros results s.
  - cbn. split; [reflexivity|apply same_server_refl].
  - cbn [Old.build_entries forallb]. unfold bind at 1. unfold bind at 1.
    unfold Old.emit at 1, modify at 1, lift at 1. unfold entry_ok at 1 3.
    destruct (builder _) as [output|e].
    + match goal with
      | |- context [Old.build_entries W cwd build builder files rest ?r ?t] =>
          specialize (IH r t);
          destruct (Old.build_entries W cwd build builder files rest r t)
            as [[r'|e'] s']
      end; cbn [andb]; destruct IH as [Hall Hsame]; (split; [exact Hall|]);
        destruct Hsame as (A & B & C); repeat split; assumption.
    + cbn [andb]. split; [reflexivity|]. now repeat split.
Qed.

Lemma build_one_outcome (build : Old.BuildConfig.t)
  (results : Old.BuilderOutputs) (s : Old.Store) :
  match Old.build_one W cwd dir files build results s with
  | (Ok _, s') => Old.rule_builds W cwd dir files build = true
                  /\ Old.same_server s s'
  | (Throw e, s') =>
      Old.rule_builds W cwd dir files build = false
      /\ Old.same_server s s'
      /\ exists err, e = Old.builder_failure W build err
  end.
Proof.
  unfold Old.build_one, try_catch, Old.rule_builds.
  unfold bind at 1. unfold Old.emit at 1, modify at 1.
  unfold bind at 1. unfold Old.emit at 1, modify at 1.
  unfold bind at 1. unfold lift at 1.
  destruct (Old.glob W (Old.BuildConfig.src build) cwd) as [found|e1].
  - unfold bind at 1. unfold Old.emit at 1, modify at 1.
    unfold bind at 1. unfold lift at 1.
    destruct (Old.getBuilder W dir (Old.BuildConfig.use build)) as [builder|e2].
    + match goal with
      | |- context [Old.build_entries W cwd build builder files ?en ?r ?t] =>
          pose proof (build_entries_outcome build builder en r t) as H;
          destruct (Old.build_entries W cwd build builder files en r t)
            as [[r'|e'] s']
      end; destruct H as [Hall (A & B & C)].
      * split; [exact Hall|]. repeat split; assumption.
      * unfold throw. split; [exact Hall|]. split; [|now exists e'].
        repeat split; assumption.
    + unfold throw. split; [reflexivity|]. split; [|now exists e2].
      now repeat split.
  - unfold throw. split; [reflexivity|]. split; [|now exists e1].
    now repeat split.
Qed.

(** The loop over the rules stops at the first rule that does not build and
    throws the error that names it. *)
Lemma build_all_outcome (bc : list Old.BuildConfig.t)
  (results : Old.BuilderOutputs) (s : Old.Store) :
  match Old.build_all W cwd dir files bc results s with
  | (Ok _, s') =>
      forallb (Old.rule_builds W cwd dir files) bc = true /\ Old.same_server s s'
  | (Throw e, s') =>
      Old.same_server s s' /\
      exists pre build post err,
        bc = pre ++ build :: post /\
        forallb (Old.rule_builds W cwd dir files) pre = true /\
        Old.rule_builds W cwd dir files build = false /\
        e = Old.builder_failure W build err
  end.
Proof.
  revert results s. induction bc as [|build rest IH]; intros results s.
  - cbn. split; [reflexivity|apply same_server_refl].
  - cbn [Old.build_all forallb]. unfold bind at 1.
    pose proof (build_one_outcome build results s) as H1.
    destruct (Old.build_one W cwd dir files build results s) as [[r1|e1] s1].
    + destruct H1 as [Hb Hs1]. rewrite Hb. cbn [andb].
      specialize (IH r1 s1).
      destruct (Old.build_all W cwd dir files rest r1 s1) as [[r2|e2] s2].
      * destruct IH as [Hall Hs2]. split; [exact Hall|].
        eapply same_server_trans; eassumption.
      * destruct IH as [Hs2 (pre & b & post & err & -> & Hpre & Hfail & ->)].
        split; [eapply same_server_trans; eassumption|].
        exists (build :: pre), b, post, err. cbn [forallb app].
        rewrite Hb, Hpre. now repeat split.
    + destruct H1 as (Hb & Hs1 & err & ->).
      split; [exact Hs1|].
      exists [], build, rest, err. now repeat split.
Qed.

End BuildRun.

(** ** The asset map of the lib variant *)

Lemma keeps_ret {A} (a : A) : Lib.keeps_assets (ret a).
Proof. intros s. reflexivity. Qed.

Lemma keeps_throw {A} (e : Error) : Lib.keeps_assets (@throw Lib.Store A e).
Proof. intros s. reflexivity. Qed.

Lemma keeps_lift {A} (o : Outcome A) : Lib.keeps_assets (@lift Lib.Store A o).
Proof. intros s. reflexivity. Qed.

Lemma keeps_read : Lib.keeps_assets (@read Lib.Store).
Proof. intros s. reflexivity. Qed.

Lemma keeps_bind {A B} (m : M Lib.Store A) (f : A -> M Lib.Store B) :
  Lib.keeps_assets m -> (forall a, Lib.keeps_assets (f a)) -> Lib.keeps_assets (bind m f).
Proof.
  intros Hm Hf s. unfold bind. specialize (Hm s).
  destruct (m s) as [[a|e] s1]; cbn [snd] in *.
  - now rewrite Hf.
  - exact Hm.
Qed.

Lemma keeps_try {A} (m : M Lib.Store A) (h : Error -> M Lib.Store A) :
  Lib.keeps_assets m -> (forall e, Lib.keeps_assets (h e)) ->
  Lib.keeps_assets (try_catch m h).
Proof.
  intros Hm Hh s. unfold try_catch. specialize (Hm s).
  destruct (m s) as [[a|e] s1]; cbn [snd] in *.
  - exact Hm.
  - now rewrite Hh.
Qed.

Lemma keeps_emit (e : Lib.Event) : Lib.keeps_assets (Lib.emit e).
Proof. intros s. reflexivity. Qed.

Lemma keeps_update_res (f : Res.t -> Res.t) : Lib.keeps_assets (Lib.update_res f).
Proof. intros s. reflexivity. Qed.

Lemma keeps_setStatusIdle : Lib.keeps_assets Lib.setStatusIdle.
Proof. intros s. reflexivity. Qed.

Lemma keeps_setStatusError (msg : string) :
  Lib.keeps_assets (Lib.setStatusError msg).
Proof. intros s. reflexivity. Qed.

Lemma keeps_logDebug (debug : bool) (msg : string) :
  Lib.keeps_assets (Lib.logDebug debug msg).
Proof. destruct debug; [apply keeps_emit|apply keeps_ret]. Qed.

Lemma keeps_for_of {A} (xs : list A) (body : A -> M Lib.Store unit) :
  (forall x, Lib.keeps_assets (body x)) -> Lib.keeps_assets (for_of xs body).
Proof.
  intros Hb. induction xs as [|x xs IH]; cbn [for_of].
  - apply keeps_ret.
  - apply keeps_bind; [apply Hb|intros _; exact IH].
Qed.

Create HintDb keeps.
#[local] Hint Resolve keeps_ret keeps_throw keeps_lift keeps_read keeps_emit
  keeps_update_res keeps_setStatusIdle keeps_setStatusError keeps_logDebug
  : keeps.

Ltac keeps_step :=
  first
    [ apply keeps_bind; [|intros ?]
    | apply keeps_try; [|intros ?]
    | apply keeps_for_of; intros ?
    | solve [auto with keeps] ].

Ltac split_matches :=
  repeat match goal with
         | |- context [match ?x with _ => _ end] => destruct x; try reflexivity
         end.

Lemma enoent_handler_store (err : Error) (s : Lib.Store) :
  snd ((match code err with
        | Some "ENOENT"%string => ret None
        | _ => @throw Lib.Store (option Lib.NowConfig.t) err
        end) s) = s.
Proof.
  destruct (code err) as [c|]; [|reflexivity].
  split_matches.
Qed.

Lemma getNowJson_store (W : Lib.World) (cwd : string) (s : Lib.Store) :
  snd (Lib.getNowJson W cwd s) = s.
Proof.
  unfold Lib.getNowJson, try_catch, bind, lift.
  destruct (Lib.readFile W _) as [text|e]; [|apply enoent_handler_store].
  destruct (Lib.JSON_parse W text) as [config|e]; [|apply enoent_handler_store].
  destruct (Lib.validateNowConfig config) as [[]|e]; [reflexivity|].
  apply enoent_handler_store.
Qed.

Lemma keeps_getNowJson (W : Lib.World) (cwd : string) :
  Lib.keeps_assets (Lib.getNowJson W cwd).
Proof. intros s. now rewrite getNowJson_store. Qed.

Lemma keeps_set_header (name value : string) :
  Lib.keeps_assets (Lib.set_header name value).
Proof.
  intros s. unfold Lib.set_header.
  destruct (Res.setHeader name (Res.Text value) (Lib.res s)); reflexivity.
Qed.

Lemma keeps_setHeaders (hs : Obj string) : Lib.keeps_assets (Lib.setHeaders hs).
Proof.
  unfold Lib.setHeaders. apply keeps_for_of. intros nv. apply keeps_set_header.
Qed.

Lemma keeps_invokeLambda (W : Lib.World) (req : Req.t) fn :
  Lib.keeps_assets (Lib.invokeLambda W req fn).
Proof.
  unfold Lib.invokeLambda. destruct fn as [f|]; repeat keeps_step.
  apply keeps_set_header.
Qed.

Lemma keeps_serveProjectAsNowV2 (W : Lib.World) (cwd : string) (debug : bool)
  (req : Req.t) (nowJson : Lib.NowConfig.t) :
  Lib.keeps_assets (Lib.serveProjectAsNowV2 W cwd debug req nowJson).
Proof.
  unfold Lib.serveProjectAsNowV2.
  apply keeps_bind; [auto with keeps|intros routed].
  apply keeps_bind; [apply keeps_setHeaders|intros _].
  destruct (Lib.isURL W _).
  { unfold Lib.proxyPass. repeat keeps_step. }
  destruct (Lib.is_redirect _).
  { repeat keeps_step. }
  destruct (Lib.NowConfig.builds nowJson).
  - apply keeps_bind; [auto with keeps|intros s0].
    destruct (Lib.resolveDest _ _) as [[fsPath|fn|ty|name]|].
    + unfold Lib.serveStaticFile. auto with keeps.
    + apply keeps_invokeLambda.
    + repeat keeps_step.
    + repeat keeps_step.
    + repeat keeps_step.
  - unfold Lib.serveStaticFile. auto with keeps.
Qed.

Lemma keeps_serveProjectAsStatics (W : Lib.World) (cwd : string) (req : Req.t) :
  Lib.keeps_assets (Lib.serveProjectAsStatics W cwd req).
Proof.
  unfold Lib.serveProjectAsStatics.
  apply keeps_bind; [auto with keeps|intros ignores].
  destruct (_ && _).
  - repeat keeps_step.
  - unfold Lib.serveStaticFile. auto with keeps.
Qed.

Lemma keeps_devServerHandler (W : Lib.World) (cwd : string) (debug : bool)
  (req : Req.t) :
  Lib.keeps_assets (Lib.devServerHandler W cwd debug req).
Proof.
  unfold Lib.devServerHandler.
  apply keeps_bind; [auto with keeps|intros _].
  apply keeps_bind; [auto with keeps|intros s0].
  destruct (Lib.status s0).
  - auto with keeps.
  - apply keeps_bind; [|auto with keeps].
    apply keeps_try.
    + apply keeps_bind; [apply keeps_getNowJson|intros [nj|]].
      * apply keeps_serveProjectAsNowV2.
      * apply keeps_serveProjectAsStatics.
    + intros e. repeat keeps_step. destruct (Res.finished _); repeat keeps_step.
  - apply keeps_bind; [|auto with keeps].
    apply keeps_try.
    + apply keeps_bind; [apply keeps_getNowJson|intros [nj|]].
      * apply keeps_serveProjectAsNowV2.
      * apply keeps_serveProjectAsStatics.
    + intros e. repeat keeps_step. destruct (Res.finished _); repeat keeps_step.
Qed.

Lemma serve_keeps_assets (W : Lib.World) (cwd : string) (debug : bool)
  (reqs : list Req.t) (s : Lib.Store) :
  Lib.assets (Lib.serve W cwd debug reqs s) = Lib.assets s.
Proof.
  revert s. induction reqs as [|req rest IH]; intros s; [reflexivity|].
  cbn [Lib.serve]. rewrite IH. now rewrite keeps_devServerHandler.
Qed.

Lemma start_failure_keeps_assets (W : Lib.World) (cwd : string) (debug : bool)
  (port : Z) (s s' : Lib.Store) (e : Error) :
  Lib.start W cwd debug port s = (Throw e, s') ->
  Lib.assets s' = Lib.assets s.
Proof.
  unfold Lib.start. unfold bind at 1.
  pose proof (getNowJson_store W cwd s) as Hs.
  destruct (Lib.getNowJson W cwd s) as [o s1]. cbn [snd] in Hs. subst s1.
  destruct (Lib.Promise_all2 o _ _) as [[nowJson u]|e0].
  2: { now intros [= _ <-]. }
  cbn [fst]. unfold bind at 1. unfold Lib.emit at 1, modify at 1.
  destruct nowJson as [nj|].
  2: { unfold bind, ret, Lib.setStatusIdle, modify. discriminate. }
  destruct (Lib.NowConfig.builds nj) as [builds|].
  2: { unfold bind, ret, Lib.setStatusIdle, modify. discriminate. }
  unfold bind at 1. unfold bind at 1.
  assert (Hd : forall msg t, exists t',
             Lib.logDebug debug msg t = (Ok tt, t') /\
             Lib.assets t' = Lib.assets t).
  { intros msg t. unfold Lib.logDebug.
    destruct debug; eexists; (split; [reflexivity|reflexivity]). }
  match goal with
  | |- context [Lib.logDebug debug "Initial build" ?t] =>
      destruct (Hd "Initial build"%string t) as (t1 & -> & Ht1)
  end.
  unfold bind at 1. unfold Lib.emit at 1, modify at 1.
  unfold bind at 1. unfold Lib.with_flag at 1.
  destruct (Lib.buildUserProject W nj _) as [[built|e1] [st msg]].
  - unfold bind at 1. unfold Lib.setAssets at 1, modify at 1.
    unfold bind at 1. unfold Lib.emit at 1, modify at 1.
    match goal with
    | |- context [Lib.logDebug debug "Built" ?t] =>
        destruct (Hd "Built"%string t) as (t2 & -> & Ht2)
    end.
    unfold Lib.setStatusIdle, modify. discriminate.
  - intros [= _ <-]. cbn. exact Ht1.
Qed.

(** On the request path of the first variant the failure is reported
    without the rule: [buildUserProject] replaces whatever was thrown by a
    plain [Build failed.] error. *)
Lemma buildUserProject_masks_failure (W : Old.World) (cwd dir : string)
  (bc : list Old.BuildConfig.t) (s s' : Old.Store) (e : Error) :
  Old.buildUserProject W cwd dir bc s = (Throw e, s') ->
  e = Js.error "Build failed.".
Proof.
  unfold Old.buildUserProject, try_catch.
  destruct (bind _ _ s) as [[a|e0] s0]; [discriminate|].
  unfold throw. now intros [= <- _].
Qed.

(** ** Routing *)

Lemma reduce_no_match (W : Old.World) (path : string)
  (routes : list Old.RouteConfig.t) :
  (forall r, In r routes ->
     Old.regexp W ("^" ++ Old.RouteConfig.src r ++ "$")%string path = NoMatch) ->
  Old.reduce W routes path = Ok path.
Proof.
  induction routes as [|r rest IH]; intros Hno; [reflexivity|].
  cbn [Old.reduce].
  assert (Hstep : Old.route_step W path r = Ok path).
  { unfold Old.route_step, replace.
    destruct (Old.RouteConfig.dest r) as [d|]; [|reflexivity].
    destruct (truthy d); [|reflexivity].
    now rewrite (Hno r (or_introl eq_refl)). }
  rewrite Hstep. apply IH. intros r' Hr'. apply Hno. now right.
Qed.

Lemma walk_no_match (exec : Engine) (is_url : string -> bool)
  (requestMethod : option string) (routes : list Lib.RouteConfig.t)
  (w : Lib.Walk) :
  (forall r, In r routes ->
     exec (Lib.RouteConfig.src r) (Lib.path w) = NoMatch) ->
  Lib.walk exec is_url requestMethod routes w = Ok w.
Proof.
  induction routes as [|r rest IH]; intros Hno; [reflexivity|].
  cbn [Lib.walk]. rewrite (Hno r (or_introl eq_refl)).
  apply IH. intros r' Hr'. apply Hno. now right.
Qed.

(** C1.  A request path that matches the pattern of no rule passes through
    the router unchanged.  In the first variant the destination handed to
    the asset lookup is the request path without its leading slash, whatever
    the route list; in the lib variant, with the router as the specification
    describes it, the routing result is the original path, and the status
    and headers the server takes from it are 200 and none. *)
Theorem route_passthrough :
  forall (W : Old.World) (is_url : string -> bool)
         (requestMethod : option string) (url : string)
         (old_routes : list Old.RouteConfig.t)
         (routes : list Lib.RouteConfig.t),
    (forall r, In r old_routes ->
       Old.regexp W ("^" ++ Old.RouteConfig.src r ++ "$")%string
         (strip_leading_slash url) = NoMatch) ->
    (forall r, In r routes ->
       Old.regexp W (Lib.RouteConfig.src r) (strip_leading_slash url)
       = NoMatch) ->
    Old.route_reqDest W url (Some old_routes) = Ok (strip_leading_slash url) /\
    exists routed,
      Lib.devRouter_spec (Old.regexp W) is_url requestMethod (Some url)
        (Some routes) = Ok routed /\
      Lib.RouteResult.dest routed = url /\
      Lib.status_or_200 routed = 200%Z /\
      Lib.headers_or_empty routed = [].
Proof.
  intros W is_url requestMethod url old_routes routes Hold Hnew. split.
  - unfold Old.route_reqDest. now apply reduce_no_match.
  - unfold Lib.devRouter_spec. rewrite walk_no_match by exact Hnew.
    cbn. eexists. split; [reflexivity|]. now repeat split.
Qed.

Lemma route_passthrough_witness :
  Old.route_reqDest Old.offline "/about"
    (Some [Old.RouteConfig.mk "old" (Some "new") None None None])
  = Ok "about"%string /\
  exists routed,
    Lib.devRouter_spec anchored_literal_exec Lib.isURL_spec (Some "GET")
      (Some "/about")
      (Some [Lib.RouteConfig.mk "^old$" (Some "new") None None None])
    = Ok routed /\
    Lib.RouteResult.dest routed = "/about"%string /\
    Lib.status_or_200 routed = 200%Z /\
    Lib.headers_or_empty routed = [].
Proof.
  apply (route_passthrough Old.offline Lib.isURL_spec (Some "GET"%string)
           "/about"
           [Old.RouteConfig.mk "old" (Some "new") None None None]
           [Lib.RouteConfig.mk "^old$" (Some "new") None None None]).
  - intros r [<-|[]]. reflexivity.
  - intros r [<-|[]]. reflexivity.
Defined.

(* ================================================================== *)
(** * Further properties of the lib variant *)
(* ================================================================== *)

(** ** Reading the configuration *)

Ltac first_char c :=
  destruct c as [|[[] [] [] [] [] [] [] []] c]; try reflexivity.

Lemma enoent_dispatch (err : Error) (s : Lib.Store) :
  (match code err with
   | Some "ENOENT"%string => ret None
   | _ => @throw Lib.Store (option Lib.NowConfig.t) err
   end) s
  = if is_enoent err then (Ok None, s) else (Throw err, s).
Proof.
  unfold is_enoent. destruct (code err) as [c|]; [|reflexivity].
  first_char c. first_char c. first_char c.
  first_char c. first_char c. first_char c.
  destruct c; reflexivity.
Qed.

Lemma getNowJson_read_fails (W : Lib.World) (cwd : string) (s : Lib.Store)
  (e : Error) :
  Lib.readFile W (Lib.getNowJsonPath W cwd) = Throw e ->
  Lib.getNowJson W cwd s = if is_enoent e then (Ok None, s) else (Throw e, s).
Proof.
  intros Hr. unfold Lib.getNowJson, try_catch, bind, lift.
  rewrite Hr. apply enoent_dispatch.
Qed.

Lemma getNowJson_valid (W : Lib.World) (cwd : string) (s : Lib.Store)
  (text : string) (config : Lib.NowConfig.t) :
  Lib.readFile W (Lib.getNowJsonPath W cwd) = Ok text ->
  Lib.JSON_parse W text = Ok config ->
  Lib.validateNowConfig config = Ok tt ->
  Lib.getNowJson W cwd s = (Ok (Some config), s).
Proof.
  intros Hr Hp Hv. unfold Lib.getNowJson, try_catch, bind, lift.
  now rewrite Hr, Hp, Hv.
Qed.

(** X1.  [getNowJson] answers [null] when reading the file fails with
    [ENOENT] and rethrows any other failure of reading or parsing; a file
    that parses to a valid configuration is returned.  The store is never
    touched. *)
Theorem getNowJson_outcomes :
  forall (W : Lib.World) (cwd : string) (s : Lib.Store),
    (forall e, Lib.readFile W (Lib.getNowJsonPath W cwd) = Throw e ->
               Lib.getNowJson W cwd s
               = if is_enoent e then (Ok None, s) else (Throw e, s)) /\
    (forall text e,
        Lib.readFile W (Lib.getNowJsonPath W cwd) = Ok text ->
        Lib.JSON_parse W text = Throw e ->
        Lib.getNowJson W cwd s
        = if is_enoent e then (Ok None, s) else (Throw e, s)) /\
    (forall text config,
        Lib.readFile W (Lib.getNowJsonPath W cwd) = Ok text ->
        Lib.JSON_parse W text = Ok config ->
        Lib.validateNowConfig config = Ok tt ->
        Lib.getNowJson W cwd s = (Ok (Some config), s)).
Proof.
  intros W cwd s. split; [|split].
  - intros e Hr. now apply getNowJson_read_fails.
  - intros text e Hr Hp. unfold Lib.getNowJson, try_catch, bind, lift.
    rewrite Hr, Hp. apply enoent_dispatch.
  - intros text config Hr Hp Hv. now apply (getNowJson_valid W cwd s text).
Qed.

Lemma getNowJson_outcomes_witness :
  Lib.getNowJson (unconfigured (fun _ => false)) "/project" Lib.constructed
  = (Ok None, Lib.constructed).
Proof.
  apply (proj1 (getNowJson_outcomes (unconfigured (fun _ => false)) "/project"
                  Lib.constructed)
           (mkError "no such file" (Some "ENOENT"%string) None "no such file")).
  reflexivity.
Defined.

(** ** The handler as a whole *)

(** X2.  No failure escapes [devServerHandler]: it always returns, and
    unless the server was busy it leaves the status idle with an empty
    message, whatever happened while the request was served. *)
Theorem lib_handler_always_returns :
  forall (W : Lib.World) (cwd : string) (debug : bool) (req : Req.t)
         (s : Lib.Store),
    exists s',
      Lib.devServerHandler W cwd debug req s = (Ok tt, s') /\
      (Lib.status s <> DevServerStatus.busy ->
       Lib.status s' = DevServerStatus.idle /\
       Lib.statusMessage s' = ""%string) /\
      (Lib.status s = DevServerStatus.busy ->
       Lib.status s' = DevServerStatus.busy /\
       Lib.statusMessage s' = Lib.statusMessage s).
Proof.
  intros W cwd debug req s.
  assert (Hrest : forall (t : Lib.Store),
    exists t',
      bind (try_catch
              (bind (Lib.getNowJson W cwd)
                 (fun nowJson =>
                    match nowJson with
                    | Some nj => Lib.serveProjectAsNowV2 W cwd debug req nj
                    | None => Lib.serveProjectAsStatics W cwd req
                    end))
              (fun err =>
                 bind (Lib.setStatusError (message err)) (fun _ =>
                 bind (Lib.logDebug debug (stack err)) (fun _ =>
                 bind read (fun s' =>
                   if Res.finished (Lib.res s') then ret tt
                   else bind (Lib.update_res (Res.setStatusCode 500))
                          (fun _ =>
                             Lib.update_res
                               (Res.finish
                                  (Res.EndText (Lib.statusMessage s')))))))))
        (fun _ => Lib.setStatusIdle) t
      = (Ok tt, t') /\
      Lib.status t' = DevServerStatus.idle /\
      Lib.statusMessage t' = ""%string).
  { intros t. unfold bind at 1. unfold try_catch.
    destruct (bind (Lib.getNowJson W cwd) _ t) as [[[]|e] t1].
    - eexists. split; [reflexivity|]. split; reflexivity.
    - unfold bind, Lib.setStatusError, Lib.logDebug, Lib.emit, modify, read, ret.
      destruct debug; cbn [Lib.res];
        destruct (Res.finished _); cbn;
          (eexists; split; [reflexivity|split; reflexivity]). }
  unfold Lib.devServerHandler. unfold bind at 1.
  unfold Lib.emit at 1, modify at 1. unfold bind at 1. unfold read at 1.
  cbn [Lib.status Lib.statusMessage].
  destruct (Lib.status s) eqn:Hst.
  - eexists. split; [reflexivity|]. cbn. split; [congruence|].
    intros _. split; reflexivity.
  - match goal with |- context [bind _ _ ?t] =>
      destruct (Hrest t) as (t' & -> & Hi & Hm) end.
    exists t'. split; [reflexivity|]. split; [now intros _|discriminate].
  - match goal with |- context [bind _ _ ?t] =>
      destruct (Hrest t) as (t' & -> & Hi & Hm) end.
    exists t'. split; [reflexivity|]. split; [now intros _|discriminate].
Qed.

(** X3.  A configuration that is refused while a request is served does not
    stop the server: the request is answered with status 500 and the
    message of the validation error as body, and the status is idle again
    afterwards. *)
Theorem lib_invalid_config_answers_500 :
  forall (W : Lib.World) (cwd : string) (debug : bool) (req : Req.t)
         (s : Lib.Store) (text : string) (config : Lib.NowConfig.t)
         (e : Error),
    Lib.status s <> DevServerStatus.busy ->
    Res.sent (Lib.res s) = None ->
    Lib.readFile W (Lib.getNowJsonPath W cwd) = Ok text ->
    Lib.JSON_parse W text = Ok config ->
    Lib.validateNowConfig config = Throw e ->
    exists s',
      Lib.devServerHandler W cwd debug req s = (Ok tt, s') /\
      Res.statusCode (Lib.res s') = 500%Z /\
      Res.sent (Lib.res s') = Some (Res.EndText (message e)) /\
      Res.headers (Lib.res s') = Res.headers (Lib.res s) /\
      Lib.status s' = DevServerStatus.idle /\
      Lib.assets s' = Lib.assets s.
Proof.
  intros W cwd debug req s text config e Hbusy Hsent Hr Hp Hv.
  unfold Lib.devServerHandler. unfold bind at 1.
  unfold Lib.emit at 1, modify at 1. unfold bind at 1. unfold read at 1.
  cbn [Lib.status Lib.statusMessage].
  assert (Hrun : forall t, Res.sent (Lib.res t) = None ->
    exists t',
      bind (try_catch
              (bind (Lib.getNowJson W cwd)
                 (fun nowJson =>
                    match nowJson with
                    | Some nj => Lib.serveProjectAsNowV2 W cwd debug req nj
                    | None => Lib.serveProjectAsStatics W cwd req
                    end))
              (fun err =>
                 bind (Lib.setStatusError (message err)) (fun _ =>
                 bind (Lib.logDebug debug (stack err)) (fun _ =>
                 bind read (fun s' =>
                   if Res.finished (Lib.res s') then ret tt
                   else bind (Lib.update_res (Res.setStatusCode 500))
                          (fun _ =>
                             Lib.update_res
                               (Res.finish
                                  (Res.EndText (Lib.statusMessage s')))))))))
        (fun _ => Lib.setStatusIdle) t
      = (Ok tt, t') /\
      Res.statusCode (Lib.res t') = 500%Z /\
      Res.sent (Lib.res t') = Some (Res.EndText (message e)) /\
      Res.headers (Lib.res t') = Res.headers (Lib.res t) /\
      Lib.status t' = DevServerStatus.idle /\
      Lib.assets t' = Lib.assets t).
  { intros t Ht. unfold bind at 1. unfold try_catch. unfold bind at 1.
    rewrite (getNowJson_invalid W cwd text config e t Hr Hp Hv
               (validate_throws_plain config e Hv)).
    unfold bind, Lib.setStatusError, Lib.logDebug, Lib.emit, modify, read, ret.
    destruct debug; cbn [Lib.res]; unfold Res.finished; rewrite Ht;
      unfold Lib.update_res, modify, Lib.setStatusIdle, modify;
      cbn; unfold Res.finish; cbn; rewrite Ht;
      (eexists; split; [reflexivity|]; cbn; repeat split; reflexivity). }
  destruct (Lib.status s) eqn:Hst; [congruence| |].
  - match goal with |- context [bind _ _ ?t] =>
      destruct (Hrun t Hsent) as (t' & -> & H1 & H2 & H3 & H4 & H5) end.
    exists t'. repeat split; assumption.
  - match goal with |- context [bind _ _ ?t] =>
      destruct (Hrun t Hsent) as (t' & -> & H1 & H2 & H3 & H4 & H5) end.
    exists t'. repeat split; assumption.
Qed.

Lemma lib_invalid_config_answers_500_witness :
  exists s',
    Lib.devServerHandler
      (Lib.project (Lib.NowConfig.mk (Some 1%Z) None None None None))
      "/project" false (Req.mk (Some "GET") (Some "/") [] []) Lib.started
    = (Ok tt, s') /\
    Res.statusCode (Lib.res s') = 500%Z /\
    Res.sent (Lib.res s')
    = Some (Res.EndText "Only `version: 2` is supported by `now dev`").
Proof.
  destruct (lib_invalid_config_answers_500
              (Lib.project (Lib.NowConfig.mk (Some 1%Z) None None None None))
              "/project" false (Req.mk (Some "GET") (Some "/") [] [])
              Lib.started "now.json"
              (Lib.NowConfig.mk (Some 1%Z) None None None None)
              (Js.error "Only `version: 2` is supported by `now dev`"))
    as (s' & Hrun & Hc & Hs & _).
  - discriminate.
  - reflexivity.
  - reflexivity.
  - reflexivity.
  - reflexivity.
  - exists s'. repeat split; assumption.
Defined.

(** ** Dispatch of a routed request *)

Lemma serveProjectAsNowV2_after_routing (W : Lib.World) (cwd : string)
  (debug : bool) (req : Req.t) (nowJson : Lib.NowConfig.t)
  (routed : Lib.RouteResult.t) (s : Lib.Store) (r' : Res.t) :
  Lib.devRouter W (Req.url req) (Lib.NowConfig.routes nowJson) = Ok routed ->
  Res.set_all (Lib.headers_or_empty routed) (Lib.res s) = Ok r' ->
  Lib.serveProjectAsNowV2 W cwd debug req nowJson s
  = (if Lib.isURL W (Lib.RouteResult.dest routed) then
       bind (Lib.logDebug debug "ProxyPass")
         (fun _ => Lib.proxyPass (Lib.RouteResult.dest routed))
     else if Lib.is_redirect (Lib.status_or_200 routed) then
       bind (Lib.logDebug debug "Redirect")
         (fun _ => Lib.update_res (Res.finish Res.End))
     else
       match Lib.NowConfig.builds nowJson with
       | None => Lib.serveStaticFile (Req.url req) cwd
       | Some _ =>
           bind read (fun s0 =>
             match Lib.resolveDest (Lib.assets s0) (Lib.RouteResult.dest routed) with
             | None =>
                 bind (Lib.update_res (Res.setStatusCode 404))
                   (fun _ => Lib.update_res (Res.finish Res.End))
             | Some (Lib.BuilderOutput.FileFsRef fsPath) =>
                 Lib.serveStaticFile
                   (Some ("/" ++ Lib.basename W fsPath)%string)
                   (Lib.dirname W fsPath)
             | Some (Lib.BuilderOutput.Lambda fn) => Lib.invokeLambda W req fn
             | Some (Lib.BuilderOutput.Other _)
             | Some (Lib.BuilderOutput.Inherited _) =>
                 bind (Lib.update_res (Res.setStatusCode 500))
                   (fun _ => Lib.update_res (Res.finish Res.End))
             end)
       end) (with_response r' s).
Proof.
  intros Hr Hset. unfold Lib.serveProjectAsNowV2. unfold bind at 1.
  unfold lift at 1. rewrite Hr. unfold bind at 1.
  rewrite (lib_setHeaders_ok _ _ _ Hset). reflexivity.
Qed.

(** X4.  A destination that is an absolute URL is proxied whatever else
    holds: once the headers of the routing result have been set (each of
    them a valid header, on a response of which nothing has gone out), the
    response is handed to the proxy for that target, and neither the status
    of the result, nor the build rules, nor the asset map play a part. *)
Theorem lib_url_destination_is_proxied :
  forall (W : Lib.World) (cwd : string) (debug : bool) (req : Req.t)
         (nowJson : Lib.NowConfig.t) (routed : Lib.RouteResult.t)
         (s : Lib.Store) (r' : Res.t),
    Lib.devRouter W (Req.url req) (Lib.NowConfig.routes nowJson) = Ok routed ->
    Lib.isURL W (Lib.RouteResult.dest routed) = true ->
    Res.set_all (Lib.headers_or_empty routed) (Lib.res s) = Ok r' ->
    Lib.serveProjectAsNowV2 W cwd debug req nowJson s
    = (Ok tt,
       Lib.mkStore (Lib.assets s) (Lib.status s) (Lib.statusMessage s)
         (Res.finish (Res.ProxyWeb (Lib.RouteResult.dest routed)) r')
         (Lib.log s ++ (if debug then [Lib.LogDebug "ProxyPass"] else []))).
Proof.
  intros W cwd debug req nowJson routed s r' Hr Hurl Hset.
  rewrite (serveProjectAsNowV2_after_routing W cwd debug req nowJson routed s
             r' Hr Hset).
  rewrite Hurl. unfold bind, Lib.logDebug, Lib.proxyPass, with_response.
  destruct debug; cbn; [reflexivity|]. now rewrite app_nil_r.
Qed.

Lemma lib_url_destination_is_proxied_witness :
  let rule :=
    Lib.RouteConfig.mk "^api$" (Some "http://localhost:4000/api") None
      (Some [("X-Proxied", "yes")]) None in
  let config := Lib.NowConfig.mk (Some 2%Z) None (Some [rule]) None None in
  Lib.res (snd (Lib.serveProjectAsNowV2 (Lib.project config)
                  "/project" false
                  (Req.mk (Some "GET") (Some "/api") [] [])
                  config Lib.started))
  = Res.mk 200 [("x-proxied"%string, ("X-Proxied"%string, Res.Text "yes"))]
      (Some (Res.ProxyWeb "http://localhost:4000/api")).
Proof.
  cbv zeta.
  rewrite (lib_url_destination_is_proxied
             (Lib.project
                (Lib.NowConfig.mk (Some 2%Z) None
                   (Some [Lib.RouteConfig.mk "^api$"
                            (Some "http://localhost:4000/api") None
                            (Some [("X-Proxied", "yes")]) None])
                   None None))
             "/project" false (Req.mk (Some "GET") (Some "/api") [] [])
             (Lib.NowConfig.mk (Some 2%Z) None
                (Some [Lib.RouteConfig.mk "^api$"
                         (Some "http://localhost:4000/api") None
                         (Some [("X-Proxied", "yes")]) None])
                None None)
             (Lib.RouteResult.mk "http://localhost:4000/api" None
                (Some [("X-Proxied", "yes")]) []
                (Some (Lib.RouteConfig.mk "^api$"
                         (Some "http://localhost:4000/api") None
                         (Some [("X-Proxied", "yes")]) None)))
             Lib.started
             (Res.mk 200
                [("x-proxied"%string, ("X-Proxied"%string, Res.Text "yes"))]
                None)
             eq_refl eq_refl eq_refl).
  reflexivity.
Defined.

(** X5.  When the destination is neither a URL nor a redirect, the headers
    of the routing result can be set and the configuration has build rules,
    the answer is decided by what the destination resolves to: nothing gives
    404 with no body, a file reference is served from its directory under
    its base name, a lambda that has not been built gives 500 with a
    message, and an asset of any other type, or a value inherited from
    [Object.prototype] (as for [/constructor]), gives 500 with no body.
    None of these cases invokes anything. *)
Theorem lib_dispatch_on_asset :
  forall (W : Lib.World) (cwd : string) (debug : bool) (req : Req.t)
         (nowJson : Lib.NowConfig.t) (routed : Lib.RouteResult.t)
         (builds : list Lib.BuildConfig.t) (s : Lib.Store) (r : Res.t),
    Lib.devRouter W (Req.url req) (Lib.NowConfig.routes nowJson) = Ok routed ->
    Lib.isURL W (Lib.RouteResult.dest routed) = false ->
    Lib.is_redirect (Lib.status_or_200 routed) = false ->
    Lib.NowConfig.builds nowJson = Some builds ->
    Res.set_all (Lib.headers_or_empty routed) (Lib.res s) = Ok r ->
    match Lib.resolveDest (Lib.assets s) (Lib.RouteResult.dest routed) with
    | None =>
        Lib.serveProjectAsNowV2 W cwd debug req nowJson s
        = (Ok tt, with_response (Res.finish Res.End (Res.setStatusCode 404 r)) s)
    | Some (Lib.BuilderOutput.FileFsRef fsPath) =>
        Lib.serveProjectAsNowV2 W cwd debug req nowJson s
        = (Ok tt,
           with_response
             (Res.finish
                (Res.ServeHandler (Lib.dirname W fsPath)
                   (Some ("/" ++ Lib.basename W fsPath)%string)) r) s)
    | Some (Lib.BuilderOutput.Lambda None) =>
        Lib.serveProjectAsNowV2 W cwd debug req nowJson s
        = (Ok tt,
           with_response
             (Res.finish (Res.EndText "Lambda function has not been built")
                (Res.setStatusCode 500 r)) s)
    | Some (Lib.BuilderOutput.Lambda (Some _)) => True
    | Some (Lib.BuilderOutput.Other _)
    | Some (Lib.BuilderOutput.Inherited _) =>
        Lib.serveProjectAsNowV2 W cwd debug req nowJson s
        = (Ok tt, with_response (Res.finish Res.End (Res.setStatusCode 500 r)) s)
    end.
Proof.
  intros W cwd debug req nowJson routed builds s r Hr Hurl Hred Hb Hset.
  destruct (Lib.resolveDest (Lib.assets s) (Lib.RouteResult.dest routed))
    as [[fsPath|[f|]|ty|name]|] eqn:Hres; try exact I;
    rewrite (serveProjectAsNowV2_after_routing W cwd debug req nowJson routed
               s r Hr Hset);
    rewrite Hurl, Hred, Hb; unfold bind at 1; unfold read at 1;
    cbn [with_response Lib.assets]; rewrite Hres; reflexivity.
Qed.

Lemma lib_dispatch_on_asset_witness :
  let config :=
    Lib.NowConfig.mk (Some 2%Z) (Some []) None None None in
  Lib.res (snd (Lib.serveProjectAsNowV2 (Lib.project config) "/project" false
                  (Req.mk (Some "GET") (Some "/constructor") [] [])
                  config Lib.started))
  = Res.mk 500 [] (Some Res.End).
Proof.
  cbv zeta.
  assert (H : Lib.serveProjectAsNowV2
                (Lib.project (Lib.NowConfig.mk (Some 2%Z) (Some []) None None None))
                "/project" false
                (Req.mk (Some "GET") (Some "/constructor") [] [])
                (Lib.NowConfig.mk (Some 2%Z) (Some []) None None None)
                Lib.started
              = (Ok tt,
                 with_response
                   (Res.finish Res.End (Res.setStatusCode 500 Res.fresh))
                   Lib.started)).
  { exact (lib_dispatch_on_asset
             (Lib.project (Lib.NowConfig.mk (Some 2%Z) (Some []) None None None))
             "/project" false
             (Req.mk (Some "GET") (Some "/constructor") [] [])
             (Lib.NowConfig.mk (Some 2%Z) (Some []) None None None)
             (Lib.RouteResult.mk "/constructor" (Some 200%Z) (Some []) [] None)
             [] Lib.started Res.fresh eq_refl eq_refl eq_refl eq_refl eq_refl). }
  rewrite H. reflexivity.
Defined.

(** [serveProjectAsStatics] refuses a path that is not empty and is on the
    ignore list, and hands every other request to the static server. *)
Lemma lib_statics_honour_ignore_list :
  forall (W : Lib.World) (cwd : string) (req : Req.t) (s : Lib.Store)
         (ignores : string -> bool),
    Lib.createIgnoreList W cwd = Ok ignores ->
    let filePath := match Req.url req with
                    | Some u => strip_leading_slash u
                    | None => ""%string
                    end in
    Lib.serveProjectAsStatics W cwd req s
    = (Ok tt,
       with_response
         (if truthy filePath && ignores filePath
          then Res.finish Res.End (Res.setStatusCode 404 (Lib.res s))
          else Res.finish (Res.ServeHandler cwd (Req.url req)) (Lib.res s))
         s).
Proof.
  intros W cwd req s ignores Hi filePath.
  unfold Lib.serveProjectAsStatics. unfold bind at 1. unfold lift at 1.
  rewrite Hi. fold filePath.
  destruct (truthy filePath && ignores filePath); reflexivity.
Qed.

(** X6.  When the project has no configuration file, a request that
    arrives while the server is not busy is served as a static file of the
    project directory, except that a path on the ignore list (the root path
    excepted) is answered 404 with no body; either way the server is idle
    afterwards and the asset map is untouched. *)
Theorem lib_unconfigured_project_is_static :
  forall (W : Lib.World) (cwd : string) (debug : bool) (req : Req.t)
         (s : Lib.Store) (e : Error) (ignores : string -> bool),
    Lib.status s <> DevServerStatus.busy ->
    Lib.readFile W (Lib.getNowJsonPath W cwd) = Throw e ->
    is_enoent e = true ->
    Lib.createIgnoreList W cwd = Ok ignores ->
    let filePath := match Req.url req with
                    | Some u => strip_leading_slash u
                    | None => ""%string
                    end in
    Lib.devServerHandler W cwd debug req s
    = (Ok tt,
       Lib.mkStore (Lib.assets s) DevServerStatus.idle ""
         (if truthy filePath && ignores filePath
          then Res.finish Res.End (Res.setStatusCode 404 (Lib.res s))
          else Res.finish (Res.ServeHandler cwd (Req.url req)) (Lib.res s))
         (Lib.log s
          ++ [Lib.LogHttp
                (show (Req.method req) ++ " " ++ show (Req.url req))%string])).
Proof.
  intros W cwd debug req s e ignores Hbusy Hr He Hi filePath.
  unfold Lib.devServerHandler. unfold bind at 1.
  unfold Lib.emit at 1, modify at 1. unfold bind at 1. unfold read at 1.
  cbn [Lib.status Lib.statusMessage].
  assert (Hrun : forall t,
    bind (try_catch
            (bind (Lib.getNowJson W cwd)
               (fun nowJson =>
                  match nowJson with
                  | Some nj => Lib.serveProjectAsNowV2 W cwd debug req nj
                  | None => Lib.serveProjectAsStatics W cwd req
                  end))
            (fun err =>
               bind (Lib.setStatusError (message err)) (fun _ =>
               bind (Lib.logDebug debug (stack err)) (fun _ =>
               bind read (fun s' =>
                 if Res.finished (Lib.res s') then ret tt
                 else bind (Lib.update_res (Res.setStatusCode 500))
                        (fun _ =>
                           Lib.update_res
                             (Res.finish
                                (Res.EndText (Lib.statusMessage s')))))))))
      (fun _ => Lib.setStatusIdle) t
    = (Ok tt,
       Lib.mkStore (Lib.assets t) DevServerStatus.idle ""
         (if truthy filePath && ignores filePath
          then Res.finish Res.End (Res.setStatusCode 404 (Lib.res t))
          else Res.finish (Res.ServeHandler cwd (Req.url req)) (Lib.res t))
         (Lib.log t))).
  { intros t. unfold bind at 1. unfold try_catch. unfold bind at 1.
    rewrite (getNowJson_read_fails W cwd t e Hr), He.
    rewrite (lib_statics_honour_ignore_list W cwd req t ignores Hi).
    reflexivity. }
  destruct (Lib.status s); [congruence| |]; rewrite Hrun; reflexivity.
Qed.

Lemma lib_unconfigured_project_is_static_witness :
  Lib.devServerHandler (unconfigured (String.eqb "node_modules/x.js"))
    "/project" false
    (Req.mk (Some "GET") (Some "/node_modules/x.js") [] []) Lib.started
  = (Ok tt,
     Lib.mkStore [] DevServerStatus.idle "" (Res.mk 404 [] (Some Res.End))
       [Lib.LogHttp "GET /node_modules/x.js"]).
Proof.
  rewrite (lib_unconfigured_project_is_static
             (unconfigured (String.eqb "node_modules/x.js")) "/project" false
             (Req.mk (Some "GET") (Some "/node_modules/x.js") [] [])
             Lib.started
             (mkError "no such file" (Some "ENOENT"%string) None "no such file")
             (String.eqb "node_modules/x.js")).
  - reflexivity.
  - discriminate.
  - reflexivity.
  - reflexivity.
  - reflexivity.
Defined.

(** X7.  A configuration without build rules serves the request as a
    static file of the project directory once the destination is neither a
    URL nor a redirect and the headers of the routing result have been set:
    the asset map is not consulted and the routed destination is not used,
    the original request URL is. *)
Theorem lib_no_builds_serves_statics :
  forall (W : Lib.World) (cwd : string) (debug : bool) (req : Req.t)
         (nowJson : Lib.NowConfig.t) (routed : Lib.RouteResult.t)
         (s : Lib.Store) (r' : Res.t),
    Lib.devRouter W (Req.url req) (Lib.NowConfig.routes nowJson) = Ok routed ->
    Lib.isURL W (Lib.RouteResult.dest routed) = false ->
    Lib.is_redirect (Lib.status_or_200 routed) = false ->
    Lib.NowConfig.builds nowJson = None ->
    Res.set_all (Lib.headers_or_empty routed) (Lib.res s) = Ok r' ->
    Lib.serveProjectAsNowV2 W cwd debug req nowJson s
    = (Ok tt,
       with_response (Res.finish (Res.ServeHandler cwd (Req.url req)) r') s).
Proof.
  intros W cwd debug req nowJson routed s r' Hr Hurl Hred Hb Hset.
  rewrite (serveProjectAsNowV2_after_routing W cwd debug req nowJson routed s
             r' Hr Hset).
  now rewrite Hurl, Hred, Hb.
Qed.

Lemma lib_no_builds_serves_statics_witness :
  let rule :=
    Lib.RouteConfig.mk "^old$" (Some "new") None
      (Some [("Cache-Control", "no-cache")]) None in
  let config := Lib.NowConfig.mk (Some 2%Z) None (Some [rule]) None None in
  Lib.res (snd (Lib.serveProjectAsNowV2 (Lib.project config)
                  "/project" false
                  (Req.mk (Some "GET") (Some "/old") [] [])
                  config Lib.started))
  = Res.mk 200
      [("cache-control"%string, ("Cache-Control"%string, Res.Text "no-cache"))]
      (Some (Res.ServeHandler "/project" (Some "/old"%string))).
Proof.
  cbv zeta.
  rewrite (lib_no_builds_serves_statics
             (Lib.project
                (Lib.NowConfig.mk (Some 2%Z) None
                   (Some [Lib.RouteConfig.mk "^old$" (Some "new") None
                            (Some [("Cache-Control", "no-cache")]) None])
                   None None))
             "/project" false (Req.mk (Some "GET") (Some "/old") [] [])
             (Lib.NowConfig.mk (Some 2%Z) None
                (Some [Lib.RouteConfig.mk "^old$" (Some "new") None
                         (Some [("Cache-Control", "no-cache")]) None])
                None None)
             (Lib.RouteResult.mk "new" None
                (Some [("Cache-Control", "no-cache")]) []
                (Some (Lib.RouteConfig.mk "^old$" (Some "new") None
                         (Some [("Cache-Control", "no-cache")]) None)))
             Lib.started
             (Res.mk 200
                [("cache-control"%string,
                  ("Cache-Control"%string, Res.Text "no-cache"))]
                None)
             eq_refl eq_refl eq_refl eq_refl eq_refl).
  reflexivity.
Defined.

(** ** Starting *)

(** X8.  A start that succeeds leaves the server idle with an empty
    message.  With a valid configuration that has build rules the stored
    asset map is replaced by the map the build returns; without a
    configuration file the map is left as it was and no build is run. *)
Theorem lib_start_publishes_assets :
  forall (W : Lib.World) (cwd : string) (debug : bool) (port : Z)
         (s : Lib.Store),
    Lib.listen W port = Ok tt ->
    (forall text config builds built flag,
        Lib.readFile W (Lib.getNowJsonPath W cwd) = Ok text ->
        Lib.JSON_parse W text = Ok config ->
        Lib.validateNowConfig config = Ok tt ->
        Lib.NowConfig.builds config = Some builds ->
        Lib.buildUserProject W config (Lib.status s, Lib.statusMessage s)
        = (Ok built, flag) ->
        exists s',
          Lib.start W cwd debug port s = (Ok tt, s') /\
          Lib.assets s' = built /\
          Lib.status s' = DevServerStatus.idle /\
          Lib.statusMessage s' = ""%string /\
          Lib.res s' = Lib.res s) /\
    (forall e,
        Lib.readFile W (Lib.getNowJsonPath W cwd) = Throw e ->
        is_enoent e = true ->
        Lib.start W cwd debug port s
        = (Ok tt,
           Lib.mkStore (Lib.assets s) DevServerStatus.idle "" (Lib.res s)
             (Lib.log s
              ++ [Lib.LogSuccess
                    ("Dev server listening on port "
                     ++ Lib.bold W (Lib.String_of_number W port))%string]))).
Proof.
  intros W cwd debug port s Hl. split.
  - intros text config builds built flag Hr Hp Hv Hb Hbuild.
    unfold Lib.start. unfold bind at 1.
    rewrite (getNowJson_valid W cwd s text config Hr Hp Hv).
    rewrite Hl. cbn [Lib.Promise_all2 fst]. rewrite Hb.
    unfold bind at 1. unfold Lib.emit at 1, modify at 1.
    unfold bind at 1. unfold bind at 1.
    unfold Lib.logDebug.
    destruct debug;
      unfold bind, Lib.emit, modify, ret, Lib.with_flag;
      cbn [Lib.status Lib.statusMessage]; rewrite Hbuild; destruct flag;
      unfold Lib.setAssets, Lib.setStatusIdle, modify;
      (eexists; split; [reflexivity|]; cbn; repeat split; reflexivity).
  - intros e Hr He. unfold Lib.start. unfold bind at 1.
    rewrite (getNowJson_read_fails W cwd s e Hr), He, Hl.
    reflexivity.
Qed.

Lemma lib_start_publishes_assets_witness :
  exists s',
    Lib.start
      (Lib.project (Lib.NowConfig.mk (Some 2%Z) (Some []) None None None))
      "/project" false 3000 Lib.constructed
    = (Ok tt, s') /\
    Lib.assets s' = [] /\
    Lib.status s' = DevServerStatus.idle.
Proof.
  destruct (proj1 (lib_start_publishes_assets
                     (Lib.project
                        (Lib.NowConfig.mk (Some 2%Z) (Some []) None None None))
                     "/project" false 3000 Lib.constructed eq_refl)
              "now.json"%string
              (Lib.NowConfig.mk (Some 2%Z) (Some []) None None None)
              [] [] (DevServerStatus.idle, ""%string)
              eq_refl eq_refl eq_refl eq_refl eq_refl)
    as (s' & Hrun & Ha & Hs & _).
  exists s'. repeat split; assumption.
Defined.

(** ** Directory indexes *)

Lemma index_pattern_at_cons (c : ascii) (r : string) :
  index_pattern_at (String c r)
  = if Ascii.eqb c "/" then index_to_end r else index_to_end (String c r).
Proof.
  destruct c as [[] [] [] [] [] [] [] []]; reflexivity.
Qed.

Lemma ext_to_end_cons (c : ascii) (w : string) :
  ext_to_end (String c w) = Ascii.eqb c "." && (truthy w && all_word_chars w).
Proof.
  destruct c as [[] [] [] [] [] [] [] []]; reflexivity.
Qed.

Lemma contains_slash_app (a b : string) :
  contains_slash (a ++ b)%string = contains_slash a || contains_slash b.
Proof.
  induction a as [|c a IH]; [reflexivity|].
  cbn. now rewrite IH, orb_assoc.
Qed.

Lemma word_char_not_slash (c : ascii) :
  is_word_char c = true -> Ascii.eqb c "/" = false.
Proof.
  destruct (Ascii.eqb_spec c "/") as [->|_]; [discriminate|reflexivity].
Qed.

Lemma word_chars_no_slash (w : string) :
  all_word_chars w = true -> contains_slash w = false.
Proof.
  induction w as [|c w IH]; [reflexivity|].
  cbn. intros H. apply andb_prop in H. destruct H as [Hc Hw].
  now rewrite (word_char_not_slash c Hc), IH.
Qed.

Lemma ext_to_end_no_slash (u : string) :
  ext_to_end u = true -> contains_slash u = false.
Proof.
  destruct u as [|c w]; [reflexivity|].
  rewrite ext_to_end_cons. intros H.
  apply andb_prop in H. destruct H as [Hc H].
  apply andb_prop in H. destruct H as [_ Hw].
  apply Ascii.eqb_eq in Hc. subst c. cbn.
  now apply word_chars_no_slash.
Qed.

Lemma drop_prefix_app (p t u : string) :
  drop_prefix p t = Some u -> t = (p ++ u)%string.
Proof.
  revert t. induction p as [|a p IH]; intros t; cbn.
  - now intros [= ->].
  - destruct t as [|b t]; [discriminate|].
    destruct (Ascii.eqb_spec a b) as [->|_]; [|discriminate].
    intros H. now rewrite (IH t H).
Qed.

Lemma index_to_end_no_slash (t : string) :
  index_to_end t = true -> contains_slash t = false.
Proof.
  unfold index_to_end.
  destruct (drop_prefix "index" t) as [u|] eqn:Hd; [|discriminate].
  intros Hu. rewrite (drop_prefix_app _ _ _ Hd), contains_slash_app.
  now rewrite (ext_to_end_no_slash u Hu).
Qed.

(** A match of the index pattern never reaches over a slash: only its
    first character can be one. *)
Lemma index_pattern_no_inner_slash (c : ascii) (r : string) :
  index_pattern_at (String c r) = true -> contains_slash r = false.
Proof.
  rewrite index_pattern_at_cons.
  destruct (Ascii.eqb c "/").
  - apply index_to_end_no_slash.
  - intros H. apply index_to_end_no_slash in H. cbn in H.
    now apply orb_false_elim in H.
Qed.

Lemma strip_index_cut (dir tail : string) :
  index_pattern_at tail = true ->
  contains_slash tail = true ->
  strip_index (dir ++ tail) = dir.
Proof.
  intros Hm Hs. induction dir as [|c r IH].
  - destruct tail as [|c t]; [discriminate|].
    cbn [append strip_index]. now rewrite Hm.
  - cbn [append strip_index].
    destruct (index_pattern_at (String c (r ++ tail))) eqn:Hp.
    + apply index_pattern_no_inner_slash in Hp.
      rewrite contains_slash_app, Hs, orb_true_r in Hp. discriminate.
    + now rewrite IH.
Qed.

Lemma index_tail_matches (ext : string) :
  all_word_chars ext = true -> truthy ext = true ->
  index_pattern_at ("/index." ++ ext) = true.
Proof.
  intros Hw Ht. cbn. unfold index_to_end. cbn.
  now rewrite Ht, Hw.
Qed.

Lemma index_key_truthy (dir ext : string) :
  truthy (dir ++ "/index." ++ ext) = true.
Proof. destruct dir; reflexivity. Qed.

Lemma strip_index_cut_pair (dir ext : string) :
  all_word_chars ext = true -> truthy ext = true ->
  strip_index (dir ++ "/index." ++ ext) = dir /\
  strip_index (dir ++ "/index") = dir.
Proof.
  intros Hw Ht. split; apply strip_index_cut; try reflexivity.
  now apply index_tail_matches.
Qed.

(** X9.  The pattern that strips index files cuts a key of the shape
    [<dir>/index.<ext>] (and [<dir>/index]) back to [<dir>], for every
    directory name, whatever it contains, and every extension made of word
    characters. *)
Theorem strip_index_of_directory_index :
  forall (dir ext : string),
    all_word_chars ext = true ->
    truthy ext = true ->
    strip_index (dir ++ "/index." ++ ext) = dir /\
    strip_index (dir ++ "/index") = dir.
Proof.
  intros dir ext Hw Ht. split.
  - apply strip_index_cut.
    + now apply index_tail_matches.
    + reflexivity.
  - apply strip_index_cut; reflexivity.
Qed.

Lemma strip_index_of_directory_index_witness :
  strip_index "docs/index/index.html" = "docs/index"%string /\
  strip_index "docs/index/index" = "docs/index"%string.
Proof.
  apply (strip_index_of_directory_index "docs/index" "html"); reflexivity.
Defined.

(** X10.  Directory indexes: let the map list its keys in the order of
    [Object.keys].  When the destination, with its leading slash and a
    trailing slash removed, is [dir], the lookup under the destination's own
    key yields nothing (the map has no such key and [Object.prototype] has
    no such property), and [<dir>/index.<ext>] is the first key in that
    order that strips to [dir], then the destination resolves to the asset
    under that key. *)
Theorem resolveDest_directory_index :
  forall (pre post : Lib.BuilderOutputs) (dest dir ext : string)
         (a : Lib.BuilderOutput.t),
    all_word_chars ext = true ->
    truthy ext = true ->
    strip_trailing_slash (strip_leading_slash dest) = dir ->
    enumerated (keys (pre ++ ((dir ++ "/index." ++ ext)%string, a) :: post))
    = true ->
    Lib.lookup (pre ++ ((dir ++ "/index." ++ ext)%string, a) :: post)
      (strip_leading_slash dest) = None ->
    (forall k, In k (keys pre) -> strip_index k <> dir) ->
    Lib.resolveDest (pre ++ ((dir ++ "/index." ++ ext)%string, a) :: post) dest
    = Some a.
Proof.
  intros pre post dest dir ext a Hw Ht Hdir _ Hnone Hpre.
  pose proof (proj1 (strip_index_cut_pair dir ext Hw Ht)) as Hkey.
  unfold Lib.resolveDest. rewrite Hnone, Hdir.
  unfold keys. rewrite map_app. cbn [map fst].
  rewrite find_app_miss.
  - cbn [find]. rewrite Hkey, String.eqb_refl, index_key_truthy.
    rewrite get_app_miss.
    + cbn [get]. now rewrite String.eqb_refl.
    + intros Hin. apply (Hpre _ Hin). exact Hkey.
  - intros k Hk. apply String.eqb_neq. now apply Hpre.
Qed.

Lemma resolveDest_directory_index_witness :
  Lib.resolveDest
    [("5"%string, Lib.BuilderOutput.Other "script");
     ("docs/index.html"%string,
      Lib.BuilderOutput.FileFsRef "/project/docs/index.html")]
    "/docs/"
  = Some (Lib.BuilderOutput.FileFsRef "/project/docs/index.html").
Proof.
  apply (resolveDest_directory_index
           [("5"%string, Lib.BuilderOutput.Other "script")] []
           "/docs/" "docs" "html").
  - reflexivity.
  - reflexivity.
  - reflexivity.
  - reflexivity.
  - reflexivity.
  - intros k [<-|[]]. vm_compute. discriminate.
Defined.

(* ================================================================== *)
(** * Further properties of the first variant *)
(* ================================================================== *)

(** ** Merging build outputs *)

Lemma get_update_same {V} (o : Obj V) (k : string) (v x : V) :
  get o k = Some x -> get (update o k v) k = Some v.
Proof.
  induction o as [|[k' v'] o IH]; cbn [update get]; [discriminate|].
  destruct (String.eqb_spec k' k) as [->|Hk]; cbn [get].
  - now rewrite String.eqb_refl.
  - intros H. destruct (String.eqb_spec k' k); [contradiction|now apply IH].
Qed.

Lemma get_update_other {V} (o : Obj V) (k k' : string) (v : V) :
  k <> k' -> get (update o k v) k' = get o k'.
Proof.
  intros Hk. induction o as [|[k0 v0] o IH]; cbn [update get]; [reflexivity|].
  destruct (String.eqb_spec k0 k) as [->|H0]; cbn [get].
  - destruct (String.eqb_spec k k'); [contradiction|reflexivity].
  - now rewrite IH.
Qed.

Lemma get_insert_same {V} (o : Obj V) (k : string) (v : V) :
  get o k = None -> get (insert o k v) k = Some v.
Proof.
  induction o as [|[k' v'] o IH]; cbn [insert get].
  - now rewrite String.eqb_refl.
  - destruct (String.eqb_spec k' k) as [->|Hk]; [discriminate|].
    intros Hnone.
    destruct (array_index k) as [i|].
    + destruct (array_index k') as [j|].
      * destruct (N.ltb i j); cbn [get].
        -- now rewrite String.eqb_refl.
        -- destruct (String.eqb_spec k' k); [contradiction|now apply IH].
      * cbn [get]. now rewrite String.eqb_refl.
    + cbn [get]. destruct (String.eqb_spec k' k); [contradiction|now apply IH].
Qed.

Lemma get_insert_other {V} (o : Obj V) (k k' : string) (v : V) :
  k <> k' -> get (insert o k v) k' = get o k'.
Proof.
  intros Hk. induction o as [|[k0 v0] o IH]; cbn [insert get].
  - destruct (String.eqb_spec k k'); [contradiction|reflexivity].
  - destruct (array_index k) as [i|].
    + destruct (array_index k0) as [j|].
      * destruct (N.ltb i j); cbn [get].
        -- destruct (String.eqb_spec k k'); [contradiction|reflexivity].
        -- now rewrite IH.
      * cbn [get]. destruct (String.eqb_spec k k'); [contradiction|reflexivity].
    + cbn [get]. now rewrite IH.
Qed.

Lemma get_set_same {V} (o : Obj V) (k : string) (v : V) :
  get (set o k v) k = Some v.
Proof.
  unfold set. destruct (get o k) as [x|] eqn:Hg.
  - now apply get_update_same with x.
  - now apply get_insert_same.
Qed.

Lemma get_set_other {V} (o : Obj V) (k k' : string) (v : V) :
  k <> k' -> get (set o k v) k' = get o k'.
Proof.
  intros Hk. unfold set. destruct (get o k).
  - now apply get_update_other.
  - now apply get_insert_other.
Qed.

Lemma update_keys {V} (o : Obj V) (k : string) (v : V) :
  keys (update o k v) = keys o.
Proof.
  unfold keys. induction o as [|[k' v'] o IH]; [reflexivity|].
  cbn [update]. destruct (String.eqb k' k); cbn [map fst].
  - reflexivity.
  - now rewrite IH.
Qed.

Lemma insert_keeps_keys {V} (o : Obj V) (k x : string) (v : V) :
  In x (keys o) -> In x (keys (insert o k v)).
Proof.
  induction o as [|[k' v'] o IH]; [intros []|].
  cbn [insert]. intros Hin.
  destruct (array_index k) as [i|].
  - destruct (array_index k') as [j|].
    + destruct (N.ltb i j).
      * right. exact Hin.
      * cbn [keys map fst] in *. destruct Hin as [H|H]; [now left|right].
        now apply IH.
    + right. exact Hin.
  - cbn [keys map fst] in *. destruct Hin as [H|H]; [now left|right].
    now apply IH.
Qed.

Lemma set_keeps_keys {V} (o : Obj V) (k x : string) (v : V) :
  In x (keys o) -> In x (keys (set o k v)).
Proof.
  intros Hin. unfold set. destruct (get o k).
  - now rewrite update_keys.
  - now apply insert_keeps_keys.
Qed.

Lemma get_not_in_keys {V} (o : Obj V) (k : string) :
  ~ In k (keys o) -> get o k = None.
Proof.
  intros Hk. destruct (get o k) as [v|] eqn:Hg; [|reflexivity].
  exfalso. apply Hk. now apply get_In_keys with v.
Qed.

(** [{...a, ...b}] answers with the binding of [b] when it has one and with
    that of [a] otherwise. *)
Lemma spread_lookup {V} (a b : Obj V) (k : string) :
  NoDup (keys b) ->
  get (spread a b) k = orElse (get b k) (get a k).
Proof.
  unfold spread. revert a. induction b as [|[k1 v1] b IH]; intros a Hnd.
  - reflexivity.
  - cbn [fold_left fst snd]. inversion Hnd as [|x l Hnotin Hnd' Heq]; subst.
    rewrite IH by assumption. cbn [get].
    destruct (String.eqb_spec k1 k) as [->|Hk].
    + cbn [keys map fst] in Hnotin.
      rewrite (get_not_in_keys b k Hnotin). cbn [orElse].
      apply get_set_same.
    + now rewrite get_set_other.
Qed.

Lemma spread_keeps_keys {V} (a b : Obj V) (k : string) :
  In k (keys a) -> In k (keys (spread a b)).
Proof.
  unfold spread. revert a. induction b as [|[k1 v1] b IH]; intros a Hin.
  - exact Hin.
  - cbn [fold_left fst snd]. apply IH. now apply set_keeps_keys.
Qed.

(** X11.  Building one entry merges the builder's output into the results
    so far: a key of the output takes the output's artifact, replacing an
    earlier one under the same key, and every other key keeps what it had.
    Neither the status nor the response is touched. *)
Theorem build_entry_last_output_wins :
  forall (W : Old.World) (cwd : string) (build : Old.BuildConfig.t)
         (builder : Old.BuildArgs.t -> Outcome Old.BuilderOutputs)
         (files : Obj string) (fsPath : string)
         (results output : Old.BuilderOutputs) (s : Old.Store),
    builder (Old.BuildArgs.mk files (Old.path_relative W cwd fsPath) cwd
               (Old.BuildConfig.config build)) = Ok output ->
    NoDup (keys output) ->
    exists results' s',
      Old.build_entries W cwd build builder files [fsPath] results s
      = (Ok results', s') /\
      (forall k, get results' k = orElse (get output k) (get results k)) /\
      Old.same_server s s'.
Proof.
  intros W cwd build builder files fsPath results output s Hb Hnd.
  cbn [Old.build_entries]. unfold bind at 1. unfold bind at 1.
  unfold Old.emit at 1, modify at 1, lift at 1. rewrite Hb.
  eexists. eexists. split; [reflexivity|]. split.
  - intros k. now apply spread_lookup.
  - now repeat split.
Qed.

Lemma build_entry_last_output_wins_witness :
  exists results' s',
    Old.build_entries Old.one_file "/project"
      (Old.BuildConfig.mk "*.js" "@now/node" None)
      (fun _ =>
         Ok [("a.js"%string,
              Old.BuilderOutput.mk (Some "Lambda"%string) None None None None)])
      [] ["/project/a.js"%string]
      [("a.js"%string, Old.BuilderOutput.empty);
       ("b.js"%string, Old.BuilderOutput.empty)]
      Old.constructed
    = (Ok results', s') /\
    get results' "a.js"
    = Some (Old.BuilderOutput.mk (Some "Lambda"%string) None None None None) /\
    get results' "b.js" = Some Old.BuilderOutput.empty.
Proof.
  destruct (build_entry_last_output_wins Old.one_file "/project"
              (Old.BuildConfig.mk "*.js" "@now/node" None)
              (fun _ =>
                 Ok [("a.js"%string,
                      Old.BuilderOutput.mk (Some "Lambda"%string) None None
                        None None)])
              [] "/project/a.js"
              [("a.js"%string, Old.BuilderOutput.empty);
               ("b.js"%string, Old.BuilderOutput.empty)]
              [("a.js"%string,
                Old.BuilderOutput.mk (Some "Lambda"%string) None None None None)]
              Old.constructed eq_refl)
    as (results' & s' & Hrun & Hget & _).
  - repeat constructor. intros [].
  - exists results', s'. split; [exact Hrun|].
    split; rewrite Hget; reflexivity.
Defined.

Lemma build_entries_keeps_keys (W : Old.World) (cwd : string)
  (build : Old.BuildConfig.t) builder (files : Obj string)
  (entries : list string) (results results' : Old.BuilderOutputs)
  (s s' : Old.Store) (k : string) :
  Old.build_entries W cwd build builder files entries results s
  = (Ok results', s') ->
  In k (keys results) -> In k (keys results').
Proof.
  revert results s. induction entries as [|fsPath rest IH]; intros results s.
  - cbn. now intros [= <- _].
  - cbn [Old.build_entries]. unfold bind at 1. unfold bind at 1.
    unfold Old.emit at 1, modify at 1, lift at 1.
    destruct (builder _) as [output|e]; [|discriminate].
    intros Hrun Hin. eapply IH; [exact Hrun|].
    now apply spread_keeps_keys.
Qed.

Lemma build_one_keeps_keys (W : Old.World) (cwd dir : string)
  (files : Obj string) (build : Old.BuildConfig.t)
  (results results' : Old.BuilderOutputs) (s s' : Old.Store) (k : string) :
  Old.build_one W cwd dir files build results s = (Ok results', s') ->
  In k (keys results) -> In k (keys results').
Proof.
  unfold Old.build_one, try_catch.
  unfold bind at 1. unfold Old.emit at 1, modify at 1.
  unfold bind at 1. unfold Old.emit at 1, modify at 1.
  unfold bind at 1. unfold lift at 1.
  destruct (Old.glob W _ cwd) as [found|e1]; [|discriminate].
  unfold bind at 1. unfold Old.emit at 1, modify at 1.
  unfold bind at 1. unfold lift at 1.
  destruct (Old.getBuilder W dir _) as [builder|e2]; [|discriminate].
  match goal with
  | |- context [Old.build_entries W cwd build builder files ?en ?r ?t] =>
      destruct (Old.build_entries W cwd build builder files en r t)
        as [[r'|e'] t'] eqn:Hrun
  end; [|discriminate].
  intros [= <- _]. now apply (build_entries_keeps_keys _ _ _ _ _ _ _ _ _ _ k Hrun).
Qed.

Lemma build_all_keeps_keys (W : Old.World) (cwd dir : string)
  (files : Obj string) (bc : list Old.BuildConfig.t)
  (results results' : Old.BuilderOutputs) (s s' : Old.Store) (k : string) :
  Old.build_all W cwd dir files bc results s = (Ok results', s') ->
  In k (keys results) -> In k (keys results').
Proof.
  revert results s. induction bc as [|build rest IH]; intros results s.
  - cbn. now intros [= <- _].
  - cbn [Old.build_all]. unfold bind at 1.
    destruct (Old.build_one W cwd dir files build results s)
      as [[r1|e1] s1] eqn:H1; [|discriminate].
    intros Hrun Hin. eapply IH; [exact Hrun|].
    now apply (build_one_keeps_keys _ _ _ _ _ _ _ _ _ k H1).
Qed.

Lemma build_all_app (W : Old.World) (cwd dir : string) (files : Obj string)
  (pre post : list Old.BuildConfig.t) (results : Old.BuilderOutputs)
  (s : Old.Store) :
  Old.build_all W cwd dir files (pre ++ post) results s
  = match Old.build_all W cwd dir files pre results s with
    | (Ok mid, s1) => Old.build_all W cwd dir files post mid s1
    | (Throw e, s1) => (Throw e, s1)
    end.
Proof.
  revert results s. induction pre as [|build pre IH]; intros results s.
  - reflexivity.
  - cbn [app Old.build_all]. unfold bind.
    destruct (Old.build_one W cwd dir files build results s) as [[r1|e1] s1].
    + apply IH.
    + reflexivity.
Qed.

(** X12.  A build run never loses an artifact: when the rules [pre ++ post]
    all build, the rules [pre] alone build too, and every output path they
    produce is still a key of the final map (later rules can only replace
    the artifact under it). *)
Theorem build_run_keeps_earlier_outputs :
  forall (W : Old.World) (cwd dir : string) (files : Obj string)
         (pre post : list Old.BuildConfig.t)
         (final : Old.BuilderOutputs) (s s' : Old.Store),
    Old.build_all W cwd dir files (pre ++ post) [] s = (Ok final, s') ->
    exists mid s1,
      Old.build_all W cwd dir files pre [] s = (Ok mid, s1) /\
      forall k, In k (keys mid) -> In k (keys final).
Proof.
  intros W cwd dir files pre post final s s'.
  rewrite build_all_app.
  destruct (Old.build_all W cwd dir files pre [] s) as [[mid|e] s1];
    [|discriminate].
  intros Hpost. exists mid, s1. split; [reflexivity|].
  intros k. now apply (build_all_keeps_keys _ _ _ _ _ _ _ _ _ k Hpost).
Qed.

Lemma build_run_keeps_earlier_outputs_witness :
  exists mid s1,
    Old.build_all Old.one_file "/project" "/cache" []
      [Old.BuildConfig.mk "api/*.js" "@now/node" None] [] Old.constructed
    = (Ok mid, s1) /\
    forall k, In k (keys mid) -> In k ["/project/a.js"%string].
Proof.
  destruct (build_run_keeps_earlier_outputs Old.one_file "/project" "/cache" []
              [Old.BuildConfig.mk "api/*.js" "@now/node" None]
              [Old.BuildConfig.mk "www/*.js" "@now/node" None]
              _ Old.constructed _ eq_refl) as (mid & s1 & Hrun & Hkeys).
  exists mid, s1. split; [exact Hrun|exact Hkeys].
Defined.

(** ** Installation and build failures *)

(** X13.  The installation loop stops at the first installation that
    throws: the builders before it have been installed, the failing one has
    been requested, none after it is, and the error is the installer's
    own. *)
Theorem installBuilders_stops_at_failure :
  forall (W : Old.World) (dir : string) (bc : list Old.BuildConfig.t)
         (pre post : list string) (b : string) (e : Error) (s : Old.Store),
    Old.builders bc = pre ++ b :: post ->
    (forall x, In x pre -> Old.install W dir x = Ok tt) ->
    Old.install W dir b = Throw e ->
    Old.installBuilders W dir bc s
    = (Throw e,
       Old.mkStore (Old.status s) (Old.statusMessage s) (Old.res s)
         (Old.log s ++ map (Old.Install dir) (pre ++ [b]))).
Proof.
  intros W dir bc pre post b e s Hb Hpre Hfail.
  unfold Old.installBuilders. rewrite Hb. clear Hb.
  revert s. induction pre as [|x pre IH]; intros s.
  - cbn [app for_of map]. unfold bind at 1. unfold bind at 1.
    unfold Old.emit at 1, modify at 1, lift at 1. now rewrite Hfail.
  - cbn [app for_of]. unfold bind at 1. unfold bind at 1.
    unfold Old.emit at 1, modify at 1, lift at 1.
    rewrite (Hpre x (or_introl eq_refl)).
    rewrite IH by (intros; apply Hpre; now right).
    cbn. now rewrite <- app_assoc.
Qed.

Lemma installBuilders_stops_at_failure_witness :
  Old.installed
    (Old.log
       (snd (Old.installBuilders
               (Old.mkWorld anchored_literal_exec (fun _ => Ok None)
                  (fun _ => Ok false) (fun _ _ => Ok [])
                  (fun _ b => if String.eqb b "@now/missing"
                              then Throw (Js.error "404 Not Found")
                              else Ok tt)
                  (fun _ _ => Ok (fun _ => Ok []))
                  (fun _ => Throw (Js.error "no function runtime"))
                  (fun _ => Ok tt) (fun a b => (a ++ b)%string) (fun _ b => b)
                  (fun x => x) (fun _ => "3000"%string))
               "/cache"
               [Old.BuildConfig.mk "a" "@now/node" None;
                Old.BuildConfig.mk "b" "@now/missing" None;
                Old.BuildConfig.mk "c" "@now/go" None]
               Old.constructed)))
  = ["@now/node"; "@now/missing"]%string.
Proof.
  rewrite (installBuilders_stops_at_failure _ "/cache"
             [Old.BuildConfig.mk "a" "@now/node" None;
              Old.BuildConfig.mk "b" "@now/missing" None;
              Old.BuildConfig.mk "c" "@now/go" None]
             ["@now/node"%string] ["@now/go"; "@now/build-utils"]%string
             "@now/missing" (Js.error "404 Not Found") Old.constructed).
  - reflexivity.
  - reflexivity.
  - intros x [<-|[]]. reflexivity.
  - reflexivity.
Defined.

(** X14.  [buildLambdas] changes neither the status, nor its message, nor
    the response, whether it returns or throws; what it does to the store is
    confined to the log. *)
Theorem buildLambdas_keeps_server :
  forall (W : Old.World) (cwd dir : string) (bc : list Old.BuildConfig.t)
         (s : Old.Store),
    Old.same_server s (snd (Old.buildLambdas W cwd dir bc s)).
Proof.
  intros W cwd dir bc s. unfold Old.buildLambdas.
  unfold bind at 1. unfold Old.emit at 1, modify at 1.
  unfold bind at 1. unfold lift at 1.
  destruct (Old.glob W "**" cwd) as [files|e].
  - match goal with
    | |- context [Old.build_all W cwd dir files bc ?r ?t] =>
        pose proof (build_all_outcome W cwd dir files bc r t) as H;
        destruct (Old.build_all W cwd dir files bc r t) as [[r'|e'] s']
    end; cbn [snd]; destruct H as [H1 H2].
    + destruct H2 as (A & B & C). now repeat split.
    + destruct H1 as (A & B & C). now repeat split.
  - now repeat split.
Qed.

(** ** The response of the first variant *)

Lemma keeps_response_ret {A} (a : A) : keeps_response (@ret Old.Store A a).
Proof. intros s. reflexivity. Qed.

Lemma keeps_response_throw {A} (e : Error) :
  keeps_response (@throw Old.Store A e).
Proof. intros s. reflexivity. Qed.

Lemma keeps_response_lift {A} (o : Outcome A) :
  keeps_response (@lift Old.Store A o).
Proof. intros s. reflexivity. Qed.

Lemma keeps_response_emit (e : Old.Event) : keeps_response (Old.emit e).
Proof. intros s. reflexivity. Qed.

Lemma keeps_response_setStatusIdle : keeps_response Old.setStatusIdle.
Proof. intros s. reflexivity. Qed.

Lemma keeps_response_setStatusBusy (msg : string) :
  keeps_response (Old.setStatusBusy msg).
Proof. intros s. reflexivity. Qed.

Lemma keeps_response_bind {A B} (m : M Old.Store A) (f : A -> M Old.Store B) :
  keeps_response m -> (forall a, keeps_response (f a)) ->
  keeps_response (bind m f).
Proof.
  intros Hm Hf s. unfold bind. specialize (Hm s).
  destruct (m s) as [[a|e] s1]; cbn [snd] in *.
  - now rewrite Hf.
  - exact Hm.
Qed.

Lemma keeps_response_try {A} (m : M Old.Store A) (h : Error -> M Old.Store A) :
  keeps_response m -> (forall e, keeps_response (h e)) ->
  keeps_response (try_catch m h).
Proof.
  intros Hm Hh s. unfold try_catch. specialize (Hm s).
  destruct (m s) as [[a|e] s1]; cbn [snd] in *.
  - exact Hm.
  - now rewrite Hh.
Qed.

Lemma keeps_response_for_of {A} (xs : list A) (body : A -> M Old.Store unit) :
  (forall x, keeps_response (body x)) -> keeps_response (for_of xs body).
Proof.
  intros Hb. induction xs as [|x xs IH]; cbn [for_of].
  - apply keeps_response_ret.
  - apply keeps_response_bind; [apply Hb|intros _; exact IH].
Qed.

Create HintDb response.
#[local] Hint Resolve keeps_response_ret keeps_response_throw
  keeps_response_lift keeps_response_emit keeps_response_setStatusIdle
  keeps_response_setStatusBusy : response.

Ltac response_step :=
  first
    [ apply keeps_response_bind; [|intros ?]
    | apply keeps_response_try; [|intros ?]
    | apply keeps_response_for_of; intros ?
    | solve [auto with response] ].

Lemma keeps_response_installBuilders (W : Old.World) (dir : string)
  (bc : list Old.BuildConfig.t) :
  keeps_response (Old.installBuilders W dir bc).
Proof. unfold Old.installBuilders. repeat response_step. Qed.

Lemma keeps_response_buildLambdas (W : Old.World) (cwd dir : string)
  (bc : list Old.BuildConfig.t) :
  keeps_response (Old.buildLambdas W cwd dir bc).
Proof.
  intros s.
  pose proof (build_all_outcome W cwd dir) as Hall.
  unfold Old.buildLambdas. unfold bind at 1. unfold Old.emit at 1, modify at 1.
  unfold bind at 1. unfold lift at 1.
  destruct (Old.glob W "**" cwd) as [files|e]; [|reflexivity].
  match goal with
  | |- context [Old.build_all W cwd dir files bc ?r ?t] =>
      specialize (Hall files bc r t);
      destruct (Old.build_all W cwd dir files bc r t) as [[r'|e'] s']
  end; cbn [snd]; destruct Hall as [H1 H2].
  - destruct H2 as (_ & _ & C). exact C.
  - destruct H1 as (_ & _ & C). exact C.
Qed.

Lemma keeps_response_buildUserProject (W : Old.World) (cwd dir : string)
  (bc : list Old.BuildConfig.t) :
  keeps_response (Old.buildUserProject W cwd dir bc).
Proof.
  unfold Old.buildUserProject.
  apply keeps_response_try; [|intros e; auto with response].
  apply keeps_response_bind; [auto with response|intros _].
  apply keeps_response_bind; [apply keeps_response_installBuilders|intros _].
  apply keeps_response_bind; [auto with response|intros _].
  apply keeps_response_bind; [apply keeps_response_buildLambdas|intros assets].
  repeat response_step.
Qed.

Lemma keeps_response_serveBuilds (W : Old.World) (cwd dir : string)
  (req : Req.t) (nowJson : Old.NowJson.t) (bc : list Old.BuildConfig.t) :
  keeps_response (Old.serveBuilds W cwd dir req nowJson bc).
Proof.
  unfold Old.serveBuilds.
  apply keeps_response_bind; [apply keeps_response_buildUserProject|intros assets].
  apply keeps_response_bind; [auto with response|intros found].
  apply keeps_response_bind; [auto with response|intros _].
  repeat match goal with
         | |- keeps_response (match ?x with _ => _ end) => destruct x
         end;
    repeat response_step.
Qed.

Lemma favicon_dispatch {A} (url : option string) (x y : A) :
  match url with
  | Some "/favicon.ico"%string => x
  | _ => y
  end
  = if is_favicon url then x else y.
Proof.
  destruct url as [c|]; [|reflexivity]. unfold is_favicon.
  first_char c. first_char c. first_char c. first_char c.
  first_char c. first_char c. first_char c. first_char c.
  first_char c. first_char c. first_char c. first_char c.
  destruct c; reflexivity.
Qed.

(** What [devServerHandler] of the first variant does once it is past the
    busy check and the favicon check. *)
Lemma old_handler_serving (W : Old.World) (cwd dir : string) (req : Req.t)
  (s : Old.Store) :
  Old.status s <> DevServerStatus.busy ->
  is_favicon (Req.url req) = false ->
  Old.devServerHandler W cwd dir req s
  = bind (try_catch
            (bind (lift (Old.readLocalConfig W cwd))
               (fun nowJson =>
                  match nowJson with
                  | None => Old.serveStatics W cwd req
                  | Some nj =>
                      match Old.NowJson.builds nj with
                      | Some buildsConfig =>
                          Old.serveBuilds W cwd dir req nj buildsConfig
                      | None => ret tt
                      end
                  end))
            (fun err =>
               bind (Old.setStatusError (message err))
                 (fun _ => Old.emit (Old.Console (stack err)))))
      (fun _ =>
         bind read (fun s' =>
           bind (if Res.finished (Old.res s') then ret tt
                 else Old.send 500 (Old.Str (Old.statusMessage s')))
             (fun _ => Old.setStatusIdle)))
      (request_logged req s).
Proof.
  intros Hbusy Hfav.
  assert (Hm : forall (x y : M Old.Store unit),
             match Old.status s with
             | DevServerStatus.busy => x
             | _ => y
             end = y).
  { intros x y. destruct (Old.status s); [congruence|reflexivity|reflexivity]. }
  unfold Old.devServerHandler. unfold bind at 1.
  unfold read at 1. rewrite Hm, favicon_dispatch, Hfav.
  unfold request_logged. unfold bind at 1.
  destruct (Req.url req) as [u|]; [|reflexivity].
  destruct (truthy u); reflexivity.
Qed.

Lemma request_logged_server (req : Req.t) (s : Old.Store) :
  Old.same_server s (request_logged req s).
Proof.
  unfold request_logged. destruct (Req.url req) as [u|]; [|apply same_server_refl].
  destruct (truthy u); [now repeat split|apply same_server_refl].
Qed.

(** Sending a string on a response of which nothing has gone out. *)
Lemma old_send_text (c : Z) (msg : string) (t : Old.Store) :
  Res.sent (Old.res t) = None ->
  Old.send c (Old.Str msg) t
  = (Ok tt,
     Old.mkStore (Old.status t) (Old.statusMessage t)
       (Res.mk c
          (set (Res.headers (Old.res t)) "content-length"
             ("Content-Length"%string, Res.Number (String.length msg)))
          (Some (Res.EndText msg)))
       (Old.log t)).
Proof.
  destruct t as [st m [code hs snt] l]. cbn [Old.res Res.sent].
  intros ->. reflexivity.
Qed.

(** The end of [devServerHandler] when the response has not been sent. *)
Lemma old_handler_tail_unsent (t : Old.Store) :
  Res.sent (Old.res t) = None ->
  bind read (fun s' =>
    bind (if Res.finished (Old.res s') then ret tt
          else Old.send 500 (Old.Str (Old.statusMessage s')))
      (fun _ => Old.setStatusIdle)) t
  = (Ok tt,
     Old.mkStore DevServerStatus.idle ""
       (Res.mk 500
          (set (Res.headers (Old.res t)) "content-length"
             ("Content-Length"%string,
              Res.Number (String.length (Old.statusMessage t))))
          (Some (Res.EndText (Old.statusMessage t))))
       (Old.log t)).
Proof.
  intros Hs. unfold bind at 1. unfold read at 1. unfold Res.finished.
  rewrite Hs. unfold bind. rewrite (old_send_text 500 _ t Hs).
  reflexivity.
Qed.

(** The end of [devServerHandler] always returns and leaves the server
    idle. *)
Lemma old_handler_tail_returns (t : Old.Store) :
  exists t',
    bind read (fun s' =>
      bind (if Res.finished (Old.res s') then ret tt
            else Old.send 500 (Old.Str (Old.statusMessage s')))
        (fun _ => Old.setStatusIdle)) t
    = (Ok tt, t') /\
    Old.status t' = DevServerStatus.idle /\
    Old.statusMessage t' = ""%string.
Proof.
  destruct (Res.sent (Old.res t)) as [x|] eqn:Hs.
  - unfold bind at 1. unfold read at 1. unfold Res.finished. rewrite Hs.
    eexists. split; [reflexivity|]. split; reflexivity.
  - rewrite (old_handler_tail_unsent t Hs).
    eexists. split; [reflexivity|]. split; reflexivity.
Qed.

(** X15.  A request for a project with build rules is never answered by the
    build itself: [serveBuilds] builds, routes and may invoke, but writes
    nothing to the response, so the handler answers with status 500 and a
    [Content-Length] header, the body being the status message (empty after
    a build) when [serveBuilds] returned and the message of the error when
    it threw; the server is idle afterwards. *)
Theorem old_built_request_answers_500 :
  forall (W : Old.World) (cwd dir : string) (req : Req.t) (s : Old.Store)
         (nowJson : Old.NowJson.t) (bc : list Old.BuildConfig.t),
    Old.status s <> DevServerStatus.busy ->
    is_favicon (Req.url req) = false ->
    Res.sent (Old.res s) = None ->
    Old.readLocalConfig W cwd = Ok (Some nowJson) ->
    Old.NowJson.builds nowJson = Some bc ->
    exists s' body,
      Old.devServerHandler W cwd dir req s = (Ok tt, s') /\
      Old.res s'
      = Res.mk 500
          (set (Res.headers (Old.res s)) "content-length"
             ("Content-Length"%string, Res.Number (String.length body)))
          (Some (Res.EndText body)) /\
      Old.status s' = DevServerStatus.idle /\
      Old.statusMessage s' = ""%string /\
      match Old.serveBuilds W cwd dir req nowJson bc (request_logged req s) with
      | (Ok _, t) => body = Old.statusMessage t
      | (Throw e, _) => body = message e
      end.
Proof.
  intros W cwd dir req s nowJson bc Hbusy Hfav Hsent Hcfg Hb.
  rewrite (old_handler_serving W cwd dir req s Hbusy Hfav).
  destruct (request_logged_server req s) as (_ & _ & Hres).
  pose proof (keeps_response_serveBuilds W cwd dir req nowJson bc
                (request_logged req s)) as Hkeep.
  unfold bind at 1. unfold try_catch. unfold bind at 1. unfold lift at 1.
  rewrite Hcfg, Hb.
  destruct (Old.serveBuilds W cwd dir req nowJson bc (request_logged req s))
    as [[[]|e] t1]; cbn [snd] in Hkeep.
  - assert (Ht1 : Old.res t1 = Old.res s) by congruence.
    rewrite old_handler_tail_unsent by (now rewrite Ht1).
    rewrite Ht1. eexists. eexists. split; [reflexivity|]. cbn.
    repeat split.
  - assert (Ht1 : Old.res t1 = Old.res s) by congruence.
    unfold bind at 1. unfold Old.setStatusError at 1, modify at 1.
    unfold Old.emit at 1, modify at 1.
    rewrite old_handler_tail_unsent by (cbn; now rewrite Ht1).
    cbn [Old.res Old.statusMessage Old.log]. rewrite Ht1.
    eexists. eexists. split; [reflexivity|]. cbn.
    repeat split.
Qed.

Lemma old_built_request_answers_500_witness :
  exists s' body,
    Old.devServerHandler Old.with_lambda "/project" "/cache"
      (Req.mk (Some "GET") (Some "/api.js") [] [])
      (Old.mkStore DevServerStatus.idle "" Res.fresh [])
    = (Ok tt, s') /\
    Old.res s'
    = Res.mk 500
        [("content-length"%string,
          ("Content-Length"%string, Res.Number (String.length body)))]
        (Some (Res.EndText body)).
Proof.
  destruct (old_built_request_answers_500 Old.with_lambda
              "/project" "/cache" (Req.mk (Some "GET") (Some "/api.js") [] [])
              (Old.mkStore DevServerStatus.idle "" Res.fresh [])
              (Old.NowJson.mk
                 (Some [Old.BuildConfig.mk "api.js" "@now/node" None]) None)
              [Old.BuildConfig.mk "api.js" "@now/node" None])
    as (s' & body & Hrun & Hres & _).
  - discriminate.
  - reflexivity.
  - reflexivity.
  - reflexivity.
  - reflexivity.
  - exists s', body. split; assumption.
Defined.

Lemma buildUserProject_fails (W : Old.World) (cwd dir : string)
  (bc : list Old.BuildConfig.t) (files : Obj string) (t : Old.Store) :
  (forall b, In b (Old.builders bc) -> Old.install W dir b = Ok tt) ->
  Old.glob W "**" cwd = Ok files ->
  forallb (Old.rule_builds W cwd dir files) bc = false ->
  exists t1,
    Old.buildUserProject W cwd dir bc t
    = (Throw (Js.error "Build failed."), t1).
Proof.
  intros Hinst Hglob Hfail.
  unfold Old.buildUserProject, try_catch.
  unfold bind at 1. unfold Old.setStatusBusy at 1, modify at 1.
  unfold bind at 1. unfold Old.installBuilders.
  rewrite install_loop_all by assumption.
  unfold bind at 1. unfold Old.setStatusBusy at 1, modify at 1.
  unfold bind at 1.
  unfold Old.buildLambdas. unfold bind at 1. unfold Old.emit at 1, modify at 1.
  unfold bind at 1. unfold lift at 1. rewrite Hglob.
  match goal with
  | |- context [Old.build_all W cwd dir files bc ?r ?u] =>
      pose proof (build_all_outcome W cwd dir files bc r u) as H;
      destruct (Old.build_all W cwd dir files bc r u) as [[r'|e'] s']
  end.
  - destruct H as [Hall _]. congruence.
  - eexists. reflexivity.
Qed.

(** X16.  When the builders install but some build rule fails, the request
    that triggered the build is answered with status 500, the body
    [Build failed.] and its length as [Content-Length], without the name of
    the rule; the failure does not escape the handler and the server is idle
    afterwards. *)
Theorem old_build_failure_answers_500 :
  forall (W : Old.World) (cwd dir : string) (req : Req.t) (s : Old.Store)
         (nowJson : Old.NowJson.t) (bc : list Old.BuildConfig.t)
         (files : Obj string),
    Old.status s <> DevServerStatus.busy ->
    is_favicon (Req.url req) = false ->
    Res.sent (Old.res s) = None ->
    Old.readLocalConfig W cwd = Ok (Some nowJson) ->
    Old.NowJson.builds nowJson = Some bc ->
    (forall b, In b (Old.builders bc) -> Old.install W dir b = Ok tt) ->
    Old.glob W "**" cwd = Ok files ->
    forallb (Old.rule_builds W cwd dir files) bc = false ->
    exists s',
      Old.devServerHandler W cwd dir req s = (Ok tt, s') /\
      Old.res s'
      = Res.mk 500
          (set (Res.headers (Old.res s)) "content-length"
             ("Content-Length"%string, Res.Number 13))
          (Some (Res.EndText "Build failed.")) /\
      Old.status s' = DevServerStatus.idle /\
      Old.statusMessage s' = ""%string.
Proof.
  intros W cwd dir req s nowJson bc files Hbusy Hfav Hsent Hcfg Hb Hinst
    Hglob Hfail.
  rewrite (old_handler_serving W cwd dir req s Hbusy Hfav).
  destruct (request_logged_server req s) as (_ & _ & Hres).
  destruct (buildUserProject_fails W cwd dir bc files (request_logged req s)
              Hinst Hglob Hfail) as (t1 & Hbuild).
  pose proof (keeps_response_buildUserProject W cwd dir bc
                (request_logged req s)) as Hkeep.
  rewrite Hbuild in Hkeep. cbn [snd] in Hkeep.
  assert (Ht1 : Old.res t1 = Old.res s) by congruence.
  unfold bind at 1. unfold try_catch. unfold bind at 1. unfold lift at 1.
  rewrite Hcfg, Hb. unfold Old.serveBuilds. unfold bind at 1.
  rewrite Hbuild.
  unfold bind at 1. unfold Old.setStatusError at 1, modify at 1.
  unfold Old.emit at 1, modify at 1.
  rewrite old_handler_tail_unsent by (cbn; now rewrite Ht1).
  cbn [Old.res Old.statusMessage Old.log]. rewrite Ht1.
  eexists. split; [reflexivity|]. cbn. repeat split.
Qed.

Lemma old_build_failure_answers_500_witness :
  exists s',
    Old.devServerHandler
      (Old.mkWorld anchored_literal_exec
         (fun _ => Ok (Some (Old.NowJson.mk
                               (Some [Old.BuildConfig.mk "*.js" "@now/broken" None])
                               None)))
         (Old.isFile Old.one_file) (Old.glob Old.one_file)
         (Old.install Old.one_file) (Old.getBuilder Old.one_file)
         (Old.createFunction Old.one_file) (Old.listen Old.one_file)
         (Old.path_join Old.one_file) (Old.path_relative Old.one_file)
         (Old.bold Old.one_file) (Old.String_of_number Old.one_file))
      "/project" "/cache" (Req.mk (Some "GET") (Some "/a.js") [] [])
      (Old.mkStore DevServerStatus.idle "" Res.fresh [])
    = (Ok tt, s') /\
    Old.res s'
    = Res.mk 500
        [("content-length"%string, ("Content-Length"%string, Res.Number 13))]
        (Some (Res.EndText "Build failed.")).
Proof.
  destruct (old_build_failure_answers_500
              (Old.mkWorld anchored_literal_exec
                 (fun _ => Ok (Some (Old.NowJson.mk
                                       (Some [Old.BuildConfig.mk "*.js" "@now/broken" None])
                                       None)))
                 (Old.isFile Old.one_file) (Old.glob Old.one_file)
                 (Old.install Old.one_file) (Old.getBuilder Old.one_file)
                 (Old.createFunction Old.one_file) (Old.listen Old.one_file)
                 (Old.path_join Old.one_file) (Old.path_relative Old.one_file)
                 (Old.bold Old.one_file) (Old.String_of_number Old.one_file))
              "/project" "/cache" (Req.mk (Some "GET") (Some "/a.js") [] [])
              (Old.mkStore DevServerStatus.idle "" Res.fresh [])
              (Old.NowJson.mk
                 (Some [Old.BuildConfig.mk "*.js" "@now/broken" None]) None)
              [Old.BuildConfig.mk "*.js" "@now/broken" None]
              [("a.js", "/project/a.js")]%string)
    as (s' & Hrun & Hres & _).
  - discriminate.
  - reflexivity.
  - reflexivity.
  - reflexivity.
  - reflexivity.
  - intros b _. reflexivity.
  - reflexivity.
  - reflexivity.
  - exists s'. split; assumption.
Defined.

(** X17.  Without a configuration the first variant serves the project
    directory.  A path that is a regular file is piped to the response with
    status 200 and, unless one is set, the content type
    [application/octet-stream]; piping does not end the response, so the
    handler then sends status 500 with the status message as body and its
    length as [Content-Length].  A path that exists but is no file is
    answered 404 with no body.  A path for which the file status cannot be
    read (it does not exist) is answered 500 with the message of that error,
    not 404.  The server is idle afterwards in each case. *)
Theorem old_statics_by_file_status :
  forall (W : Old.World) (cwd dir : string) (req : Req.t) (s : Old.Store)
         (u : string),
    Old.status s <> DevServerStatus.busy ->
    is_favicon (Req.url req) = false ->
    Res.sent (Old.res s) = None ->
    Old.readLocalConfig W cwd = Ok None ->
    Req.url req = Some u ->
    let dest := Old.path_join W cwd (strip_leading_slash u) in
    let typed :=
      if Old.truthy_value (Res.getHeader "Content-Type" (Old.res s))
      then Res.headers (Old.res s)
      else set (Res.headers (Old.res s)) "content-type"
             ("Content-Type"%string, Res.Text "application/octet-stream") in
    exists s',
      Old.devServerHandler W cwd dir req s = (Ok tt, s') /\
      Old.status s' = DevServerStatus.idle /\
      Old.statusMessage s' = ""%string /\
      Old.res s'
      = match Old.isFile W dest with
        | Ok true =>
            Res.mk 500
              (set typed "content-length"
                 ("Content-Length"%string,
                  Res.Number (String.length (Old.statusMessage s))))
              (Some (Res.EndText (Old.statusMessage s)))
        | Ok false =>
            Res.mk 404 (Res.headers (Old.res s)) (Some Res.End)
        | Throw e =>
            Res.mk 500
              (set (Res.headers (Old.res s)) "content-length"
                 ("Content-Length"%string,
                  Res.Number (String.length (message e))))
              (Some (Res.EndText (message e)))
        end /\
      Old.log s'
      = match Old.isFile W dest with
        | Ok true => Old.log (request_logged req s) ++ [Old.Pipe dest]
        | Ok false => Old.log (request_logged req s)
        | Throw e =>
            Old.log (request_logged req s) ++ [Old.Console (stack e)]
        end.
Proof.
  intros W cwd dir req s u Hbusy Hfav Hsent Hcfg Hu dest typed.
  rewrite (old_handler_serving W cwd dir req s Hbusy Hfav).
  destruct (request_logged_server req s) as (_ & Hmsg & Hres).
  destruct (request_logged req s) as [st msg r l].
  cbn [Old.res Old.statusMessage] in Hres, Hmsg. subst r msg.
  unfold bind at 1. unfold try_catch. unfold bind at 1. unfold lift at 1.
  rewrite Hcfg. unfold Old.serveStatics. rewrite Hu. fold dest.
  unfold bind at 1. unfold lift at 1.
  destruct (Old.isFile W dest) as [[|]|e].
  - subst typed. destruct (Old.res s) as [code hs snt] eqn:Hr.
    cbn [Res.sent] in Hsent. subst snt.
    unfold Old.send at 1. unfold bind at 1.
    unfold Old.update_res at 1, modify at 1.
    unfold bind at 1. unfold read at 1. cbn [Old.res Old.status Old.statusMessage Old.log].
    unfold Res.setStatusCode. cbn [Res.headers Res.sent].
    unfold Res.getHeader. cbn [Res.headers].
    destruct (Old.truthy_value
                (option_map snd (get hs (Res.lower "Content-Type")))).
    + unfold bind at 1. unfold ret at 1. unfold Old.emit at 1, modify at 1.
      rewrite old_handler_tail_unsent by reflexivity.
      eexists. split; [reflexivity|]. cbn. repeat split.
    + unfold bind at 1.
      unfold Old.set_header at 1. cbn.
      eexists. split; [reflexivity|]. cbn. repeat split.
  - unfold Old.send at 1, Old.update_res at 1, modify at 1.
    unfold bind, read, Old.send, Old.update_res, Old.setStatusIdle, modify, ret.
    cbn. unfold Res.finished, Res.finish. cbn. rewrite Hsent. cbn.
    eexists. split; [reflexivity|]. cbn. repeat split.
  - unfold bind at 1. unfold Old.setStatusError at 1, modify at 1.
    unfold Old.emit at 1, modify at 1.
    rewrite old_handler_tail_unsent by (cbn; congruence).
    eexists. split; [reflexivity|]. cbn. repeat split.
Qed.

Lemma old_statics_by_file_status_witness :
  exists s',
    Old.devServerHandler
      (Old.mkWorld anchored_literal_exec
         (Old.readLocalConfig Old.offline) (fun _ => Ok true)
         (Old.glob Old.offline) (Old.install Old.offline)
         (Old.getBuilder Old.offline) (Old.createFunction Old.offline)
         (Old.listen Old.offline) (Old.path_join Old.one_file)
         (Old.path_relative Old.offline) (Old.bold Old.offline)
         (Old.String_of_number Old.offline))
      "/project" "/cache"
      (Req.mk (Some "GET") (Some "/a.js") [] [])
      (Old.mkStore DevServerStatus.idle "" Res.fresh [])
    = (Ok tt, s') /\
    Old.res s'
    = Res.mk 500
        [("content-type"%string,
          ("Content-Type"%string, Res.Text "application/octet-stream"));
         ("content-length"%string, ("Content-Length"%string, Res.Number 0))]
        (Some (Res.EndText "")) /\
    Old.log s' = [Old.Console "/a.js"; Old.Pipe "/project/a.js"].
Proof.
  destruct (old_statics_by_file_status
              (Old.mkWorld anchored_literal_exec
                 (Old.readLocalConfig Old.offline) (fun _ => Ok true)
                 (Old.glob Old.offline) (Old.install Old.offline)
                 (Old.getBuilder Old.offline) (Old.createFunction Old.offline)
                 (Old.listen Old.offline) (Old.path_join Old.one_file)
                 (Old.path_relative Old.offline) (Old.bold Old.offline)
                 (Old.String_of_number Old.offline))
              "/project" "/cache"
              (Req.mk (Some "GET") (Some "/a.js") [] [])
              (Old.mkStore DevServerStatus.idle "" Res.fresh []) "/a.js")
    as (s' & Hrun & _ & _ & Hres & Hlog).
  - discriminate.
  - reflexivity.
  - reflexivity.
  - reflexivity.
  - reflexivity.
  - exists s'. split; [exact Hrun|]. split; [exact Hres|exact Hlog].
Defined.

(** X18.  [devServerHandler] of the first variant always returns.  Past the
    busy check, a request for the favicon is answered with an empty body
    and nothing else changes; any other request leaves the server idle with
    an empty message, whatever happened while it was served. *)
Theorem old_handler_always_returns :
  forall (W : Old.World) (cwd dir : string) (req : Req.t) (s : Old.Store),
    exists s',
      Old.devServerHandler W cwd dir req s = (Ok tt, s') /\
      (Old.status s <> DevServerStatus.busy ->
       is_favicon (Req.url req) = true ->
       s' = Old.mkStore (Old.status s) (Old.statusMessage s)
              (Res.finish (Res.EndText "") (Old.res s)) (Old.log s)) /\
      (Old.status s <> DevServerStatus.busy ->
       is_favicon (Req.url req) = false ->
       Old.status s' = DevServerStatus.idle /\
       Old.statusMessage s' = ""%string).
Proof.
  intros W cwd dir req s.
  assert (Hserve :
    Old.status s <> DevServerStatus.busy ->
    is_favicon (Req.url req) = false ->
    exists s',
      Old.devServerHandler W cwd dir req s = (Ok tt, s') /\
      Old.status s' = DevServerStatus.idle /\
      Old.statusMessage s' = ""%string).
  { intros Hnb Hfav.
    rewrite (old_handler_serving W cwd dir req s Hnb Hfav).
    unfold bind at 1. unfold try_catch.
    match goal with
    | |- context [bind (lift (Old.readLocalConfig W cwd)) ?f ?t] =>
        destruct (bind (lift (Old.readLocalConfig W cwd)) f t) as [[[]|e] t1]
    end.
    - apply old_handler_tail_returns.
    - unfold bind at 1. unfold Old.setStatusError at 1, modify at 1.
      unfold Old.emit at 1, modify at 1.
      apply old_handler_tail_returns. }
  destruct (Old.status s) eqn:Hst.
  - eexists. split.
    + unfold Old.devServerHandler. unfold bind at 1. unfold read at 1.
      rewrite Hst. reflexivity.
    + split; intros H; now destruct H.
  - destruct (is_favicon (Req.url req)) eqn:Hfav.
    + eexists. split.
      * unfold Old.devServerHandler. unfold bind at 1. unfold read at 1.
        rewrite Hst, favicon_dispatch, Hfav. reflexivity.
      * split; [|discriminate]. intros _ _. now rewrite Hst.
    + destruct Hserve as (s' & Hrun & Hidle); [discriminate|reflexivity|].
      exists s'. split; [exact Hrun|]. split; [discriminate|].
      intros _ _. exact Hidle.
  - destruct (is_favicon (Req.url req)) eqn:Hfav.
    + eexists. split.
      * unfold Old.devServerHandler. unfold bind at 1. unfold read at 1.
        rewrite Hst, favicon_dispatch, Hfav. reflexivity.
      * split; [|discriminate]. intros _ _. now rewrite Hst.
    + destruct Hserve as (s' & Hrun & Hidle); [discriminate|reflexivity|].
      exists s'. split; [exact Hrun|]. split; [discriminate|].
      intros _ _. exact Hidle.
Qed.

(** The initial installation and build of [start], with its [catch]. *)
Lemma initial_build_settles (W : Old.World) (cwd dir : string)
  (bc : list Old.BuildConfig.t) (t : Old.Store) :
  exists rejected t1,
    try_catch
      (bind (Old.setStatusBusy "installing builders") (fun _ =>
       bind (Old.installBuilders W dir bc) (fun _ =>
       bind (Old.setStatusBusy "building lambdas") (fun _ =>
       bind (Old.buildLambdas W cwd dir bc) (fun _ => ret None)))))
      (fun err => ret (Some err)) t
    = (Ok rejected, t1) /\
    Old.res t1 = Old.res t.
Proof.
  assert (Hk : keeps_response
                 (bind (Old.setStatusBusy "installing builders") (fun _ =>
                  bind (Old.installBuilders W dir bc) (fun _ =>
                  bind (Old.setStatusBusy "building lambdas") (fun _ =>
                  bind (Old.buildLambdas W cwd dir bc)
                    (fun _ => @ret Old.Store (option Error) None)))))).
  { apply keeps_response_bind; [auto with response|intros _].
    apply keeps_response_bind; [apply keeps_response_installBuilders|intros _].
    apply keeps_response_bind; [auto with response|intros _].
    apply keeps_response_bind; [apply keeps_response_buildLambdas|intros _].
    auto with response. }
  specialize (Hk t). unfold try_catch.
  destruct (bind (Old.setStatusBusy "installing builders") _ t) as [[rej|e] t1];
    cbn [snd] in Hk; eexists; eexists; (split; [reflexivity|exact Hk]).
Qed.

(** X19.  Once the configuration has been read and the server listens,
    [start] of the first variant always leaves the server idle with an empty
    message and the response untouched, also when the initial installation
    or build throws; without build rules it resolves. *)
Theorem old_start_ends_idle :
  forall (W : Old.World) (cwd dir : string) (port : Z) (s : Old.Store)
         (nowJson : option Old.NowJson.t),
    Old.readLocalConfig W cwd = Ok nowJson ->
    Old.listen W port = Ok tt ->
    exists o s',
      Old.start W cwd dir port s = (o, s') /\
      Old.status s' = DevServerStatus.idle /\
      Old.statusMessage s' = ""%string /\
      Old.res s' = Old.res s /\
      (match nowJson with
       | Some nj => Old.NowJson.builds nj = None
       | None => True
       end -> o = Ok tt).
Proof.
  intros W cwd dir port s nowJson Hcfg Hl.
  unfold Old.start. unfold bind at 1. unfold lift at 1. rewrite Hcfg.
  unfold bind at 1. unfold lift at 1. rewrite Hl.
  unfold bind at 1. unfold Old.emit at 1, modify at 1.
  assert (Hquiet : forall (rejected : option Error) (t : Old.Store),
    exists o,
      bind (Old.emit (Old.Console "ready")) (fun _ =>
        bind Old.setStatusIdle (fun _ =>
          match rejected with
          | Some err => throw err
          | None => ret tt
          end)) t
      = (o, Old.mkStore DevServerStatus.idle "" (Old.res t)
              (Old.log t ++ [Old.Console "ready"])) /\
      (rejected = None -> o = Ok tt)).
  { intros [err|] t; eexists; (split; [reflexivity|]); [discriminate|reflexivity]. }
  destruct nowJson as [nj|].
  - destruct (Old.NowJson.builds nj) as [bc|] eqn:Hb.
    + unfold bind at 1.
      match goal with
      | |- context [try_catch _ _ ?t] =>
          destruct (initial_build_settles W cwd dir bc t)
            as (rej & t1 & -> & Hk)
      end.
      destruct (Hquiet rej t1) as (o & -> & _).
      exists o. eexists. split; [reflexivity|]. cbn.
      repeat split; [exact Hk|discriminate].
    + unfold bind at 1. unfold ret at 1.
      match goal with
      | |- context [bind (Old.emit (Old.Console "ready")) _ ?t] =>
          destruct (Hquiet None t) as (o & -> & Ho)
      end.
      exists o. eexists. split; [reflexivity|]. cbn.
      repeat split. intros _. now apply Ho.
  - unfold bind at 1. unfold ret at 1.
    match goal with
    | |- context [bind (Old.emit (Old.Console "ready")) _ ?t] =>
        destruct (Hquiet None t) as (o & -> & Ho)
    end.
    exists o. eexists. split; [reflexivity|]. cbn.
    repeat split. intros _. now apply Ho.
Qed.

Lemma old_start_ends_idle_witness :
  exists o s',
    Old.start Old.offline "/project" "/cache" 3000 Old.constructed = (o, s') /\
    Old.status s' = DevServerStatus.idle /\
    o = Ok tt.
Proof.
  destruct (old_start_ends_idle Old.offline "/project" "/cache" 3000
              Old.constructed None eq_refl eq_refl)
    as (o & s' & Hrun & Hs & _ & _ & Ho).
  exists o, s'. repeat split; [exact Hrun|exact Hs|now apply Ho].
Defined.

(** ** Rewriting by the route rules *)

Lemma route_step_without_dest (W : Old.World) (accu : string)
  (r : Old.RouteConfig.t) :
  has_dest r = false -> Old.route_step W accu r = Ok accu.
Proof.
  unfold has_dest, Old.route_step.
  destruct (Old.RouteConfig.dest r) as [d|]; [|reflexivity].
  now intros ->.
Qed.

(** X20.  Rules without a [dest] (or with an empty one) play no part in the
    rewriting: the route list and the list of its rules that have a [dest]
    rewrite every path alike, so the pattern of such a rule is never
    compiled and cannot make the request fail. *)
Theorem route_ignores_rules_without_dest :
  forall (W : Old.World) (routes : list Old.RouteConfig.t) (url : string),
    Old.route_reqDest W url (Some routes)
    = Old.route_reqDest W url (Some (filter has_dest routes)).
Proof.
  intros W routes url. unfold Old.route_reqDest.
  generalize (strip_leading_slash url) as path.
  induction routes as [|r rest IH]; intros path; [reflexivity|].
  cbn [filter]. destruct (has_dest r) eqn:Hd.
  - cbn [Old.reduce]. destruct (Old.route_step W path r); [apply IH|reflexivity].
  - cbn [Old.reduce]. rewrite (route_step_without_dest W path r Hd). apply IH.
Qed.

Lemma GetSubstitution_plain (m : RegExpMatch) (before after tpl : string) :
  contains_dollar tpl = false ->
  GetSubstitution m before after tpl = tpl.
Proof.
  unfold GetSubstitution.
  induction tpl as [|c tpl IH]; [reflexivity|].
  cbn [contains_dollar]. intros H. apply orb_false_elim in H.
  destruct H as [Hc Ht].
  assert (Hstep : substitution m before after None (String c tpl)
                  = String c (substitution m before after None tpl)).
  { destruct c as [[] [] [] [] [] [] [] []]; try reflexivity.
    discriminate Hc. }
  rewrite Hstep. now rewrite IH.
Qed.

Lemma skip_length (s : string) : skip (String.length s) s = ""%string.
Proof. induction s as [|c s IH]; [reflexivity|exact IH]. Qed.

Lemma append_nothing (s : string) : (s ++ "")%string = s.
Proof. induction s as [|c s IH]; [reflexivity|]. cbn. now rewrite IH. Qed.

Lemma substring_0_0 (s : string) : substring 0 0 s = ""%string.
Proof. destruct s; reflexivity. Qed.

Lemma reduce_app (W : Old.World) (pre post : list Old.RouteConfig.t)
  (path : string) :
  Old.reduce W (pre ++ post) path
  = match Old.reduce W pre path with
    | Ok path' => Old.reduce W post path'
    | Throw e => Throw e
    end.
Proof.
  revert path. induction pre as [|r pre IH]; intros path; [reflexivity|].
  cbn [app Old.reduce]. destruct (Old.route_step W path r); [apply IH|reflexivity].
Qed.

(** X21.  Rewrites chain.  When the rules before [r] leave the path at
    [path], the anchored pattern of [r] matches the whole of [path] and the
    [dest] of [r] holds no dollar sign, the rules after [r] are applied to
    that [dest]: the path is replaced as a whole and fed to the rest of the
    list. *)
Theorem route_rewrite_feeds_later_rules :
  forall (W : Old.World) (pre post : list Old.RouteConfig.t)
         (r : Old.RouteConfig.t) (url path d : string)
         (caps : list (option string))
         (named : option (Obj (option string))),
    Old.reduce W pre (strip_leading_slash url) = Ok path ->
    Old.RouteConfig.dest r = Some d ->
    truthy d = true ->
    contains_dollar d = false ->
    Old.regexp W ("^" ++ Old.RouteConfig.src r ++ "$")%string path
    = Match (mkMatch 0 path caps named) ->
    Old.route_reqDest W url (Some (pre ++ r :: post)) = Old.reduce W post d.
Proof.
  intros W pre post r url path d caps named Hpre Hd Ht Hplain Hm.
  unfold Old.route_reqDest. rewrite reduce_app, Hpre.
  cbn [Old.reduce]. unfold Old.route_step. rewrite Hd, Ht.
  unfold replace. rewrite Hm. cbn [index matched].
  rewrite substring_0_0, GetSubstitution_plain by assumption.
  cbn [Nat.add]. rewrite skip_length.
  cbn [append]. now rewrite append_nothing.
Qed.

Lemma route_rewrite_feeds_later_rules_witness :
  Old.route_reqDest Old.offline "/old"
    (Some [Old.RouteConfig.mk "old" (Some "new") None None None;
           Old.RouteConfig.mk "new" (Some "newest") None None None])
  = Ok "newest"%string.
Proof.
  change (Old.route_reqDest Old.offline "/old"
            (Some ([] ++ Old.RouteConfig.mk "old" (Some "new") None None None
                      :: [Old.RouteConfig.mk "new" (Some "newest") None None None]))
          = Ok "newest"%string).
  rewrite (route_rewrite_feeds_later_rules Old.offline []
             [Old.RouteConfig.mk "new" (Some "newest") None None None]
             (Old.RouteConfig.mk "old" (Some "new") None None None)
             "/old" "old" "new" [] None); reflexivity.
Defined.

(** ** Build failures *)

(** A request that arrives while the lib server is busy. *)
Lemma lib_busy_request (W : Lib.World) (cwd : string) (debug : bool)
  (req : Req.t) (s : Lib.Store) :
  Lib.status s = DevServerStatus.busy ->
  Lib.devServerHandler W cwd debug req s
  = (Ok tt,
     Lib.mkStore (Lib.assets s) DevServerStatus.busy (Lib.statusMessage s)
       (Res.finish
          (Res.EndText ("[busy] " ++ Lib.statusMessage s ++ "...")%string)
          (Lib.res s))
       (Lib.log s
        ++ [Lib.LogHttp
              (show (Req.method req) ++ " " ++ show (Req.url req))%string])).
Proof.
  intros Hs. unfold Lib.devServerHandler. unfold bind at 1.
  unfold Lib.emit at 1, modify at 1. unfold bind at 1. unfold read at 1.
  cbn [Lib.status Lib.statusMessage]. rewrite Hs.
  unfold Lib.update_res, modify. cbn. reflexivity.
Qed.

(** A request that arrives while the lib server is not busy, for a project
    with a valid configuration, when [serveProjectAsNowV2] returns. *)
Lemma lib_handler_serving_config (W : Lib.World) (cwd : string) (debug : bool)
  (req : Req.t) (s : Lib.Store) (text : string) (nj : Lib.NowConfig.t)
  (r1 : Res.t) :
  Lib.status s <> DevServerStatus.busy ->
  Lib.readFile W (Lib.getNowJsonPath W cwd) = Ok text ->
  Lib.JSON_parse W text = Ok nj ->
  Lib.validateNowConfig nj = Ok tt ->
  (forall t,
     Lib.res t = Lib.res s -> Lib.assets t = Lib.assets s ->
     Lib.serveProjectAsNowV2 W cwd debug req nj t
     = (Ok tt, with_response r1 t)) ->
  Lib.devServerHandler W cwd debug req s
  = (Ok tt,
     Lib.mkStore (Lib.assets s) DevServerStatus.idle "" r1
       (Lib.log s
        ++ [Lib.LogHttp
              (show (Req.method req) ++ " " ++ show (Req.url req))%string])).
Proof.
  intros Hbusy Hr Hp Hv Hserve.
  unfold Lib.devServerHandler. unfold bind at 1.
  unfold Lib.emit at 1, modify at 1. unfold bind at 1. unfold read at 1.
  cbn [Lib.status Lib.statusMessage].
  assert (Hrun : forall t,
    Lib.res t = Lib.res s -> Lib.assets t = Lib.assets s ->
    bind (try_catch
            (bind (Lib.getNowJson W cwd)
               (fun nowJson =>
                  match nowJson with
                  | Some nj => Lib.serveProjectAsNowV2 W cwd debug req nj
                  | None => Lib.serveProjectAsStatics W cwd req
                  end))
            (fun err =>
               bind (Lib.setStatusError (message err)) (fun _ =>
               bind (Lib.logDebug debug (stack err)) (fun _ =>
               bind read (fun s' =>
                 if Res.finished (Lib.res s') then ret tt
                 else bind (Lib.update_res (Res.setStatusCode 500))
                        (fun _ =>
                           Lib.update_res
                             (Res.finish
                                (Res.EndText (Lib.statusMessage s')))))))))
      (fun _ => Lib.setStatusIdle) t
    = (Ok tt,
       Lib.mkStore (Lib.assets t) DevServerStatus.idle "" r1 (Lib.log t))).
  { intros t Hres Hassets. unfold bind at 1. unfold try_catch. unfold bind at 1.
    rewrite (getNowJson_valid W cwd t text nj Hr Hp Hv).
    rewrite (Hserve t Hres Hassets). reflexivity. }
  destruct (Lib.status s); [congruence| |]; rewrite Hrun; reflexivity.
Qed.

(** In the lib variant a [start] whose build throws rejects before it
    reaches [setStatusIdle]: the server stays busy, as the constructor left
    it, and the next request is answered with the busy notice, not from an
    asset map.  In the first variant no map is kept between requests: a
    request whose build fails is answered with status 500 and the body
    [Build failed.], which names no rule. *)
Lemma failed_start_leaves_server_busy :
  let config := Lib.NowConfig.mk (Some 2%Z) (Some []) None None None in
  let W := Lib.failing_build config in
  let t := snd (Lib.start W "/project" false 3000 Lib.constructed) in
  fst (Lib.start W "/project" false 3000 Lib.constructed)
  = Throw (Js.error "boom") /\
  Lib.status t = DevServerStatus.busy /\
  Lib.res (snd (Lib.devServerHandler W "/project" false
                  (Req.mk (Some "GET") (Some "/") [] [])
                  (Lib.with_fresh_response t)))
  = Res.mk 200 [] (Some (Res.EndText "[busy] ...")) /\
  Old.res
    (snd (Old.devServerHandler
            (Old.mkWorld anchored_literal_exec
               (fun _ => Ok (Some (Old.NowJson.mk
                                     (Some [Old.BuildConfig.mk "*.js" "@now/broken" None])
                                     None)))
               (Old.isFile Old.one_file) (Old.glob Old.one_file)
               (Old.install Old.one_file) (Old.getBuilder Old.one_file)
               (Old.createFunction Old.one_file) (Old.listen Old.one_file)
               (Old.path_join Old.one_file) (Old.path_relative Old.one_file)
               (Old.bold Old.one_file) (Old.String_of_number Old.one_file))
            "/project" "/cache" (Req.mk (Some "GET") (Some "/a.js") [] [])
            (Old.mkStore DevServerStatus.idle "" Res.fresh [])))
  = Res.mk 500
      [("content-length"%string, ("Content-Length"%string, Res.Number 13))]
      (Some (Res.EndText "Build failed.")).
Proof.
  cbv zeta. repeat split; reflexivity.
Qed.

(** C5, as the code has it.  When the calls made for some build rule throw,
    [buildLambdas] throws too: the run stops at the first such rule, the
    error it throws carries the code [NOW_BUILDER_FAILURE] and a message
    naming that rule's [src] and [use], and no result map is returned, so
    whatever had been merged is dropped.  In the lib variant a [start] whose
    build throws rejects with the error of the build and leaves the stored
    asset map and the response as they were, with the status the build left;
    a [start] that fails for any reason leaves the map as it was, and
    handling requests never changes it.  What a later request gets depends on
    the status: while it is busy the request is answered with the busy
    notice; once it is not, a request that reaches the asset lookup is
    answered by what its destination resolves to in that unchanged map. *)
Theorem build_failure_atomic :
  forall (W : Old.World) (cwd dir : string) (bc : list Old.BuildConfig.t)
         (files : Obj string) (s : Old.Store),
    Old.glob W "**" cwd = Ok files ->
    forallb (Old.rule_builds W cwd dir files) bc = false ->
    (exists pre build post e s',
        bc = pre ++ build :: post /\
        forallb (Old.rule_builds W cwd dir files) pre = true /\
        Old.rule_builds W cwd dir files build = false /\
        Old.buildLambdas W cwd dir bc s = (Throw e, s') /\
        code e = Some "NOW_BUILDER_FAILURE"%string /\
        message e
        = ("Failed building " ++ Old.bold W (Old.BuildConfig.src build)
           ++ " with " ++ Old.BuildConfig.use build)%string /\
        Old.same_server s s') /\
    (forall (L : Lib.World) (root : string) (debug : bool) (port : Z)
            (t : Lib.Store) (text : string) (nj : Lib.NowConfig.t)
            (builds : list Lib.BuildConfig.t) (e : Error) (flag : Lib.Flag),
        Lib.listen L port = Ok tt ->
        Lib.readFile L (Lib.getNowJsonPath L root) = Ok text ->
        Lib.JSON_parse L text = Ok nj ->
        Lib.validateNowConfig nj = Ok tt ->
        Lib.NowConfig.builds nj = Some builds ->
        Lib.buildUserProject L nj (Lib.status t, Lib.statusMessage t)
        = (Throw e, flag) ->
        exists t',
          Lib.start L root debug port t = (Throw e, t') /\
          Lib.assets t' = Lib.assets t /\
          Lib.status t' = fst flag /\
          Lib.statusMessage t' = snd flag /\
          Lib.res t' = Lib.res t) /\
    (forall (L : Lib.World) (root : string) (debug : bool) (port : Z)
            (t t' : Lib.Store) (e : Error),
        Lib.start L root debug port t = (Throw e, t') ->
        Lib.assets t' = Lib.assets t) /\
    (forall (L : Lib.World) (root : string) (debug : bool)
            (reqs : list Req.t) (t : Lib.Store),
        Lib.assets (Lib.serve L root debug reqs t) = Lib.assets t) /\
    (forall (L : Lib.World) (root : string) (debug : bool) (req : Req.t)
            (t : Lib.Store),
        Lib.status t = DevServerStatus.busy ->
        Lib.devServerHandler L root debug req (Lib.with_fresh_response t)
        = (Ok tt,
           Lib.mkStore (Lib.assets t) DevServerStatus.busy
             (Lib.statusMessage t)
             (Res.mk 200 []
                (Some (Res.EndText
                         ("[busy] " ++ Lib.statusMessage t ++ "...")%string)))
             (Lib.log t
              ++ [Lib.LogHttp
                    (show (Req.method req) ++ " "
                     ++ show (Req.url req))%string]))) /\
    (forall (L : Lib.World) (root : string) (debug : bool) (req : Req.t)
            (t : Lib.Store) (text : string) (nj : Lib.NowConfig.t)
            (builds : list Lib.BuildConfig.t) (routed : Lib.RouteResult.t)
            (r : Res.t),
        Lib.status t <> DevServerStatus.busy ->
        Lib.readFile L (Lib.getNowJsonPath L root) = Ok text ->
        Lib.JSON_parse L text = Ok nj ->
        Lib.validateNowConfig nj = Ok tt ->
        Lib.NowConfig.builds nj = Some builds ->
        Lib.devRouter L (Req.url req) (Lib.NowConfig.routes nj) = Ok routed ->
        Lib.isURL L (Lib.RouteResult.dest routed) = false ->
        Lib.is_redirect (Lib.status_or_200 routed) = false ->
        Res.set_all (Lib.headers_or_empty routed) Res.fresh = Ok r ->
        match Lib.resolveDest (Lib.assets t) (Lib.RouteResult.dest routed) with
        | None =>
            Lib.res (snd (Lib.devServerHandler L root debug req
                            (Lib.with_fresh_response t)))
            = Res.finish Res.End (Res.setStatusCode 404 r)
        | Some (Lib.BuilderOutput.FileFsRef fsPath) =>
            Lib.res (snd (Lib.devServerHandler L root debug req
                            (Lib.with_fresh_response t)))
            = Res.finish
                (Res.ServeHandler (Lib.dirname L fsPath)
                   (Some ("/" ++ Lib.basename L fsPath)%string)) r
        | Some (Lib.BuilderOutput.Lambda None) =>
            Lib.res (snd (Lib.devServerHandler L root debug req
                            (Lib.with_fresh_response t)))
            = Res.finish (Res.EndText "Lambda function has not been built")
                (Res.setStatusCode 500 r)
        | Some (Lib.BuilderOutput.Lambda (Some _)) => True
        | Some (Lib.BuilderOutput.Other _)
        | Some (Lib.BuilderOutput.Inherited _) =>
            Lib.res (snd (Lib.devServerHandler L root debug req
                            (Lib.with_fresh_response t)))
            = Res.finish Res.End (Res.setStatusCode 500 r)
        end).
Proof.
  intros W cwd dir bc files s Hglob Hfail.
  split; [|split; [|split; [|split; [|split]]]].
  - unfold Old.buildLambdas. unfold bind at 1.
    unfold Old.emit at 1, modify at 1. unfold bind at 1. unfold lift at 1.
    rewrite Hglob.
    match goal with
    | |- context [Old.build_all W cwd dir files bc ?r ?t] =>
        pose proof (build_all_outcome W cwd dir files bc r t) as H;
        destruct (Old.build_all W cwd dir files bc r t) as [[r'|e] s']
    end.
    + destruct H as [Hall _]. congruence.
    + destruct H as [(A & B & C) (pre & build & post & err & Hbc & Hpre & Hb & ->)].
      exists pre, build, post, (Old.builder_failure W build err), s'.
      repeat split; assumption.
  - intros L root debug port t text nj builds e flag Hl Hr Hp Hv Hb Hbuild.
    unfold Lib.start. unfold bind at 1.
    rewrite (getNowJson_valid L root t text nj Hr Hp Hv).
    rewrite Hl. cbn [Lib.Promise_all2 fst]. rewrite Hb.
    unfold bind at 1. unfold Lib.emit at 1, modify at 1.
    unfold bind at 1. unfold bind at 1.
    unfold Lib.logDebug.
    destruct debug;
      unfold bind, Lib.emit, modify, ret, Lib.with_flag;
      cbn [Lib.status Lib.statusMessage]; rewrite Hbuild; destruct flag;
      (eexists; split; [reflexivity|]; cbn; repeat split; reflexivity).
  - intros L root debug port t t' e. apply start_failure_keeps_assets.
  - intros L root debug reqs t. apply serve_keeps_assets.
  - intros L root debug req t Hs.
    rewrite (lib_busy_request L root debug req (Lib.with_fresh_response t) Hs).
    reflexivity.
  - intros L root debug req t text nj builds routed r Hnb Hr Hp Hv Hb Hroute
      Hurl Hred Hset.
    assert (Hdispatch : forall r1,
      (forall t0,
         Lib.res t0 = Res.fresh -> Lib.assets t0 = Lib.assets t ->
         Lib.serveProjectAsNowV2 L root debug req nj t0
         = (Ok tt, with_response r1 t0)) ->
      Lib.res (snd (Lib.devServerHandler L root debug req
                      (Lib.with_fresh_response t))) = r1).
    { intros r1 Hserve.
      rewrite (lib_handler_serving_config L root debug req
                 (Lib.with_fresh_response t) text nj r1 Hnb Hr Hp Hv Hserve).
      reflexivity. }
    destruct (Lib.resolveDest (Lib.assets t) (Lib.RouteResult.dest routed))
      as [[fsPath|[f|]|ty|name]|] eqn:Hres; try exact I;
      apply Hdispatch; intros t0 Hres0 Hassets0;
      rewrite <- Hres0 in Hset;
      rewrite (serveProjectAsNowV2_after_routing L root debug req nj routed
                 t0 r Hroute Hset);
      rewrite Hurl, Hred, Hb; unfold bind at 1; unfold read at 1;
      cbn [with_response Lib.assets]; rewrite Hassets0, Hres; reflexivity.
Qed.

Lemma build_failure_atomic_witness :
  (exists e s',
     Old.buildLambdas Old.one_file "/project" "/cache"
       [Old.BuildConfig.mk "api/*.js" "@now/node" None;
        Old.BuildConfig.mk "lib/*.js" "@now/broken" None;
        Old.BuildConfig.mk "www/*.js" "@now/node" None]
       Old.constructed
     = (Throw e, s') /\
     message e = "Failed building lib/*.js with @now/broken"%string) /\
  (exists t',
     Lib.start
       (Lib.failing_build
          (Lib.NowConfig.mk (Some 2%Z) (Some []) None None None))
       "/project" false 3000 Lib.constructed
     = (Throw (Js.error "boom"), t') /\
     Lib.assets t' = [] /\
     Lib.status t' = DevServerStatus.busy) /\
  Lib.res
    (snd (Lib.devServerHandler
            (Lib.project
               (Lib.NowConfig.mk (Some 2%Z) (Some []) None None None))
            "/project" false (Req.mk (Some "GET") (Some "/missing") [] [])
            (Lib.with_fresh_response Lib.started)))
  = Res.mk 404 [] (Some Res.End).
Proof.
  destruct (build_failure_atomic Old.one_file "/project" "/cache"
              [Old.BuildConfig.mk "api/*.js" "@now/node" None;
               Old.BuildConfig.mk "lib/*.js" "@now/broken" None;
               Old.BuildConfig.mk "www/*.js" "@now/node" None]
              [("a.js", "/project/a.js")]%string Old.constructed
              eq_refl eq_refl)
    as ((pre & build & post & e & s' & Hbc & Hpre & Hb & Hrun & _ & Hmsg & _)
        & Hstart & _ & _ & _ & Hserve).
  split; [|split].
  - exists e, s'. split; [exact Hrun|].
    rewrite Hmsg.
    destruct pre as [|b1 [|b2 pre]].
    + injection Hbc as <- _. discriminate Hb.
    + injection Hbc as _ <- _. reflexivity.
    + injection Hbc as <- <- Hrest.
      cbn in Hpre. discriminate Hpre.
  - destruct (Hstart
                (Lib.failing_build
                   (Lib.NowConfig.mk (Some 2%Z) (Some []) None None None))
                "/project"%string false 3000%Z Lib.constructed
                "now.json"%string
                (Lib.NowConfig.mk (Some 2%Z) (Some []) None None None)
                [] (Js.error "boom") (DevServerStatus.busy, ""%string)
                eq_refl eq_refl eq_refl eq_refl eq_refl eq_refl)
      as (t' & Hfail & Ha & Hst & _).
    exists t'. repeat split; assumption.
  - exact (Hserve
             (Lib.project
                (Lib.NowConfig.mk (Some 2%Z) (Some []) None None None))
             "/project"%string false
             (Req.mk (Some "GET") (Some "/missing") [] [])
             Lib.started "now.json"%string
             (Lib.NowConfig.mk (Some 2%Z) (Some []) None None None)
             []
             (Lib.RouteResult.mk "/missing" (Some 200%Z) (Some []) [] None)
             Res.fresh
             ltac:(discriminate) eq_refl eq_refl eq_refl eq_refl eq_refl
             eq_refl eq_refl eq_refl).
Defined.

(** ** Invocation adapter *)

Lemma invoked_app (l l' : list Old.Event) :
  Old.invoked (l ++ l') = Old.invoked l ++ Old.invoked l'.
Proof.
  induction l as [|e l IH]; [reflexivity|].
  destruct e; cbn [app Old.invoked]; rewrite IH; reflexivity.
Qed.

Lemma invokes_nothing_ret {A} (a : A) : invokes_nothing (@ret Old.Store A a).
Proof. intros s. reflexivity. Qed.

Lemma invokes_nothing_throw {A} (e : Error) :
  invokes_nothing (@throw Old.Store A e).
Proof. intros s. reflexivity. Qed.

Lemma invokes_nothing_lift {A} (o : Outcome A) :
  invokes_nothing (@lift Old.Store A o).
Proof. intros s. reflexivity. Qed.

Lemma invokes_nothing_emit (e : Old.Event) :
  Old.invoked [e] = [] -> invokes_nothing (Old.emit e).
Proof.
  intros He s. unfold Old.emit, modify. cbn [snd Old.log].
  rewrite invoked_app, He. apply app_nil_r.
Qed.

Lemma invokes_nothing_setStatusIdle : invokes_nothing Old.setStatusIdle.
Proof. intros s. reflexivity. Qed.

Lemma invokes_nothing_setStatusBusy (msg : string) :
  invokes_nothing (Old.setStatusBusy msg).
Proof. intros s. reflexivity. Qed.

Lemma invokes_nothing_bind {A B} (m : M Old.Store A) (f : A -> M Old.Store B) :
  invokes_nothing m -> (forall a, invokes_nothing (f a)) ->
  invokes_nothing (bind m f).
Proof.
  intros Hm Hf s. unfold bind. specialize (Hm s).
  destruct (m s) as [[a|e] s1]; cbn [snd] in *.
  - now rewrite Hf.
  - exact Hm.
Qed.

Lemma invokes_nothing_try {A} (m : M Old.Store A) (h : Error -> M Old.Store A) :
  invokes_nothing m -> (forall e, invokes_nothing (h e)) ->
  invokes_nothing (try_catch m h).
Proof.
  intros Hm Hh s. unfold try_catch. specialize (Hm s).
  destruct (m s) as [[a|e] s1]; cbn [snd] in *.
  - exact Hm.
  - now rewrite Hh.
Qed.

Lemma invokes_nothing_for_of {A} (xs : list A) (body : A -> M Old.Store unit) :
  (forall x, invokes_nothing (body x)) -> invokes_nothing (for_of xs body).
Proof.
  intros Hb. induction xs as [|x xs IH]; cbn [for_of].
  - apply invokes_nothing_ret.
  - apply invokes_nothing_bind; [apply Hb|intros _; exact IH].
Qed.

Create HintDb invokes.
#[local] Hint Resolve invokes_nothing_ret invokes_nothing_throw
  invokes_nothing_lift invokes_nothing_setStatusIdle
  invokes_nothing_setStatusBusy : invokes.

Ltac invokes_step :=
  first
    [ apply invokes_nothing_bind; [|intros ?]
    | apply invokes_nothing_try; [|intros ?]
    | apply invokes_nothing_for_of; intros ?
    | apply invokes_nothing_emit; reflexivity
    | solve [auto with invokes] ].

Lemma invokes_nothing_installBuilders (W : Old.World) (dir : string)
  (bc : list Old.BuildConfig.t) :
  invokes_nothing (Old.installBuilders W dir bc).
Proof. unfold Old.installBuilders. repeat invokes_step. Qed.

Lemma invokes_nothing_build_entries (W : Old.World) (cwd : string)
  (build : Old.BuildConfig.t)
  (builder : Old.BuildArgs.t -> Outcome Old.BuilderOutputs)
  (files : Obj string) (entries : list string) (results : Old.BuilderOutputs) :
  invokes_nothing (Old.build_entries W cwd build builder files entries results).
Proof.
  revert results. induction entries as [|fsPath rest IH]; intros results;
    cbn [Old.build_entries].
  - apply invokes_nothing_ret.
  - apply invokes_nothing_bind; [apply invokes_nothing_emit; reflexivity|intros _].
    apply invokes_nothing_bind; [apply invokes_nothing_lift|intros output].
    apply IH.
Qed.

Lemma invokes_nothing_build_all (W : Old.World) (cwd dir : string)
  (files : Obj string) (bc : list Old.BuildConfig.t)
  (results : Old.BuilderOutputs) :
  invokes_nothing (Old.build_all W cwd dir files bc results).
Proof.
  revert results. induction bc as [|build rest IH]; intros results;
    cbn [Old.build_all].
  - apply invokes_nothing_ret.
  - apply invokes_nothing_bind; [|intros results'; apply IH].
    unfold Old.build_one.
    apply invokes_nothing_try; [|intros e; apply invokes_nothing_throw].
    apply invokes_nothing_bind; [apply invokes_nothing_emit; reflexivity|intros _].
    apply invokes_nothing_bind; [apply invokes_nothing_emit; reflexivity|intros _].
    apply invokes_nothing_bind; [apply invokes_nothing_lift|intros found].
    apply invokes_nothing_bind; [apply invokes_nothing_emit; reflexivity|intros _].
    apply invokes_nothing_bind; [apply invokes_nothing_lift|intros builder].
    apply invokes_nothing_build_entries.
Qed.

Lemma invokes_nothing_buildUserProject (W : Old.World) (cwd dir : string)
  (bc : list Old.BuildConfig.t) :
  invokes_nothing (Old.buildUserProject W cwd dir bc).
Proof.
  unfold Old.buildUserProject.
  apply invokes_nothing_try; [|intros e; apply invokes_nothing_throw].
  apply invokes_nothing_bind; [auto with invokes|intros _].
  apply invokes_nothing_bind; [apply invokes_nothing_installBuilders|intros _].
  apply invokes_nothing_bind; [auto with invokes|intros _].
  apply invokes_nothing_bind; [|intros assets; repeat invokes_step].
  unfold Old.buildLambdas.
  apply invokes_nothing_bind; [apply invokes_nothing_emit; reflexivity|intros _].
  apply invokes_nothing_bind; [apply invokes_nothing_lift|intros files].
  apply invokes_nothing_build_all.
Qed.

(** The only invocation of [serveBuilds] carries the fixed sample body. *)
Lemma serveBuilds_invokes_sample (W : Old.World) (cwd dir : string)
  (req : Req.t) (nowJson : Old.NowJson.t) (bc : list Old.BuildConfig.t)
  (s : Old.Store) :
  let sample :=
    Old.Payload.mk (Req.method req) (Req.url req) (Req.headers req)
      "base64" Base64.eiyo_base64 in
  let s' := snd (Old.serveBuilds W cwd dir req nowJson bc s) in
  Old.invoked (Old.log s') = Old.invoked (Old.log s) \/
  Old.invoked (Old.log s') = Old.invoked (Old.log s) ++ [sample].
Proof.
  intros sample s'. subst s'.
  pose (Q := fun (m : M Old.Store unit) =>
          forall t,
            Old.invoked (Old.log (snd (m t))) = Old.invoked (Old.log t) \/
            Old.invoked (Old.log (snd (m t)))
            = Old.invoked (Old.log t) ++ [sample]).
  assert (Hbind : forall A (m : M Old.Store A) (f : A -> M Old.Store unit),
             invokes_nothing m -> (forall a, Q (f a)) -> Q (bind m f)).
  { intros A m f Hm Hf t. unfold bind. specialize (Hm t).
    destruct (m t) as [[a|e] t1]; cbn [snd] in *.
    - rewrite <- Hm. apply Hf.
    - left. exact Hm. }
  assert (Hret : Q (ret tt)) by (intros t; now left).
  assert (Hlambda : forall found,
    Q (bind (Old.emit (Old.CreateFunction found)) (fun _ =>
       bind (lift (Old.createFunction W found)) (fun fn =>
       bind (Old.emit (Old.Invoke sample)) (fun _ =>
       bind (lift (fn sample)) (fun invoked =>
       Old.emit (Old.Console invoked))))))).
  { intros found.
    apply Hbind; [apply invokes_nothing_emit; reflexivity|intros _].
    apply Hbind; [apply invokes_nothing_lift|intros fn].
    intros t. right. unfold bind, lift, Old.emit, modify.
    destruct (fn sample) as [text|e]; cbn [snd Old.log];
      repeat rewrite invoked_app; cbn [Old.invoked];
      repeat rewrite app_nil_r; reflexivity. }
  revert s. change (Q (Old.serveBuilds W cwd dir req nowJson bc)).
  unfold Old.serveBuilds.
  apply Hbind; [apply invokes_nothing_buildUserProject|intros assets].
  apply Hbind; [apply invokes_nothing_lift|intros found].
  apply Hbind; [apply invokes_nothing_emit; reflexivity|intros _].
  repeat match goal with
         | |- Q (match ?x with _ => _ end) => destruct x
         end;
    first [exact Hret | apply Hlambda].
Qed.



